(** * GTT virtualization (drivers/gpu/drm/i915/gvt/gtt.c)

    A shallow embedding of the shadow page-table core of the GVT-g
    graphics-memory virtualization layer, and the properties of it that
    the design document states.

    Conventions.
    - [u64] and [unsigned long] values are [Z] kept in [0, 2^64); the
      wrap-around is written out ([u64]) wherever the C arithmetic can
      leave that range.
    - C objects reached through pointers (shadow page tables, mm objects,
      out-of-sync pages) live in arenas ([gmap]) keyed by an identifier
      that plays the role of the address.
    - Kernel list heads are Rocq lists, first element first.
    - The hypervisor, the page allocator and the DMA layer are outside the
      file; they appear as an oracle record [host]. *)

From Stdlib Require Import ZArith Lia Bool List.
From stdpp Require Import base option list gmap.
Import ListNotations.
Local Open Scope Z_scope.

(** ** Machine integers *)

Definition u64 (x : Z) : Z := x mod 2 ^ 64.
Definition u32 (x : Z) : Z := x mod 2 ^ 32.

(** [~x] on an unsigned long. *)
Definition u64_not (x : Z) : Z := 2 ^ 64 - 1 - x.

(** Conversion of a pointer to [bool]. *)
Definition non_null {A} (p : option A) : bool :=
  match p with Some _ => true | None => false end.

(** Conversion of a C scalar to [bool]. *)
Definition nonzero (x : Z) : bool := negb (x =? 0).

(** errno values (include/uapi/asm-generic/errno-base.h). *)
Definition ENXIO : Z := 6.
Definition ENOMEM : Z := 12.
Definition EINVAL : Z := 22.

Definition GTT_PAGE_SHIFT : Z := 12.
Definition GTT_PAGE_SIZE : Z := Z.shiftl 1 GTT_PAGE_SHIFT.
(** [~GTT_PAGE_MASK], the offset bits of an address. *)
Definition GTT_PAGE_OFFSET_MASK : Z := GTT_PAGE_SIZE - 1.
Definition PAGE_SIZE : Z := 4096.
Definition PAGE_SHIFT : Z := 12.

(** [INTEL_GVT_INVALID_ADDR] is [(~0UL)]. *)
Definition INTEL_GVT_INVALID_ADDR : Z := u64_not 0.

(** ** Entry and page-table types

    [intel_gvt_gtt_type_t].  The enumeration is declared in gtt.h; the
    macros of gtt.c compare its members numerically, so the embedding
    keeps both the symbolic members and their values, numbered in
    declaration order from [GTT_TYPE_INVALID = -1]. *)

Inductive gtt_type : Type :=
| GTT_TYPE_INVALID
| GTT_TYPE_GGTT_PTE
| GTT_TYPE_PPGTT_PTE_4K_ENTRY
| GTT_TYPE_PPGTT_PTE_2M_ENTRY
| GTT_TYPE_PPGTT_PTE_1G_ENTRY
| GTT_TYPE_PPGTT_PTE_ENTRY
| GTT_TYPE_PPGTT_PDE_ENTRY
| GTT_TYPE_PPGTT_PDP_ENTRY
| GTT_TYPE_PPGTT_PML4_ENTRY
| GTT_TYPE_PPGTT_ROOT_ENTRY
| GTT_TYPE_PPGTT_ROOT_L3_ENTRY
| GTT_TYPE_PPGTT_ROOT_L4_ENTRY
| GTT_TYPE_PPGTT_ENTRY
| GTT_TYPE_PPGTT_PTE_PT
| GTT_TYPE_PPGTT_PDE_PT
| GTT_TYPE_PPGTT_PDP_PT
| GTT_TYPE_PPGTT_PML4_PT
| GTT_TYPE_MAX.

#[global] Instance gtt_type_eq_dec : EqDecision gtt_type.
Proof. solve_decision. Defined.

Definition gtt_type_val (t : gtt_type) : Z :=
  match t with
  | GTT_TYPE_INVALID => -1
  | GTT_TYPE_GGTT_PTE => 0
  | GTT_TYPE_PPGTT_PTE_4K_ENTRY => 1
  | GTT_TYPE_PPGTT_PTE_2M_ENTRY => 2
  | GTT_TYPE_PPGTT_PTE_1G_ENTRY => 3
  | GTT_TYPE_PPGTT_PTE_ENTRY => 4
  | GTT_TYPE_PPGTT_PDE_ENTRY => 5
  | GTT_TYPE_PPGTT_PDP_ENTRY => 6
  | GTT_TYPE_PPGTT_PML4_ENTRY => 7
  | GTT_TYPE_PPGTT_ROOT_ENTRY => 8
  | GTT_TYPE_PPGTT_ROOT_L3_ENTRY => 9
  | GTT_TYPE_PPGTT_ROOT_L4_ENTRY => 10
  | GTT_TYPE_PPGTT_ENTRY => 11
  | GTT_TYPE_PPGTT_PTE_PT => 12
  | GTT_TYPE_PPGTT_PDE_PT => 13
  | GTT_TYPE_PPGTT_PDP_PT => 14
  | GTT_TYPE_PPGTT_PML4_PT => 15
  | GTT_TYPE_MAX => 16
  end.

Definition gtt_type_is_entry (t : gtt_type) : bool :=
  (gtt_type_val GTT_TYPE_INVALID <? gtt_type_val t)
  && (gtt_type_val t <? gtt_type_val GTT_TYPE_PPGTT_ENTRY)
  && negb (bool_decide (t = GTT_TYPE_PPGTT_PTE_ENTRY))
  && negb (bool_decide (t = GTT_TYPE_PPGTT_ROOT_ENTRY)).

Definition gtt_type_is_pt (t : gtt_type) : bool :=
  (gtt_type_val GTT_TYPE_PPGTT_PTE_PT <=? gtt_type_val t)
  && (gtt_type_val t <? gtt_type_val GTT_TYPE_MAX).

Definition gtt_type_is_pte_pt (t : gtt_type) : bool :=
  bool_decide (t = GTT_TYPE_PPGTT_PTE_PT).

Definition gtt_type_is_root_pointer (t : gtt_type) : bool :=
  gtt_type_is_entry t
  && (gtt_type_val GTT_TYPE_PPGTT_ROOT_ENTRY <? gtt_type_val t).

(** [struct intel_gvt_gtt_entry]: the raw value and its type tag. *)
Record intel_gvt_gtt_entry : Type := mk_entry {
  val64 : Z;
  type : gtt_type;
}.

#[global] Instance intel_gvt_gtt_entry_eq_dec : EqDecision intel_gvt_gtt_entry.
Proof. solve_decision. Defined.

Definition set_val64 (e : intel_gvt_gtt_entry) (v : Z) : intel_gvt_gtt_entry :=
  {| val64 := v; type := type e |}.
Definition set_type (e : intel_gvt_gtt_entry) (t : gtt_type) : intel_gvt_gtt_entry :=
  {| val64 := val64 e; type := t |}.

(** ** The type table *)

Record gtt_type_table_entry : Type := GTT_TYPE_TABLE_ENTRY {
  entry_type : gtt_type;
  next_pt_type : gtt_type;
  pse_entry_type : gtt_type;
}.

(** [gtt_type_table[]].  The rows the initializer does not designate
    ([GTT_TYPE_PPGTT_PTE_ENTRY], [GTT_TYPE_PPGTT_ROOT_ENTRY],
    [GTT_TYPE_PPGTT_ENTRY]) are zero-filled by C, and zero is
    [GTT_TYPE_GGTT_PTE].  [GTT_TYPE_INVALID] and [GTT_TYPE_MAX] index
    outside the array; no caller does so, and the embedding answers with
    an all-invalid row there. *)
Definition gtt_type_table (t : gtt_type) : gtt_type_table_entry :=
  match t with
  | GTT_TYPE_PPGTT_ROOT_L4_ENTRY =>
      GTT_TYPE_TABLE_ENTRY GTT_TYPE_PPGTT_ROOT_L4_ENTRY GTT_TYPE_PPGTT_PML4_PT GTT_TYPE_INVALID
  | GTT_TYPE_PPGTT_PML4_PT =>
      GTT_TYPE_TABLE_ENTRY GTT_TYPE_PPGTT_PML4_ENTRY GTT_TYPE_PPGTT_PDP_PT GTT_TYPE_INVALID
  | GTT_TYPE_PPGTT_PML4_ENTRY =>
      GTT_TYPE_TABLE_ENTRY GTT_TYPE_PPGTT_PML4_ENTRY GTT_TYPE_PPGTT_PDP_PT GTT_TYPE_INVALID
  | GTT_TYPE_PPGTT_PDP_PT =>
      GTT_TYPE_TABLE_ENTRY GTT_TYPE_PPGTT_PDP_ENTRY GTT_TYPE_PPGTT_PDE_PT GTT_TYPE_PPGTT_PTE_1G_ENTRY
  | GTT_TYPE_PPGTT_ROOT_L3_ENTRY =>
      GTT_TYPE_TABLE_ENTRY GTT_TYPE_PPGTT_ROOT_L3_ENTRY GTT_TYPE_PPGTT_PDE_PT GTT_TYPE_PPGTT_PTE_1G_ENTRY
  | GTT_TYPE_PPGTT_PDP_ENTRY =>
      GTT_TYPE_TABLE_ENTRY GTT_TYPE_PPGTT_PDP_ENTRY GTT_TYPE_PPGTT_PDE_PT GTT_TYPE_PPGTT_PTE_1G_ENTRY
  | GTT_TYPE_PPGTT_PDE_PT =>
      GTT_TYPE_TABLE_ENTRY GTT_TYPE_PPGTT_PDE_ENTRY GTT_TYPE_PPGTT_PTE_PT GTT_TYPE_PPGTT_PTE_2M_ENTRY
  | GTT_TYPE_PPGTT_PDE_ENTRY =>
      GTT_TYPE_TABLE_ENTRY GTT_TYPE_PPGTT_PDE_ENTRY GTT_TYPE_PPGTT_PTE_PT GTT_TYPE_PPGTT_PTE_2M_ENTRY
  | GTT_TYPE_PPGTT_PTE_PT =>
      GTT_TYPE_TABLE_ENTRY GTT_TYPE_PPGTT_PTE_4K_ENTRY GTT_TYPE_INVALID GTT_TYPE_INVALID
  | GTT_TYPE_PPGTT_PTE_4K_ENTRY =>
      GTT_TYPE_TABLE_ENTRY GTT_TYPE_PPGTT_PTE_4K_ENTRY GTT_TYPE_INVALID GTT_TYPE_INVALID
  | GTT_TYPE_PPGTT_PTE_2M_ENTRY =>
      GTT_TYPE_TABLE_ENTRY GTT_TYPE_PPGTT_PDE_ENTRY GTT_TYPE_INVALID GTT_TYPE_PPGTT_PTE_2M_ENTRY
  | GTT_TYPE_PPGTT_PTE_1G_ENTRY =>
      GTT_TYPE_TABLE_ENTRY GTT_TYPE_PPGTT_PDP_ENTRY GTT_TYPE_INVALID GTT_TYPE_PPGTT_PTE_1G_ENTRY
  | GTT_TYPE_GGTT_PTE =>
      GTT_TYPE_TABLE_ENTRY GTT_TYPE_GGTT_PTE GTT_TYPE_INVALID GTT_TYPE_INVALID
  | GTT_TYPE_PPGTT_PTE_ENTRY | GTT_TYPE_PPGTT_ROOT_ENTRY | GTT_TYPE_PPGTT_ENTRY =>
      GTT_TYPE_TABLE_ENTRY GTT_TYPE_GGTT_PTE GTT_TYPE_GGTT_PTE GTT_TYPE_GGTT_PTE
  | GTT_TYPE_INVALID | GTT_TYPE_MAX =>
      GTT_TYPE_TABLE_ENTRY GTT_TYPE_INVALID GTT_TYPE_INVALID GTT_TYPE_INVALID
  end.

Definition get_next_pt_type (t : gtt_type) : gtt_type := next_pt_type (gtt_type_table t).
Definition get_entry_type (t : gtt_type) : gtt_type := entry_type (gtt_type_table t).
Definition get_pse_type (t : gtt_type) : gtt_type := pse_entry_type (gtt_type_table t).

(** ** Page-table entry codec (gen8) *)

Definition GTT_HAW : Z := 46.

Definition ADDR_1G_MASK : Z := Z.shiftl (Z.shiftl 1 (GTT_HAW - 30) - 1) 30.
Definition ADDR_2M_MASK : Z := Z.shiftl (Z.shiftl 1 (GTT_HAW - 21) - 1) 21.
Definition ADDR_4K_MASK : Z := Z.shiftl (Z.shiftl 1 (GTT_HAW - 12) - 1) 12.

(** The frame mask [gen8_gtt_get_pfn] and [gen8_gtt_set_pfn] select by the
    entry type. *)
Definition addr_mask (t : gtt_type) : Z :=
  if bool_decide (t = GTT_TYPE_PPGTT_PTE_1G_ENTRY) then ADDR_1G_MASK
  else if bool_decide (t = GTT_TYPE_PPGTT_PTE_2M_ENTRY) then ADDR_2M_MASK
  else ADDR_4K_MASK.

Definition gen8_gtt_get_pfn (e : intel_gvt_gtt_entry) : Z :=
  if bool_decide (type e = GTT_TYPE_PPGTT_PTE_1G_ENTRY) then
    Z.shiftr (Z.land (val64 e) ADDR_1G_MASK) 12
  else if bool_decide (type e = GTT_TYPE_PPGTT_PTE_2M_ENTRY) then
    Z.shiftr (Z.land (val64 e) ADDR_2M_MASK) 12
  else
    Z.shiftr (Z.land (val64 e) ADDR_4K_MASK) 12.

Definition gen8_gtt_set_pfn (e : intel_gvt_gtt_entry) (pfn : Z) : intel_gvt_gtt_entry :=
  let '(v, pfn) :=
    if bool_decide (type e = GTT_TYPE_PPGTT_PTE_1G_ENTRY) then
      (Z.land (val64 e) (u64_not ADDR_1G_MASK), Z.land pfn (Z.shiftr ADDR_1G_MASK 12))
    else if bool_decide (type e = GTT_TYPE_PPGTT_PTE_2M_ENTRY) then
      (Z.land (val64 e) (u64_not ADDR_2M_MASK), Z.land pfn (Z.shiftr ADDR_2M_MASK 12))
    else
      (Z.land (val64 e) (u64_not ADDR_4K_MASK), Z.land pfn (Z.shiftr ADDR_4K_MASK 12)) in
  set_val64 e (Z.lor v (Z.shiftl pfn 12)).

(** [gen8_gtt_test_pse] updates [e->type] and answers whether the entry is
    a large page; both results are returned. *)
Definition gen8_gtt_test_pse (e : intel_gvt_gtt_entry) : bool * intel_gvt_gtt_entry :=
  if bool_decide (get_pse_type (type e) = GTT_TYPE_INVALID) then (false, e)
  else
    let e := set_type e (get_entry_type (type e)) in
    if negb (nonzero (Z.land (val64 e) (Z.shiftl 1 7))) then (false, e)
    else (true, set_type e (get_pse_type (type e))).

Definition gen8_gtt_test_present (e : intel_gvt_gtt_entry) : bool :=
  if bool_decide (type e = GTT_TYPE_PPGTT_ROOT_L3_ENTRY)
     || bool_decide (type e = GTT_TYPE_PPGTT_ROOT_L4_ENTRY)
  then negb (val64 e =? 0)
  else nonzero (Z.land (val64 e) (Z.shiftl 1 0)).

Definition gtt_entry_clear_present (e : intel_gvt_gtt_entry) : intel_gvt_gtt_entry :=
  set_val64 e (Z.land (val64 e) (u64_not (Z.shiftl 1 0))).

(** ** Per-platform GMA routines *)

Definition gma_to_ggtt_pte_index (gma : Z) : Z := Z.shiftr gma GTT_PAGE_SHIFT.

Definition gen8_gma_to_pte_index (gma : Z) : Z := Z.land (Z.shiftr gma 12) 0x1ff.
Definition gen8_gma_to_pde_index (gma : Z) : Z := Z.land (Z.shiftr gma 21) 0x1ff.
Definition gen8_gma_to_l3_pdp_index (gma : Z) : Z := Z.land (Z.shiftr gma 30) 0x3.
Definition gen8_gma_to_l4_pdp_index (gma : Z) : Z := Z.land (Z.shiftr gma 30) 0x1ff.
Definition gen8_gma_to_pml4_index (gma : Z) : Z := Z.land (Z.shiftr gma 39) 0x1ff.

(** The field [hi:lo] of [x] as a number, the way the design document
    names index fields ("bits 47:39"). *)
Definition bit_field (x hi lo : Z) : Z := (x / 2 ^ lo) mod 2 ^ (hi - lo + 1).

(** ** Objects of one vGPU *)

(** A page of 64-bit entries, indexed by entry number.  A page that was
    never written reads as zero ([__GFP_ZERO], [kzalloc]). *)
Definition page : Type := gmap Z Z.
Definition page_read (pg : page) (index : Z) : Z := default 0 (pg !! index).
Definition page_write (pg : page) (index v : Z) : page := <[index := v]> pg.

(** A C bitmap ([post_shadow_bitmap]). *)
Definition bitmap : Type := gset Z.
Definition test_bit (i : Z) (bm : bitmap) : bool := bool_decide (i ∈ bm).
Definition set_bit (i : Z) (bm : bitmap) : bitmap := {[ i ]} ∪ bm.
Definition clear_bit (i : Z) (bm : bitmap) : bitmap := bm ∖ {[ i ]}.

(** [struct intel_vgpu_ppgtt_spt], with the embedded
    [struct intel_vgpu_shadow_page] ([sp_] fields) and
    [struct intel_vgpu_guest_page] ([gfn], [writeprotection], [write_cnt],
    [oos_page]) flattened into one record. *)
Record intel_vgpu_ppgtt_spt : Type := mk_spt {
  sp_type : gtt_type;
  sp_mfn : Z;
  sp_vaddr : page;
  gfn : Z;
  writeprotection : bool;
  write_cnt : Z;
  oos_page : option nat;
  guest_page_type : gtt_type;
  refcount : Z;
  post_shadow_bitmap : bitmap;
}.

(** What [kzalloc] returns; also what reading through a dangling pointer
    gives in the embedding. *)
Definition zero_spt : intel_vgpu_ppgtt_spt :=
  mk_spt GTT_TYPE_GGTT_PTE 0 ∅ 0 false 0 None GTT_TYPE_GGTT_PTE 0 ∅.

(** [struct intel_vgpu_oos_page]. *)
Record intel_vgpu_oos_page : Type := mk_oos {
  oos_mem : page;
  oos_guest_page : option nat;
}.

Definition zero_oos : intel_vgpu_oos_page := mk_oos ∅ None.

Definition INTEL_GVT_MM_GGTT : Z := 0.
Definition INTEL_GVT_MM_PPGTT : Z := 1.

(** [struct intel_vgpu_mm]. *)
Record intel_vgpu_mm : Type := mk_mm {
  mm_type : Z;
  has_shadow_page_table : bool;
  shadowed : bool;
  page_table_entry_type : gtt_type;
  page_table_level : Z;
  page_table_entry_cnt : Z;
  virtual_page_table : option page;
  shadow_page_table : option page;
  pincount : Z;
}.

Definition zero_mm : intel_vgpu_mm :=
  mk_mm 0 false false GTT_TYPE_GGTT_PTE 0 0 None None 0.

(** What a [void *pt] argument of [get_entry]/[set_entry] can point at. *)
Inductive pt_ref : Type :=
| PtShadow (spt : nat)
| PtOos (oos : nat)
| PtVirtual (mm : nat)
| PtMmShadow (mm : nat).

#[global] Instance pt_ref_eq_dec : EqDecision pt_ref.
Proof. solve_decision. Defined.

(** The labels of [trace_oos_change]. *)
Inductive oos_change : Type :=
| OosSync | OosDetach | OosAttach | OosSetPageSync | OosSetPageOutOfSync.

(** What the code does to the world outside its own data structures, and
    the trace points it announces itself at. *)
Inductive event : Type :=
| EvReadGpa (gpa len : Z)
| EvWriteGpa (gpa data len : Z)
| EvGfnToMfn (g : Z)
| EvSetWp (g : Z)
| EvUnsetWp (g : Z)
| EvReadPte64 (index : Z)
| EvWritePte64 (index pte : Z)
| EvGttInvalidate
| EvSetEntry (pt : pt_ref) (index v : Z)
| EvGptChangeAdd (spt : nat) (v index : Z)
| EvGptChangeRemove (spt : nat) (v index : Z)
| EvSptRefcountDec (spt : nat)
| EvSptAlloc (spt : nat)
| EvSptFree (spt : nat)
| EvReclaim (mm : nat)
| EvOosChange (what : oos_change) (oos spt : nat).

#[global] Instance oos_change_eq_dec : EqDecision oos_change.
Proof. solve_decision. Defined.

#[global] Instance event_eq_dec : EqDecision event.
Proof. solve_decision. Defined.

(** [struct intel_gvt_device_info], the fields gtt.c reads. *)
Record intel_gvt_device_info : Type := mk_device_info {
  gtt_start_offset : Z;
  gtt_entry_size : Z;
  gtt_entry_size_shift : Z;
}.

(** The services gtt.c consumes: the hypervisor (mpt.h), the page
    allocator and the DMA mapping layer.  [alloc_spt_ok n] is the
    outcome of the [n]-th call of [alloc_spt]; [dma_map_page id] is the
    bus address the page of object [id] is mapped at, if the mapping
    succeeds.  [stop_machine_ggtt] says whether the kernel is built with
    CONFIG_INTEL_IOMMU, maps graphics through the IOMMU and runs on
    Broxton, which is when GGTT accesses go through [stop_machine]. *)
Record host : Type := mk_host {
  gfn_to_mfn : Z -> Z;
  read_gpa_ret : Z -> Z;
  write_gpa_ret : Z -> Z;
  set_wp_ret : Z -> Z;
  unset_wp_ret : Z -> Z;
  alloc_spt_ok : nat -> bool;
  dma_map_page : nat -> option Z;
  stop_machine_ggtt : bool;
}.

(** One vGPU together with the device-wide state of its [intel_gvt]. *)
Record vgpu_state : Type := mk_state {
  hv : host;
  device_info : intel_gvt_device_info;
  enable_gvt_oos : bool;
  pvmmio_ppgtt_update : bool;
  (* vgpu->gm *)
  aperture_gmadr_base : Z;
  aperture_gmadr_end : Z;
  hidden_gmadr_base : Z;
  hidden_gmadr_end : Z;
  (* guest memory and the hardware GGTT *)
  gmem : page;
  hw_ggtt : page;
  (* arenas *)
  spts : gmap nat intel_vgpu_ppgtt_spt;
  ooss : gmap nat intel_vgpu_oos_page;
  mms : gmap nat intel_vgpu_mm;
  next_spt : nat;
  alloc_calls : nat;
  (* vgpu->gtt *)
  ggtt_mm : nat;
  shadow_page_hash_table : list nat;
  guest_page_hash_table : list nat;
  oos_page_list_head : list nat;
  post_shadow_list_head : list nat;
  scratch_pt_mfn : Z -> Z;
  ge_cache_enable : bool;
  cached_guest_entry : option page;
  (* gvt->gtt *)
  oos_page_free_list_head : list nat;
  oos_page_use_list_head : list nat;
  mm_lru_list_head : list nat;
  scratch_ggtt_mfn : Z;
  (* the statics of gtt_entry_p2m *)
  saved_gfn : Z;
  saved_mfn : Z;
  trace : list event;
}.

(** ** Field updates *)

Definition set_sp_type (s : intel_vgpu_ppgtt_spt) v : intel_vgpu_ppgtt_spt :=
  mk_spt v (sp_mfn s) (sp_vaddr s) (gfn s) (writeprotection s) (write_cnt s) (oos_page s) (guest_page_type s) (refcount s) (post_shadow_bitmap s).
Definition set_sp_mfn (s : intel_vgpu_ppgtt_spt) v : intel_vgpu_ppgtt_spt :=
  mk_spt (sp_type s) v (sp_vaddr s) (gfn s) (writeprotection s) (write_cnt s) (oos_page s) (guest_page_type s) (refcount s) (post_shadow_bitmap s).
Definition set_sp_vaddr (s : intel_vgpu_ppgtt_spt) v : intel_vgpu_ppgtt_spt :=
  mk_spt (sp_type s) (sp_mfn s) v (gfn s) (writeprotection s) (write_cnt s) (oos_page s) (guest_page_type s) (refcount s) (post_shadow_bitmap s).
Definition set_gfn (s : intel_vgpu_ppgtt_spt) v : intel_vgpu_ppgtt_spt :=
  mk_spt (sp_type s) (sp_mfn s) (sp_vaddr s) v (writeprotection s) (write_cnt s) (oos_page s) (guest_page_type s) (refcount s) (post_shadow_bitmap s).
Definition set_writeprotection (s : intel_vgpu_ppgtt_spt) v : intel_vgpu_ppgtt_spt :=
  mk_spt (sp_type s) (sp_mfn s) (sp_vaddr s) (gfn s) v (write_cnt s) (oos_page s) (guest_page_type s) (refcount s) (post_shadow_bitmap s).
Definition set_write_cnt (s : intel_vgpu_ppgtt_spt) v : intel_vgpu_ppgtt_spt :=
  mk_spt (sp_type s) (sp_mfn s) (sp_vaddr s) (gfn s) (writeprotection s) v (oos_page s) (guest_page_type s) (refcount s) (post_shadow_bitmap s).
Definition set_oos_page (s : intel_vgpu_ppgtt_spt) v : intel_vgpu_ppgtt_spt :=
  mk_spt (sp_type s) (sp_mfn s) (sp_vaddr s) (gfn s) (writeprotection s) (write_cnt s) v (guest_page_type s) (refcount s) (post_shadow_bitmap s).
Definition set_guest_page_type (s : intel_vgpu_ppgtt_spt) v : intel_vgpu_ppgtt_spt :=
  mk_spt (sp_type s) (sp_mfn s) (sp_vaddr s) (gfn s) (writeprotection s) (write_cnt s) (oos_page s) v (refcount s) (post_shadow_bitmap s).
Definition set_refcount (s : intel_vgpu_ppgtt_spt) v : intel_vgpu_ppgtt_spt :=
  mk_spt (sp_type s) (sp_mfn s) (sp_vaddr s) (gfn s) (writeprotection s) (write_cnt s) (oos_page s) (guest_page_type s) v (post_shadow_bitmap s).
Definition set_post_shadow_bitmap (s : intel_vgpu_ppgtt_spt) v : intel_vgpu_ppgtt_spt :=
  mk_spt (sp_type s) (sp_mfn s) (sp_vaddr s) (gfn s) (writeprotection s) (write_cnt s) (oos_page s) (guest_page_type s) (refcount s) v.
Definition set_oos_mem (o : intel_vgpu_oos_page) v : intel_vgpu_oos_page :=
  mk_oos v (oos_guest_page o).
Definition set_oos_guest_page (o : intel_vgpu_oos_page) v : intel_vgpu_oos_page :=
  mk_oos (oos_mem o) v.
Definition set_shadowed (m : intel_vgpu_mm) v : intel_vgpu_mm :=
  mk_mm (mm_type m) (has_shadow_page_table m) v (page_table_entry_type m) (page_table_level m) (page_table_entry_cnt m) (virtual_page_table m) (shadow_page_table m) (pincount m).
Definition set_virtual_page_table (m : intel_vgpu_mm) v : intel_vgpu_mm :=
  mk_mm (mm_type m) (has_shadow_page_table m) (shadowed m) (page_table_entry_type m) (page_table_level m) (page_table_entry_cnt m) v (shadow_page_table m) (pincount m).
Definition set_shadow_page_table (m : intel_vgpu_mm) v : intel_vgpu_mm :=
  mk_mm (mm_type m) (has_shadow_page_table m) (shadowed m) (page_table_entry_type m) (page_table_level m) (page_table_entry_cnt m) (virtual_page_table m) v (pincount m).
Definition set_pincount (m : intel_vgpu_mm) v : intel_vgpu_mm :=
  mk_mm (mm_type m) (has_shadow_page_table m) (shadowed m) (page_table_entry_type m) (page_table_level m) (page_table_entry_cnt m) (virtual_page_table m) (shadow_page_table m) v.
Definition set_gmem (st : vgpu_state) v : vgpu_state :=
  mk_state (hv st) (device_info st) (enable_gvt_oos st) (pvmmio_ppgtt_update st) (aperture_gmadr_base st) (aperture_gmadr_end st) (hidden_gmadr_base st) (hidden_gmadr_end st) v (hw_ggtt st) (spts st) (ooss st) (mms st) (next_spt st) (alloc_calls st) (ggtt_mm st) (shadow_page_hash_table st) (guest_page_hash_table st) (oos_page_list_head st) (post_shadow_list_head st) (scratch_pt_mfn st) (ge_cache_enable st) (cached_guest_entry st) (oos_page_free_list_head st) (oos_page_use_list_head st) (mm_lru_list_head st) (scratch_ggtt_mfn st) (saved_gfn st) (saved_mfn st) (trace st).
Definition set_hw_ggtt (st : vgpu_state) v : vgpu_state :=
  mk_state (hv st) (device_info st) (enable_gvt_oos st) (pvmmio_ppgtt_update st) (aperture_gmadr_base st) (aperture_gmadr_end st) (hidden_gmadr_base st) (hidden_gmadr_end st) (gmem st) v (spts st) (ooss st) (mms st) (next_spt st) (alloc_calls st) (ggtt_mm st) (shadow_page_hash_table st) (guest_page_hash_table st) (oos_page_list_head st) (post_shadow_list_head st) (scratch_pt_mfn st) (ge_cache_enable st) (cached_guest_entry st) (oos_page_free_list_head st) (oos_page_use_list_head st) (mm_lru_list_head st) (scratch_ggtt_mfn st) (saved_gfn st) (saved_mfn st) (trace st).
Definition set_spts (st : vgpu_state) v : vgpu_state :=
  mk_state (hv st) (device_info st) (enable_gvt_oos st) (pvmmio_ppgtt_update st) (aperture_gmadr_base st) (aperture_gmadr_end st) (hidden_gmadr_base st) (hidden_gmadr_end st) (gmem st) (hw_ggtt st) v (ooss st) (mms st) (next_spt st) (alloc_calls st) (ggtt_mm st) (shadow_page_hash_table st) (guest_page_hash_table st) (oos_page_list_head st) (post_shadow_list_head st) (scratch_pt_mfn st) (ge_cache_enable st) (cached_guest_entry st) (oos_page_free_list_head st) (oos_page_use_list_head st) (mm_lru_list_head st) (scratch_ggtt_mfn st) (saved_gfn st) (saved_mfn st) (trace st).
Definition set_ooss (st : vgpu_state) v : vgpu_state :=
  mk_state (hv st) (device_info st) (enable_gvt_oos st) (pvmmio_ppgtt_update st) (aperture_gmadr_base st) (aperture_gmadr_end st) (hidden_gmadr_base st) (hidden_gmadr_end st) (gmem st) (hw_ggtt st) (spts st) v (mms st) (next_spt st) (alloc_calls st) (ggtt_mm st) (shadow_page_hash_table st) (guest_page_hash_table st) (oos_page_list_head st) (post_shadow_list_head st) (scratch_pt_mfn st) (ge_cache_enable st) (cached_guest_entry st) (oos_page_free_list_head st) (oos_page_use_list_head st) (mm_lru_list_head st) (scratch_ggtt_mfn st) (saved_gfn st) (saved_mfn st) (trace st).
Definition set_mms (st : vgpu_state) v : vgpu_state :=
  mk_state (hv st) (device_info st) (enable_gvt_oos st) (pvmmio_ppgtt_update st) (aperture_gmadr_base st) (aperture_gmadr_end st) (hidden_gmadr_base st) (hidden_gmadr_end st) (gmem st) (hw_ggtt st) (spts st) (ooss st) v (next_spt st) (alloc_calls st) (ggtt_mm st) (shadow_page_hash_table st) (guest_page_hash_table st) (oos_page_list_head st) (post_shadow_list_head st) (scratch_pt_mfn st) (ge_cache_enable st) (cached_guest_entry st) (oos_page_free_list_head st) (oos_page_use_list_head st) (mm_lru_list_head st) (scratch_ggtt_mfn st) (saved_gfn st) (saved_mfn st) (trace st).
Definition set_next_spt (st : vgpu_state) v : vgpu_state :=
  mk_state (hv st) (device_info st) (enable_gvt_oos st) (pvmmio_ppgtt_update st) (aperture_gmadr_base st) (aperture_gmadr_end st) (hidden_gmadr_base st) (hidden_gmadr_end st) (gmem st) (hw_ggtt st) (spts st) (ooss st) (mms st) v (alloc_calls st) (ggtt_mm st) (shadow_page_hash_table st) (guest_page_hash_table st) (oos_page_list_head st) (post_shadow_list_head st) (scratch_pt_mfn st) (ge_cache_enable st) (cached_guest_entry st) (oos_page_free_list_head st) (oos_page_use_list_head st) (mm_lru_list_head st) (scratch_ggtt_mfn st) (saved_gfn st) (saved_mfn st) (trace st).
Definition set_alloc_calls (st : vgpu_state) v : vgpu_state :=
  mk_state (hv st) (device_info st) (enable_gvt_oos st) (pvmmio_ppgtt_update st) (aperture_gmadr_base st) (aperture_gmadr_end st) (hidden_gmadr_base st) (hidden_gmadr_end st) (gmem st) (hw_ggtt st) (spts st) (ooss st) (mms st) (next_spt st) v (ggtt_mm st) (shadow_page_hash_table st) (guest_page_hash_table st) (oos_page_list_head st) (post_shadow_list_head st) (scratch_pt_mfn st) (ge_cache_enable st) (cached_guest_entry st) (oos_page_free_list_head st) (oos_page_use_list_head st) (mm_lru_list_head st) (scratch_ggtt_mfn st) (saved_gfn st) (saved_mfn st) (trace st).
Definition set_shadow_page_hash_table (st : vgpu_state) v : vgpu_state :=
  mk_state (hv st) (device_info st) (enable_gvt_oos st) (pvmmio_ppgtt_update st) (aperture_gmadr_base st) (aperture_gmadr_end st) (hidden_gmadr_base st) (hidden_gmadr_end st) (gmem st) (hw_ggtt st) (spts st) (ooss st) (mms st) (next_spt st) (alloc_calls st) (ggtt_mm st) v (guest_page_hash_table st) (oos_page_list_head st) (post_shadow_list_head st) (scratch_pt_mfn st) (ge_cache_enable st) (cached_guest_entry st) (oos_page_free_list_head st) (oos_page_use_list_head st) (mm_lru_list_head st) (scratch_ggtt_mfn st) (saved_gfn st) (saved_mfn st) (trace st).
Definition set_guest_page_hash_table (st : vgpu_state) v : vgpu_state :=
  mk_state (hv st) (device_info st) (enable_gvt_oos st) (pvmmio_ppgtt_update st) (aperture_gmadr_base st) (aperture_gmadr_end st) (hidden_gmadr_base st) (hidden_gmadr_end st) (gmem st) (hw_ggtt st) (spts st) (ooss st) (mms st) (next_spt st) (alloc_calls st) (ggtt_mm st) (shadow_page_hash_table st) v (oos_page_list_head st) (post_shadow_list_head st) (scratch_pt_mfn st) (ge_cache_enable st) (cached_guest_entry st) (oos_page_free_list_head st) (oos_page_use_list_head st) (mm_lru_list_head st) (scratch_ggtt_mfn st) (saved_gfn st) (saved_mfn st) (trace st).
Definition set_oos_page_list_head (st : vgpu_state) v : vgpu_state :=
  mk_state (hv st) (device_info st) (enable_gvt_oos st) (pvmmio_ppgtt_update st) (aperture_gmadr_base st) (aperture_gmadr_end st) (hidden_gmadr_base st) (hidden_gmadr_end st) (gmem st) (hw_ggtt st) (spts st) (ooss st) (mms st) (next_spt st) (alloc_calls st) (ggtt_mm st) (shadow_page_hash_table st) (guest_page_hash_table st) v (post_shadow_list_head st) (scratch_pt_mfn st) (ge_cache_enable st) (cached_guest_entry st) (oos_page_free_list_head st) (oos_page_use_list_head st) (mm_lru_list_head st) (scratch_ggtt_mfn st) (saved_gfn st) (saved_mfn st) (trace st).
Definition set_post_shadow_list_head (st : vgpu_state) v : vgpu_state :=
  mk_state (hv st) (device_info st) (enable_gvt_oos st) (pvmmio_ppgtt_update st) (aperture_gmadr_base st) (aperture_gmadr_end st) (hidden_gmadr_base st) (hidden_gmadr_end st) (gmem st) (hw_ggtt st) (spts st) (ooss st) (mms st) (next_spt st) (alloc_calls st) (ggtt_mm st) (shadow_page_hash_table st) (guest_page_hash_table st) (oos_page_list_head st) v (scratch_pt_mfn st) (ge_cache_enable st) (cached_guest_entry st) (oos_page_free_list_head st) (oos_page_use_list_head st) (mm_lru_list_head st) (scratch_ggtt_mfn st) (saved_gfn st) (saved_mfn st) (trace st).
Definition set_ge_cache_enable (st : vgpu_state) v : vgpu_state :=
  mk_state (hv st) (device_info st) (enable_gvt_oos st) (pvmmio_ppgtt_update st) (aperture_gmadr_base st) (aperture_gmadr_end st) (hidden_gmadr_base st) (hidden_gmadr_end st) (gmem st) (hw_ggtt st) (spts st) (ooss st) (mms st) (next_spt st) (alloc_calls st) (ggtt_mm st) (shadow_page_hash_table st) (guest_page_hash_table st) (oos_page_list_head st) (post_shadow_list_head st) (scratch_pt_mfn st) v (cached_guest_entry st) (oos_page_free_list_head st) (oos_page_use_list_head st) (mm_lru_list_head st) (scratch_ggtt_mfn st) (saved_gfn st) (saved_mfn st) (trace st).
Definition set_cached_guest_entry (st : vgpu_state) v : vgpu_state :=
  mk_state (hv st) (device_info st) (enable_gvt_oos st) (pvmmio_ppgtt_update st) (aperture_gmadr_base st) (aperture_gmadr_end st) (hidden_gmadr_base st) (hidden_gmadr_end st) (gmem st) (hw_ggtt st) (spts st) (ooss st) (mms st) (next_spt st) (alloc_calls st) (ggtt_mm st) (shadow_page_hash_table st) (guest_page_hash_table st) (oos_page_list_head st) (post_shadow_list_head st) (scratch_pt_mfn st) (ge_cache_enable st) v (oos_page_free_list_head st) (oos_page_use_list_head st) (mm_lru_list_head st) (scratch_ggtt_mfn st) (saved_gfn st) (saved_mfn st) (trace st).
Definition set_oos_page_free_list_head (st : vgpu_state) v : vgpu_state :=
  mk_state (hv st) (device_info st) (enable_gvt_oos st) (pvmmio_ppgtt_update st) (aperture_gmadr_base st) (aperture_gmadr_end st) (hidden_gmadr_base st) (hidden_gmadr_end st) (gmem st) (hw_ggtt st) (spts st) (ooss st) (mms st) (next_spt st) (alloc_calls st) (ggtt_mm st) (shadow_page_hash_table st) (guest_page_hash_table st) (oos_page_list_head st) (post_shadow_list_head st) (scratch_pt_mfn st) (ge_cache_enable st) (cached_guest_entry st) v (oos_page_use_list_head st) (mm_lru_list_head st) (scratch_ggtt_mfn st) (saved_gfn st) (saved_mfn st) (trace st).
Definition set_oos_page_use_list_head (st : vgpu_state) v : vgpu_state :=
  mk_state (hv st) (device_info st) (enable_gvt_oos st) (pvmmio_ppgtt_update st) (aperture_gmadr_base st) (aperture_gmadr_end st) (hidden_gmadr_base st) (hidden_gmadr_end st) (gmem st) (hw_ggtt st) (spts st) (ooss st) (mms st) (next_spt st) (alloc_calls st) (ggtt_mm st) (shadow_page_hash_table st) (guest_page_hash_table st) (oos_page_list_head st) (post_shadow_list_head st) (scratch_pt_mfn st) (ge_cache_enable st) (cached_guest_entry st) (oos_page_free_list_head st) v (mm_lru_list_head st) (scratch_ggtt_mfn st) (saved_gfn st) (saved_mfn st) (trace st).
Definition set_mm_lru_list_head (st : vgpu_state) v : vgpu_state :=
  mk_state (hv st) (device_info st) (enable_gvt_oos st) (pvmmio_ppgtt_update st) (aperture_gmadr_base st) (aperture_gmadr_end st) (hidden_gmadr_base st) (hidden_gmadr_end st) (gmem st) (hw_ggtt st) (spts st) (ooss st) (mms st) (next_spt st) (alloc_calls st) (ggtt_mm st) (shadow_page_hash_table st) (guest_page_hash_table st) (oos_page_list_head st) (post_shadow_list_head st) (scratch_pt_mfn st) (ge_cache_enable st) (cached_guest_entry st) (oos_page_free_list_head st) (oos_page_use_list_head st) v (scratch_ggtt_mfn st) (saved_gfn st) (saved_mfn st) (trace st).
Definition set_saved_gfn (st : vgpu_state) v : vgpu_state :=
  mk_state (hv st) (device_info st) (enable_gvt_oos st) (pvmmio_ppgtt_update st) (aperture_gmadr_base st) (aperture_gmadr_end st) (hidden_gmadr_base st) (hidden_gmadr_end st) (gmem st) (hw_ggtt st) (spts st) (ooss st) (mms st) (next_spt st) (alloc_calls st) (ggtt_mm st) (shadow_page_hash_table st) (guest_page_hash_table st) (oos_page_list_head st) (post_shadow_list_head st) (scratch_pt_mfn st) (ge_cache_enable st) (cached_guest_entry st) (oos_page_free_list_head st) (oos_page_use_list_head st) (mm_lru_list_head st) (scratch_ggtt_mfn st) v (saved_mfn st) (trace st).
Definition set_saved_mfn (st : vgpu_state) v : vgpu_state :=
  mk_state (hv st) (device_info st) (enable_gvt_oos st) (pvmmio_ppgtt_update st) (aperture_gmadr_base st) (aperture_gmadr_end st) (hidden_gmadr_base st) (hidden_gmadr_end st) (gmem st) (hw_ggtt st) (spts st) (ooss st) (mms st) (next_spt st) (alloc_calls st) (ggtt_mm st) (shadow_page_hash_table st) (guest_page_hash_table st) (oos_page_list_head st) (post_shadow_list_head st) (scratch_pt_mfn st) (ge_cache_enable st) (cached_guest_entry st) (oos_page_free_list_head st) (oos_page_use_list_head st) (mm_lru_list_head st) (scratch_ggtt_mfn st) (saved_gfn st) v (trace st).
Definition set_trace (st : vgpu_state) v : vgpu_state :=
  mk_state (hv st) (device_info st) (enable_gvt_oos st) (pvmmio_ppgtt_update st) (aperture_gmadr_base st) (aperture_gmadr_end st) (hidden_gmadr_base st) (hidden_gmadr_end st) (gmem st) (hw_ggtt st) (spts st) (ooss st) (mms st) (next_spt st) (alloc_calls st) (ggtt_mm st) (shadow_page_hash_table st) (guest_page_hash_table st) (oos_page_list_head st) (post_shadow_list_head st) (scratch_pt_mfn st) (ge_cache_enable st) (cached_guest_entry st) (oos_page_free_list_head st) (oos_page_use_list_head st) (mm_lru_list_head st) (scratch_ggtt_mfn st) (saved_gfn st) (saved_mfn st) v.

(** ** State passing

    [ST A] is code that always returns.  [FT A] is code that recurses
    through the shadow tree or retries; it is defined by recursion on a
    fuel argument and answers [None] when the fuel runs out. *)

Definition ST (A : Type) : Type := vgpu_state -> A * vgpu_state.
Definition FT (A : Type) : Type := vgpu_state -> option (A * vgpu_state).

Definition ret {A} (a : A) : ST A := fun st => (a, st).
Definition bind {A B} (m : ST A) (k : A -> ST B) : ST B :=
  fun st => let '(a, st') := m st in k a st'.
Definition get : ST vgpu_state := fun st => (st, st).
Definition gets {A} (f : vgpu_state -> A) : ST A := fun st => (f st, st).
Definition modify (f : vgpu_state -> vgpu_state) : ST unit := fun st => (tt, f st).

Definition fret {A} (a : A) : FT A := fun st => Some (a, st).
Definition fbind {A B} (m : FT A) (k : A -> FT B) : FT B :=
  fun st => match m st with Some (a, st') => k a st' | None => None end.
Definition lift {A} (m : ST A) : FT A := fun st => Some (m st).
Definition out_of_fuel {A} : FT A := fun _ => None.

Notation "'let*' x ':=' m 'in' k" := (bind m (fun x => k))
  (at level 10, x pattern, m at level 100, k at level 200, only parsing).
Notation "'do*' m 'in' k" := (bind m (fun _ => k))
  (at level 10, m at level 100, k at level 200, only parsing).
Notation "'let?' x ':=' m 'in' k" := (fbind m (fun x => k))
  (at level 10, x pattern, m at level 100, k at level 200, only parsing).
Notation "'do?' m 'in' k" := (fbind m (fun _ => k))
  (at level 10, m at level 100, k at level 200, only parsing).

Definition emit (ev : event) : ST unit :=
  modify (fun st => set_trace st (trace st ++ [ev])).

(** A [for] loop over the listed indices.  The locals that live across
    iterations are the accumulator [a]; the body answers [inl r] to leave
    the enclosing function with [r] and [inr a'] to go on. *)
Fixpoint for_each {I A R} (l : list I) (a : A) (body : I -> A -> ST (R + A)) : ST (R + A) :=
  match l with
  | [] => ret (inr a)
  | i :: l' =>
      let* r := body i a in
      match r with
      | inl x => ret (inl x)
      | inr a' => for_each l' a' body
      end
  end.

Fixpoint ffor_each {I A R} (l : list I) (a : A) (body : I -> A -> FT (R + A)) : FT (R + A) :=
  match l with
  | [] => fret (inr a)
  | i :: l' =>
      let? r := body i a in
      match r with
      | inl x => fret (inl x)
      | inr a' => ffor_each l' a' body
      end
  end.

(** The indices [0 .. n-1]. *)
Definition upto (n : Z) : list Z := map Z.of_nat (seq 0 (Z.to_nat n)).

(** ** Dereferencing *)

Abbreviation spt_of st p := (default zero_spt (spts st !! p)).
Abbreviation oos_of st p := (default zero_oos (ooss st !! p)).
Abbreviation mm_of st p := (default zero_mm (mms st !! p)).

Definition upd_spt (id : nat) (f : intel_vgpu_ppgtt_spt -> intel_vgpu_ppgtt_spt) : ST unit :=
  modify (fun st => set_spts st (alter f id (spts st))).
Definition upd_oos (id : nat) (f : intel_vgpu_oos_page -> intel_vgpu_oos_page) : ST unit :=
  modify (fun st => set_ooss st (alter f id (ooss st))).
Definition upd_mm (id : nat) (f : intel_vgpu_mm -> intel_vgpu_mm) : ST unit :=
  modify (fun st => set_mms st (alter f id (mms st))).

(** Load of entry [index] of the table [pt] points at. *)
Definition pt_load (st : vgpu_state) (pt : pt_ref) (index : Z) : Z :=
  match pt with
  | PtShadow id => page_read (sp_vaddr (spt_of st id)) index
  | PtOos id => page_read (oos_mem (oos_of st id)) index
  | PtVirtual id => page_read (default ∅ (virtual_page_table (mm_of st id))) index
  | PtMmShadow id => page_read (default ∅ (shadow_page_table (mm_of st id))) index
  end.

(** Store of [v] into entry [index] of the table [pt] points at. *)
Definition pt_store (pt : pt_ref) (index v : Z) : ST unit :=
  do* emit (EvSetEntry pt index v) in
  match pt with
  | PtShadow id => upd_spt id (fun s => set_sp_vaddr s (page_write (sp_vaddr s) index v))
  | PtOos id => upd_oos id (fun o => set_oos_mem o (page_write (oos_mem o) index v))
  | PtVirtual id =>
      upd_mm id (fun m => set_virtual_page_table m
                            (Some (page_write (default ∅ (virtual_page_table m)) index v)))
  | PtMmShadow id =>
      upd_mm id (fun m => set_shadow_page_table m
                            (Some (page_write (default ∅ (shadow_page_table m)) index v)))
  end.

(** Dereferencing a pointer that may be NULL.  That is undefined in C
    when it is; the embedding then reads object 0, which the arenas do
    not hold. *)
Definition deref (p : option nat) : nat := default 0%nat p.

(** [list_del_init] of a node of a list, [list_add_tail], and
    [hash_add] (newest first in its bucket). *)
Definition list_del (x : nat) (l : list nat) : list nat :=
  filter (fun y => y <> x) l.
Definition list_add_tail (x : nat) (l : list nat) : list nat := l ++ [x].
Definition hash_add (x : nat) (l : list nat) : list nat := x :: l.

(** ** Guest memory, as the hypervisor shows it

    Guest memory is kept in 64-bit words indexed by [gpa >> 3].  Trapped
    accesses are naturally aligned; the bytes of an access that would
    spill over the word it starts in are not modelled. *)

Definition gmem_read64 (st : vgpu_state) (gpa : Z) : Z :=
  page_read (gmem st) (Z.shiftr gpa 3).

(** [memcpy] of [bytes] bytes of [data] into the little-endian u64 [old],
    [off] bytes in. *)
Definition merge_bytes (old off data bytes : Z) : Z :=
  let mask := u64 (Z.shiftl (Z.shiftl 1 (8 * bytes) - 1) (8 * off)) in
  Z.lor (Z.land old (u64_not mask)) (Z.land (u64 (Z.shiftl data (8 * off))) mask).

(** [memcpy] of [bytes] bytes out of the u64 [v], from [off] bytes in. *)
Definition extract_bytes (v off bytes : Z) : Z :=
  Z.land (Z.shiftr v (8 * off)) (Z.shiftl 1 (8 * bytes) - 1).

(** The entries of the guest page at [gpa], as a page. *)
Definition guest_page_snapshot (st : vgpu_state) (gpa : Z) : page :=
  list_to_map (map (fun i => (i, gmem_read64 st (u64 (gpa + 8 * i))))
                   (upto (Z.shiftr GTT_PAGE_SIZE 3))).

(** Modelled from the spec: mpt.h is not among the sources.  Section 6,
    "read_guest_physical(vm, gpa, buf, len) -> Result ... synchronous and
    may fail".  The caller copies from [gmem] when the answer is 0. *)
Definition intel_gvt_hypervisor_read_gpa (gpa len : Z) : ST Z :=
  do* emit (EvReadGpa gpa len) in
  let* h := gets hv in
  ret (read_gpa_ret h gpa).

(** Modelled from the spec: mpt.h is not among the sources.  Section 6,
    "write_guest_physical(...)", synchronous and may fail. *)
Definition intel_gvt_hypervisor_write_gpa (gpa data len : Z) : ST Z :=
  do* emit (EvWriteGpa gpa data len) in
  let* h := gets hv in
  if write_gpa_ret h gpa =? 0 then
    do* modify (fun st =>
          set_gmem st (page_write (gmem st) (Z.shiftr gpa 3)
                         (merge_bytes (gmem_read64 st gpa) (Z.land gpa 7) data len))) in
    ret 0
  else ret (write_gpa_ret h gpa).

(** Modelled from the spec: mpt.h is not among the sources.  Section 6,
    "guest_frame_to_host_frame(vm, gfn) -> host_frame | Invalid". *)
Definition intel_gvt_hypervisor_gfn_to_mfn (g : Z) : ST Z :=
  do* emit (EvGfnToMfn g) in
  let* h := gets hv in
  ret (gfn_to_mfn h g).

(** Modelled from the spec: mpt.h is not among the sources.  Section 6,
    "set_write_protect(vm, guest_frame, handler)"; section 3, the guest
    page "owns a write-protection registration".  A page that is already
    protected is left alone. *)
Definition intel_gvt_hypervisor_set_wp_page (p : nat) : ST Z :=
  let* st := get in
  if writeprotection (spt_of st p) then ret 0
  else
    do* emit (EvSetWp (gfn (spt_of st p))) in
    if set_wp_ret (hv st) (gfn (spt_of st p)) =? 0 then
      do* upd_spt p (fun s => set_writeprotection s true) in
      ret 0
    else ret (set_wp_ret (hv st) (gfn (spt_of st p))).

(** Modelled from the spec: mpt.h is not among the sources.  Section 6,
    "unset_write_protect(...)". *)
Definition intel_gvt_hypervisor_unset_wp_page (p : nat) : ST Z :=
  let* st := get in
  if negb (writeprotection (spt_of st p)) then ret 0
  else
    do* emit (EvUnsetWp (gfn (spt_of st p))) in
    if unset_wp_ret (hv st) (gfn (spt_of st p)) =? 0 then
      do* upd_spt p (fun s => set_writeprotection s false) in
      ret 0
    else ret (unset_wp_ret (hv st) (gfn (spt_of st p))).

(** Modelled from the spec: gvt.h is not among the sources.  Section 7,
    "guest gma/gpa outside the VM's assigned aperture": an address is
    valid when it lies in the aperture range or in the hidden range
    assigned to the vGPU. *)
Definition vgpu_gmadr_is_valid (st : vgpu_state) (gmadr : Z) : bool :=
  ((aperture_gmadr_base st <=? gmadr) && (gmadr <=? aperture_gmadr_end st))
  || ((hidden_gmadr_base st <=? gmadr) && (gmadr <=? hidden_gmadr_end st)).

(** ** Reading and writing entries *)

(** An automatic variable before its first assignment.  C leaves its
    content indeterminate; the embedding takes zero. *)
Definition uninit_entry : intel_gvt_gtt_entry := mk_entry 0 GTT_TYPE_INVALID.

Definition read_pte64 (index : Z) : ST Z :=
  do* emit (EvReadPte64 index) in
  gets (fun st => page_read (hw_ggtt st) index).

Definition gtt_invalidate : ST unit := emit EvGttInvalidate.

Definition write_pte64 (index pte : Z) : ST unit :=
  do* emit (EvWritePte64 index pte) in
  modify (fun st => set_hw_ggtt st (page_write (hw_ggtt st) index pte)).

(** Every accessor takes the entry [e] points at and returns it updated
    next to the [int] result. *)
Definition gtt_get_entry64 (pt : option pt_ref) (e : intel_gvt_gtt_entry)
    (index : Z) (hypervisor_access : bool) (gpa : Z) : ST (Z * intel_gvt_gtt_entry) :=
  let* st := get in
  if negb (gtt_entry_size (device_info st) =? 8) then ret (- EINVAL, e)
  else if hypervisor_access then
    match (if ge_cache_enable st then cached_guest_entry st else None) with
    | Some cache =>
        if index =? 0 then
          let* r := intel_gvt_hypervisor_read_gpa gpa GTT_PAGE_SIZE in
          if negb (r =? 0) then ret (r, e)
          else
            do* modify (fun st =>
                  set_cached_guest_entry st (Some (guest_page_snapshot st gpa))) in
            let* st := get in
            ret (0, set_val64 e (page_read (default ∅ (cached_guest_entry st)) index))
        else ret (0, set_val64 e (page_read cache index))
    | None =>
        let a := u64 (gpa + Z.shiftl index (gtt_entry_size_shift (device_info st))) in
        let* r := intel_gvt_hypervisor_read_gpa a 8 in
        if negb (r =? 0) then ret (r, e)
        else
          let* st := get in
          ret (0, set_val64 e (gmem_read64 st a))
    end
  else
    match pt with
    | None =>
        let* v := read_pte64 index in
        ret (0, set_val64 e v)
    | Some p => ret (0, set_val64 e (pt_load st p index))
    end.

(** [gtt_get_entry64__BKL]: under [stop_machine] the result of the access
    is not handed back and 0 is returned. *)
Definition gtt_get_entry64__BKL (pt : option pt_ref) (e : intel_gvt_gtt_entry)
    (index : Z) (hypervisor_access : bool) (gpa : Z) : ST (Z * intel_gvt_gtt_entry) :=
  let* h := gets hv in
  if negb (stop_machine_ggtt h) || hypervisor_access || non_null pt then
    gtt_get_entry64 pt e index hypervisor_access gpa
  else
    let* (_, e') := gtt_get_entry64 pt e index hypervisor_access gpa in
    ret (0, e').

Definition gtt_set_entry64 (pt : option pt_ref) (e : intel_gvt_gtt_entry)
    (index : Z) (hypervisor_access : bool) (gpa : Z) : ST Z :=
  let* st := get in
  if negb (gtt_entry_size (device_info st) =? 8) then ret (- EINVAL)
  else if hypervisor_access then
    let a := u64 (gpa + Z.shiftl index (gtt_entry_size_shift (device_info st))) in
    let* r := intel_gvt_hypervisor_write_gpa a (val64 e) 8 in
    if negb (r =? 0) then ret r else ret 0
  else
    match pt with
    | None => do* write_pte64 index (val64 e) in ret 0
    | Some p => do* pt_store p index (val64 e) in ret 0
    end.

Definition gtt_set_entry64__BKL (pt : option pt_ref) (e : intel_gvt_gtt_entry)
    (index : Z) (hypervisor_access : bool) (gpa : Z) : ST Z :=
  let* h := gets hv in
  if negb (stop_machine_ggtt h) || hypervisor_access || non_null pt then
    gtt_set_entry64 pt e index hypervisor_access gpa
  else
    do* gtt_set_entry64 pt e index hypervisor_access gpa in
    ret 0.

(** [gtt_entry_p2m]: returns the result and the entry [m]. *)
Definition gtt_entry_p2m (p : intel_gvt_gtt_entry) : ST (Z * intel_gvt_gtt_entry) :=
  let m := p in
  if negb (gen8_gtt_test_present p) then ret (0, m)
  else
    let g := gen8_gtt_get_pfn p in
    let* st := get in
    let* mfn := (if negb (g =? saved_gfn st)
                 then intel_gvt_hypervisor_gfn_to_mfn g
                 else ret (saved_mfn st)) in
    if mfn =? INTEL_GVT_INVALID_ADDR then ret (- ENXIO, m)
    else
      do* modify (fun st => set_saved_mfn (set_saved_gfn st g) mfn) in
      ret (0, gen8_gtt_set_pfn m mfn).

(** *** MM helpers *)

Definition intel_vgpu_mm_get_entry (mm : nat) (page_table : option pt_ref)
    (e : intel_gvt_gtt_entry) (index : Z) : ST (Z * intel_gvt_gtt_entry) :=
  let* st := get in
  let e := set_type e (page_table_entry_type (mm_of st mm)) in
  let* (r, e) := gtt_get_entry64__BKL page_table e index false 0 in
  if negb (r =? 0) then ret (r, e)
  else ret (0, snd (gen8_gtt_test_pse e)).

Definition intel_vgpu_mm_set_entry (mm : nat) (page_table : option pt_ref)
    (e : intel_gvt_gtt_entry) (index : Z) : ST Z :=
  gtt_set_entry64__BKL page_table e index false 0.

(** [mm->virtual_page_table] and [mm->shadow_page_table] as arguments. *)
Definition mm_virtual_pt (st : vgpu_state) (mm : nat) : option pt_ref :=
  match virtual_page_table (mm_of st mm) with
  | Some _ => Some (PtVirtual mm)
  | None => None
  end.
Definition mm_shadow_pt (st : vgpu_state) (mm : nat) : option pt_ref :=
  match shadow_page_table (mm_of st mm) with
  | Some _ => Some (PtMmShadow mm)
  | None => None
  end.

(** Modelled from the spec: the accessor macros of gtt.h are not among
    the sources.  Section 3: an mm carries "a guest-visible virtual
    page-table buffer, an optional shadow page-table-root buffer"; the
    guest accessors go to the former, the shadow accessors to the latter
    (which a GGTT mm does not have, so that its shadow is the hardware
    GGTT). *)
Definition ggtt_get_guest_entry (mm : nat) e index : ST (Z * intel_gvt_gtt_entry) :=
  let* st := get in intel_vgpu_mm_get_entry mm (mm_virtual_pt st mm) e index.
Definition ggtt_set_guest_entry (mm : nat) e index : ST Z :=
  let* st := get in intel_vgpu_mm_set_entry mm (mm_virtual_pt st mm) e index.
Definition ggtt_get_shadow_entry (mm : nat) e index : ST (Z * intel_gvt_gtt_entry) :=
  let* st := get in intel_vgpu_mm_get_entry mm (mm_shadow_pt st mm) e index.
Definition ggtt_set_shadow_entry (mm : nat) e index : ST Z :=
  let* st := get in intel_vgpu_mm_set_entry mm (mm_shadow_pt st mm) e index.
Definition ppgtt_get_guest_root_entry (mm : nat) e index : ST (Z * intel_gvt_gtt_entry) :=
  let* st := get in intel_vgpu_mm_get_entry mm (mm_virtual_pt st mm) e index.
Definition ppgtt_get_shadow_root_entry (mm : nat) e index : ST (Z * intel_gvt_gtt_entry) :=
  let* st := get in intel_vgpu_mm_get_entry mm (mm_shadow_pt st mm) e index.
Definition ppgtt_set_shadow_root_entry (mm : nat) e index : ST Z :=
  let* st := get in intel_vgpu_mm_set_entry mm (mm_shadow_pt st mm) e index.

(** *** PPGTT shadow page table helpers *)

Definition ppgtt_spt_get_entry (spt : nat) (page_table : option pt_ref) (ty : gtt_type)
    (e : intel_gvt_gtt_entry) (index : Z) (guest : bool) : ST (Z * intel_gvt_gtt_entry) :=
  let e := set_type e (get_entry_type ty) in
  if negb (gtt_type_is_entry (type e)) then ret (- EINVAL, e)
  else
    let* st := get in
    let* (r, e) := gtt_get_entry64__BKL page_table e index guest
                      (u64 (Z.shiftl (gfn (spt_of st spt)) GTT_PAGE_SHIFT)) in
    if negb (r =? 0) then ret (r, e)
    else ret (0, snd (gen8_gtt_test_pse e)).

Definition ppgtt_spt_set_entry (spt : nat) (page_table : option pt_ref) (ty : gtt_type)
    (e : intel_gvt_gtt_entry) (index : Z) (guest : bool) : ST Z :=
  if negb (gtt_type_is_entry (type e)) then ret (- EINVAL)
  else
    let* st := get in
    gtt_set_entry64__BKL page_table e index guest
      (u64 (Z.shiftl (gfn (spt_of st spt)) GTT_PAGE_SHIFT)).

Definition ppgtt_get_guest_entry (spt : nat) e index : ST (Z * intel_gvt_gtt_entry) :=
  let* st := get in
  ppgtt_spt_get_entry spt None (guest_page_type (spt_of st spt)) e index true.
Definition ppgtt_set_guest_entry (spt : nat) e index : ST Z :=
  let* st := get in
  ppgtt_spt_set_entry spt None (guest_page_type (spt_of st spt)) e index true.
Definition ppgtt_get_shadow_entry (spt : nat) e index : ST (Z * intel_gvt_gtt_entry) :=
  let* st := get in
  ppgtt_spt_get_entry spt (Some (PtShadow spt)) (sp_type (spt_of st spt)) e index false.
Definition ppgtt_set_shadow_entry (spt : nat) e index : ST Z :=
  let* st := get in
  ppgtt_spt_set_entry spt (Some (PtShadow spt)) (sp_type (spt_of st spt)) e index false.

(** ** Guest pages and shadow pages *)

Definition intel_vgpu_init_guest_page (p : nat) (g : Z) : ST Z :=
  do* upd_spt p (fun s =>
        set_write_cnt (set_oos_page (set_gfn (set_writeprotection s false) g) None) 0) in
  do* modify (fun st => set_guest_page_hash_table st (hash_add p (guest_page_hash_table st))) in
  ret 0.

Definition detach_oos_page (oos : nat) : ST Z :=
  let* st := get in
  let gp := deref (oos_guest_page (oos_of st oos)) in
  do* emit (EvOosChange OosDetach oos gp) in
  do* upd_spt gp (fun s => set_oos_page (set_write_cnt s 0) None) in
  do* upd_oos oos (fun o => set_oos_guest_page o None) in
  do* modify (fun st => set_oos_page_list_head st (list_del oos (oos_page_list_head st))) in
  do* modify (fun st =>
        set_oos_page_free_list_head
          (set_oos_page_use_list_head st (list_del oos (oos_page_use_list_head st)))
          (list_add_tail oos (list_del oos (oos_page_free_list_head st)))) in
  ret 0.

Definition intel_vgpu_clean_guest_page (p : nat) : ST unit :=
  do* modify (fun st => set_guest_page_hash_table st (list_del p (guest_page_hash_table st))) in
  let* st := get in
  do* match oos_page (spt_of st p) with
      | Some oos => do* detach_oos_page oos in ret tt
      | None => ret tt
      end in
  let* st := get in
  if writeprotection (spt_of st p) then
    do* intel_gvt_hypervisor_unset_wp_page p in ret tt
  else ret tt.

Definition find_by {A} `{EqDecision A} (key : intel_vgpu_ppgtt_spt -> A)
    (st : vgpu_state) (l : list nat) (k : A) : option nat :=
  List.find (fun p => bool_decide (key (spt_of st p) = k)) l.

Definition intel_vgpu_find_guest_page (st : vgpu_state) (g : Z) : option nat :=
  find_by gfn st (guest_page_hash_table st) g.

Definition init_shadow_page (p : nat) (ty : gtt_type) : ST Z :=
  let* h := gets hv in
  match dma_map_page h p with
  | None => ret (- EINVAL)
  | Some daddr =>
      do* upd_spt p (fun s => set_sp_mfn (set_sp_type s ty) (Z.shiftr daddr GTT_PAGE_SHIFT)) in
      do* modify (fun st =>
            set_shadow_page_hash_table st (hash_add p (shadow_page_hash_table st))) in
      ret 0
  end.

Definition clean_shadow_page (p : nat) : ST unit :=
  modify (fun st => set_shadow_page_hash_table st (list_del p (shadow_page_hash_table st))).

Definition find_shadow_page (st : vgpu_state) (mfn : Z) : option nat :=
  find_by sp_mfn st (shadow_page_hash_table st) mfn.

(** [alloc_spt]: [None] is NULL. *)
Definition alloc_spt : ST (option nat) :=
  let* st := get in
  do* modify (fun st => set_alloc_calls st (Datatypes.S (alloc_calls st))) in
  if alloc_spt_ok (hv st) (alloc_calls st) then
    let p := next_spt st in
    do* modify (fun st =>
          set_next_spt (set_spts st (<[p := zero_spt]> (spts st))) (Datatypes.S p)) in
    ret (Some p)
  else ret None.

Definition free_spt (spt : nat) : ST unit :=
  modify (fun st => set_spts st (delete spt (spts st))).

Definition ppgtt_free_shadow_page (spt : nat) : ST unit :=
  do* emit (EvSptFree spt) in
  do* clean_shadow_page spt in
  do* intel_vgpu_clean_guest_page spt in
  do* modify (fun st => set_post_shadow_list_head st (list_del spt (post_shadow_list_head st))) in
  free_spt spt.

Definition ppgtt_find_shadow_page (st : vgpu_state) (mfn : Z) : option nat :=
  find_shadow_page st mfn.

Definition pt_entries (st : vgpu_state) : Z :=
  Z.shiftr GTT_PAGE_SIZE (gtt_entry_size_shift (device_info st)).

Definition ppgtt_get_shadow_page (spt : nat) : ST unit :=
  upd_spt spt (fun s => set_refcount s (refcount s + 1)).

(** ** Tearing a shadow tree down *)

Definition ppgtt_invalidate_shadow_page_by_shadow_entry
    (ppgtt_invalidate_shadow_page : nat -> FT Z) (e : intel_gvt_gtt_entry) : FT Z :=
  if negb (gtt_type_is_pt (get_next_pt_type (type e))) then fret (- EINVAL)
  else
    let? st := lift get in
    let cur_pt_type := gtt_type_val (get_next_pt_type (type e)) + 1 in
    let is_root := bool_decide (type e = GTT_TYPE_PPGTT_ROOT_L3_ENTRY)
                   || bool_decide (type e = GTT_TYPE_PPGTT_ROOT_L4_ENTRY) in
    if negb is_root && ((cur_pt_type <=? gtt_type_val GTT_TYPE_INVALID)
                        || (gtt_type_val GTT_TYPE_MAX <=? cur_pt_type))
    then fret (- EINVAL)
    else if negb is_root && (gen8_gtt_get_pfn e =? scratch_pt_mfn st cur_pt_type)
    then fret 0
    else
      match ppgtt_find_shadow_page st (gen8_gtt_get_pfn e) with
      | None => fret (- ENXIO)
      | Some s => ppgtt_invalidate_shadow_page s
      end.

Fixpoint ppgtt_invalidate_shadow_page (fuel : nat) (spt : nat) : FT Z :=
  match fuel with
  | O => out_of_fuel
  | Datatypes.S fuel' =>
      do? lift (emit (EvSptRefcountDec spt)) in
      do? lift (upd_spt spt (fun s => set_refcount s (refcount s - 1))) in
      let? st := lift get in
      if 0 <? refcount (spt_of st spt) then fret 0
      else
        let? r :=
          (if gtt_type_is_pte_pt (sp_type (spt_of st spt)) then fret (inr tt)
           else
             ffor_each (upto (pt_entries st)) tt (fun index _ =>
               let? (r, e) := lift (ppgtt_get_shadow_entry spt uninit_entry index) in
               if (r =? 0) && gen8_gtt_test_present e then
                 if negb (gtt_type_is_pt (get_next_pt_type (type e))) then
                   fret (inl (- EINVAL))
                 else
                   let? ret := ppgtt_invalidate_shadow_page_by_shadow_entry
                                 (ppgtt_invalidate_shadow_page fuel') e in
                   if negb (ret =? 0) then fret (inl ret) else fret (inr tt)
               else fret (inr tt))) in
        match r with
        | inl err => fret err
        | inr _ =>
            do? lift (ppgtt_free_shadow_page spt) in
            fret 0
        end
  end.

(** ** Out-of-sync pages *)

Definition sync_oos_page (oos : nat) : ST Z :=
  let* st := get in
  let spt := deref (oos_guest_page (oos_of st oos)) in
  do* emit (EvOosChange OosSync oos spt) in
  let e0 := mk_entry 0 (get_entry_type (guest_page_type (spt_of st spt))) in
  let* r :=
    for_each (upto (pt_entries st)) (e0, e0) (fun index '(old, new) =>
      let* (_, old) := gtt_get_entry64__BKL (Some (PtOos oos)) old index false 0 in
      let* st := get in
      let* (_, new) := gtt_get_entry64__BKL None new index true
                         (u64 (Z.shiftl (gfn (spt_of st (deref (oos_guest_page (oos_of st oos)))))
                                        PAGE_SHIFT)) in
      let* skip :=
        (if val64 old =? val64 new then
           let* st := get in
           do* upd_spt spt (fun s => set_post_shadow_bitmap s (clear_bit index (post_shadow_bitmap s))) in
           ret (negb (test_bit index (post_shadow_bitmap (spt_of st spt))))
         else ret false) in
      if skip then ret (inr (old, new))
      else
        let* (r, m) := gtt_entry_p2m new in
        if negb (r =? 0) then ret (inl r)
        else
          do* gtt_set_entry64__BKL (Some (PtOos oos)) new index false 0 in
          do* ppgtt_set_shadow_entry spt m index in
          ret (inr (old, new))) in
  match r with
  | inl err => ret err
  | inr _ =>
      let* st := get in
      do* upd_spt (deref (oos_guest_page (oos_of st oos))) (fun s => set_write_cnt s 0) in
      do* modify (fun st => set_post_shadow_list_head st (list_del spt (post_shadow_list_head st))) in
      ret 0
  end.

Definition attach_oos_page (oos gpt : nat) : ST Z :=
  let* st := get in
  let gpa := u64 (Z.shiftl (gfn (spt_of st gpt)) GTT_PAGE_SHIFT) in
  let* r := intel_gvt_hypervisor_read_gpa gpa GTT_PAGE_SIZE in
  if negb (r =? 0) then ret r
  else
    do* upd_oos oos (fun o =>
          set_oos_guest_page (set_oos_mem o (guest_page_snapshot st gpa)) (Some gpt)) in
    do* upd_spt gpt (fun s => set_oos_page s (Some oos)) in
    do* modify (fun st =>
          set_oos_page_use_list_head
            (set_oos_page_free_list_head st (list_del oos (oos_page_free_list_head st)))
            (list_add_tail oos (list_del oos (oos_page_use_list_head st)))) in
    do* emit (EvOosChange OosAttach oos gpt) in
    ret 0.

Definition ppgtt_set_guest_page_sync (gpt : nat) : ST Z :=
  let* r := intel_gvt_hypervisor_set_wp_page gpt in
  if negb (r =? 0) then ret r
  else
    let* st := get in
    let oos := deref (oos_page (spt_of st gpt)) in
    do* emit (EvOosChange OosSetPageSync oos gpt) in
    do* modify (fun st => set_oos_page_list_head st (list_del oos (oos_page_list_head st))) in
    sync_oos_page oos.

(** With both pool lists empty, C takes the list head itself for an
    element; the embedding then names object 0. *)
Definition ppgtt_allocate_oos_page (gpt : nat) : ST Z :=
  let* st := get in
  match oos_page_free_list_head st with
  | [] =>
      let oos := hd 0%nat (oos_page_use_list_head st) in
      let* r := ppgtt_set_guest_page_sync (deref (oos_guest_page (oos_of st oos))) in
      if negb (r =? 0) then ret r
      else
        let* r := detach_oos_page oos in
        if negb (r =? 0) then ret r
        else attach_oos_page oos gpt
  | oos :: _ => attach_oos_page oos gpt
  end.

Definition ppgtt_set_guest_page_oos (gpt : nat) : ST Z :=
  let* st := get in
  match oos_page (spt_of st gpt) with
  | None => ret (- EINVAL)
  | Some oos =>
      do* emit (EvOosChange OosSetPageOutOfSync oos gpt) in
      do* modify (fun st => set_oos_page_list_head st (list_add_tail oos (oos_page_list_head st))) in
      intel_gvt_hypervisor_unset_wp_page gpt
  end.

(** [list_for_each_safe] visits the elements that were on the list when
    the loop started; its body unlinks the current element only. *)
Definition intel_vgpu_sync_oos_pages : ST Z :=
  let* st := get in
  if negb (enable_gvt_oos st) then ret 0
  else
    let* r := for_each (oos_page_list_head st) tt (fun oos _ =>
                let* st := get in
                let* r := ppgtt_set_guest_page_sync (deref (oos_guest_page (oos_of st oos))) in
                if negb (r =? 0) then ret (inl r) else ret (inr tt)) in
    match r with
    | inl err => ret err
    | inr _ => ret 0
    end.

(** ** mm objects: invalidation and reclaim *)

(** [invalidate_mm_pv].  The i915 address space the PV path releases is
    outside the file. *)
Definition invalidate_mm_pv (mm : nat) : ST unit :=
  let* st := get in
  if negb (page_table_level (mm_of st mm) =? 4) then ret tt
  else
    let* (_, se) := ppgtt_get_shadow_root_entry mm uninit_entry 0 in
    if negb (gen8_gtt_test_present se) then ret tt
    else
      do* ppgtt_set_shadow_root_entry mm (set_val64 se 0) 0 in
      upd_mm mm (fun m => set_shadowed m false).

Definition invalidate_mm (fuel : nat) (mm : nat) : FT unit :=
  let? st := lift get in
  if negb (has_shadow_page_table (mm_of st mm)) || negb (shadowed (mm_of st mm)) then fret tt
  else if pvmmio_ppgtt_update st then lift (invalidate_mm_pv mm)
  else
    do? ffor_each (upto (page_table_entry_cnt (mm_of st mm))) uninit_entry (fun i se =>
          let? (_, se) := lift (ppgtt_get_shadow_root_entry mm se i) in
          if negb (gen8_gtt_test_present se) then fret (inr se : unit + _)
          else
            do? ppgtt_invalidate_shadow_page_by_shadow_entry
                  (ppgtt_invalidate_shadow_page fuel) se in
            let se := set_val64 se 0 in
            do? lift (ppgtt_set_shadow_root_entry mm se i) in
            fret (inr se)) in
    lift (upd_mm mm (fun m => set_shadowed m false)).

(** The first element of the LRU list that [reclaim_one_mm] may take. *)
Definition reclaimable (st : vgpu_state) (mm : nat) : bool :=
  (mm_type (mm_of st mm) =? INTEL_GVT_MM_PPGTT) && (pincount (mm_of st mm) =? 0).

Definition reclaim_one_mm (fuel : nat) : FT Z :=
  let? st := lift get in
  match List.find (reclaimable st) (mm_lru_list_head st) with
  | Some mm =>
      do? lift (emit (EvReclaim mm)) in
      do? lift (modify (fun st => set_mm_lru_list_head st (list_del mm (mm_lru_list_head st)))) in
      do? invalidate_mm fuel mm in
      fret 1
  | None => fret 0
  end.

(** ** Shadow page allocation and population *)

(** The result of a function that returns [ERR_PTR(err)] or an object. *)
Definition ptr_or_err : Type := Z + nat.

Fixpoint ppgtt_alloc_shadow_page (fuel : nat) (ty : gtt_type) (g : Z) : FT ptr_or_err :=
  match fuel with
  | O => out_of_fuel
  | Datatypes.S fuel' =>
      let? a := lift alloc_spt in
      match a with
      | None =>
          let? r := reclaim_one_mm fuel' in
          if negb (r =? 0) then ppgtt_alloc_shadow_page fuel' ty g
          else fret (inl (- ENOMEM))
      | Some spt =>
          do? lift (upd_spt spt (fun s => set_refcount (set_guest_page_type s ty) 1)) in
          let? r := lift (init_shadow_page spt ty) in
          if negb (r =? 0) then
            do? lift (ppgtt_free_shadow_page spt) in fret (inl r)
          else
            let? r := lift (intel_vgpu_init_guest_page spt g) in
            if negb (r =? 0) then
              do? lift (ppgtt_free_shadow_page spt) in fret (inl r)
            else
              do? lift (emit (EvSptAlloc spt)) in
              fret (inr spt)
      end
  end.

Definition ppgtt_populate_shadow_page_by_guest_entry
    (ppgtt_populate_shadow_page : nat -> FT Z) (fuel : nat)
    (we : intel_gvt_gtt_entry) : FT ptr_or_err :=
  if negb (gtt_type_is_pt (get_next_pt_type (type we))) then fret (inl (- EINVAL))
  else
    let? st := lift get in
    match intel_vgpu_find_guest_page st (gen8_gtt_get_pfn we) with
    | Some s =>
        do? lift (ppgtt_get_shadow_page s) in
        fret (inr s)
    | None =>
        let ty := get_next_pt_type (type we) in
        let? s := ppgtt_alloc_shadow_page fuel ty (gen8_gtt_get_pfn we) in
        match s with
        | inl err => fret (inl err)
        | inr s =>
            let? r := lift (intel_gvt_hypervisor_set_wp_page s) in
            if negb (r =? 0) then fret (inl r)
            else
              let? r := ppgtt_populate_shadow_page s in
              if negb (r =? 0) then fret (inl r)
              else fret (inr s)
        end
    end.

Definition ppgtt_generate_shadow_entry (st : vgpu_state) (se : intel_gvt_gtt_entry)
    (s : nat) (ge : intel_gvt_gtt_entry) : intel_gvt_gtt_entry :=
  gen8_gtt_set_pfn (set_val64 (set_type se (type ge)) (val64 ge)) (sp_mfn (spt_of st s)).

Fixpoint ppgtt_populate_shadow_page (fuel : nat) (spt : nat) : FT Z :=
  match fuel with
  | O => out_of_fuel
  | Datatypes.S fuel' =>
      let? st := lift get in
      if gtt_type_is_pte_pt (sp_type (spt_of st spt)) then
        do? lift (modify (fun st => set_ge_cache_enable st true)) in
        let? r := lift (for_each (upto (pt_entries st)) tt (fun i _ =>
                    let* (r, ge) := ppgtt_get_guest_entry spt uninit_entry i in
                    if (r =? 0) && gen8_gtt_test_present ge then
                      let* (r, se) := gtt_entry_p2m ge in
                      if negb (r =? 0) then ret (inl r)
                      else
                        do* ppgtt_set_shadow_entry spt se i in
                        ret (inr tt)
                    else ret (inr tt))) in
        match r with
        | inl err => fret err
        | inr _ =>
            do? lift (modify (fun st => set_ge_cache_enable st false)) in
            fret 0
        end
      else
        let? r := ffor_each (upto (pt_entries st)) tt (fun i _ =>
                    let? (r, ge) := lift (ppgtt_get_guest_entry spt uninit_entry i) in
                    if (r =? 0) && gen8_gtt_test_present ge then
                      if negb (gtt_type_is_pt (get_next_pt_type (type ge))) then
                        fret (inl (- EINVAL))
                      else
                        let? s := ppgtt_populate_shadow_page_by_guest_entry
                                    (ppgtt_populate_shadow_page fuel') fuel' ge in
                        match s with
                        | inl err => fret (inl err)
                        | inr s =>
                            let? (_, se) := lift (ppgtt_get_shadow_entry spt uninit_entry i) in
                            let? st := lift get in
                            do? lift (ppgtt_set_shadow_entry spt
                                        (ppgtt_generate_shadow_entry st se s ge) i) in
                            fret (inr tt)
                        end
                    else fret (inr tt)) in
        match r with
        | inl err => fret err
        | inr _ => fret 0
        end
  end.

(** ** Guest writes to a tracked page table *)

Definition ppgtt_handle_guest_entry_removal (fuel : nat) (gpt : nat)
    (se : intel_gvt_gtt_entry) (index : Z) : FT Z :=
  let spt := gpt in
  do? lift (emit (EvGptChangeRemove spt (val64 se) index)) in
  let? st := lift get in
  if negb (gen8_gtt_test_present se) then fret 0
  else if gen8_gtt_get_pfn se
          =? scratch_pt_mfn st (gtt_type_val (sp_type (spt_of st spt))) then fret 0
  else if gtt_type_is_pt (get_next_pt_type (type se)) then
    match ppgtt_find_shadow_page st (gen8_gtt_get_pfn se) with
    | None => fret (- ENXIO)
    | Some s =>
        let? r := ppgtt_invalidate_shadow_page fuel s in
        if negb (r =? 0) then fret r else fret 0
    end
  else fret 0.

Definition ppgtt_handle_guest_entry_add (fuel : nat) (gpt : nat)
    (we : intel_gvt_gtt_entry) (index : Z) : FT Z :=
  let spt := gpt in
  do? lift (emit (EvGptChangeAdd spt (val64 we) index)) in
  if gtt_type_is_pt (get_next_pt_type (type we)) then
    let? s := ppgtt_populate_shadow_page_by_guest_entry
                (ppgtt_populate_shadow_page fuel) fuel we in
    match s with
    | inl err => fret err
    | inr s =>
        let? (_, m) := lift (ppgtt_get_shadow_entry spt uninit_entry index) in
        let? st := lift get in
        do? lift (ppgtt_set_shadow_entry spt (ppgtt_generate_shadow_entry st m s we) index) in
        fret 0
    end
  else
    let? (r, m) := lift (gtt_entry_p2m we) in
    if negb (r =? 0) then fret r
    else
      do? lift (ppgtt_set_shadow_entry spt m index) in
      fret 0.

(** The heart of PPGTT shadow page table. *)
Definition ppgtt_handle_guest_write_page_table (fuel : nat) (gpt : nat)
    (we : intel_gvt_gtt_entry) (index : Z) : FT Z :=
  let spt := gpt in
  let? st := lift get in
  let ty := sp_type (spt_of st spt) in
  let new_present := gen8_gtt_test_present we in
  let? (_, se) := lift (ppgtt_get_shadow_entry spt uninit_entry index) in
  let? r := (if new_present then ppgtt_handle_guest_entry_add fuel gpt we index
             else fret 0) in
  if negb (r =? 0) then fret r
  else
    let? r := ppgtt_handle_guest_entry_removal fuel gpt se index in
    if negb (r =? 0) then fret r
    else
      do? (if negb new_present then
             let? st := lift get in
             let se := gen8_gtt_set_pfn se (scratch_pt_mfn st (gtt_type_val ty)) in
             do? lift (ppgtt_set_shadow_entry spt se index) in
             fret tt
           else fret tt) in
      fret 0.

Definition can_do_out_of_sync (st : vgpu_state) (gpt : nat) : bool :=
  enable_gvt_oos st
  && gtt_type_is_pte_pt (guest_page_type (spt_of st gpt))
  && (2 <=? write_cnt (spt_of st gpt)).

Definition ppgtt_set_post_shadow (spt : nat) (index : Z) : ST unit :=
  do* upd_spt spt (fun s => set_post_shadow_bitmap s (set_bit index (post_shadow_bitmap s))) in
  let* st := get in
  if bool_decide (spt ∈ post_shadow_list_head st) then ret tt
  else modify (fun st =>
         set_post_shadow_list_head st (list_add_tail spt (post_shadow_list_head st))).

(** [int] arithmetic wraps (the kernel is built with -fno-strict-overflow). *)
Definition wrap_int (x : Z) : Z := (x + 2 ^ 31) mod 2 ^ 32 - 2 ^ 31.

Definition ppgtt_handle_guest_write_page_table_bytes (fuel : nat) (gp : nat)
    (pa p_data bytes : Z) : FT Z :=
  let gpt := gp in
  let spt := gpt in
  let? st := lift get in
  let info := device_info st in
  let index := Z.shiftr (Z.land pa (PAGE_SIZE - 1)) (gtt_entry_size_shift info) in
  do? lift (intel_gvt_hypervisor_write_gpa pa p_data bytes) in
  let? (_, we) := lift (ppgtt_get_guest_entry spt uninit_entry index) in
  let we := snd (gen8_gtt_test_pse we) in
  let? r :=
    (if bytes =? gtt_entry_size info then
       ppgtt_handle_guest_write_page_table fuel gpt we index
     else
       let? st := lift get in
       let? r :=
         (if negb (test_bit index (post_shadow_bitmap (spt_of st spt))) then
            let ty := sp_type (spt_of st spt) in
            let? (_, se) := lift (ppgtt_get_shadow_entry spt uninit_entry index) in
            let? r := ppgtt_handle_guest_entry_removal fuel gpt se index in
            if negb (r =? 0) then fret r
            else
              let? st := lift get in
              let se := gen8_gtt_set_pfn se (scratch_pt_mfn st (gtt_type_val ty)) in
              do? lift (ppgtt_set_shadow_entry spt se index) in
              fret 0
          else fret 0) in
       if negb (r =? 0) then fret r
       else
         do? lift (ppgtt_set_post_shadow spt index) in
         fret 0) in
  if negb (r =? 0) then fret r
  else
    lift (
      let* st := get in
      if negb (enable_gvt_oos st) then ret 0
      else
        do* upd_spt gpt (fun s => set_write_cnt s (wrap_int (write_cnt s + 1))) in
        let* st := get in
        do* (match oos_page (spt_of st gpt) with
             | Some oos =>
                 do* gtt_set_entry64__BKL (Some (PtOos oos)) we index false 0 in
                 ret tt
             | None => ret tt
             end) in
        let* st := get in
        if can_do_out_of_sync st gpt then
          do* (match oos_page (spt_of st gpt) with
               | None => do* ppgtt_allocate_oos_page gpt in ret tt
               | Some _ => ret tt
               end) in
          let* r := ppgtt_set_guest_page_oos gpt in
          if r <? 0 then ret r else ret 0
        else ret 0).

(** The second half of [ppgtt_handle_guest_write_page_table_bytes], from
    the test of [i915_modparams.enable_gvt_oos] on, as a function of its
    own: the write is counted and the page may go out of sync. *)
Definition guest_write_out_of_sync (gpt : nat) (we : intel_gvt_gtt_entry)
    (index : Z) : ST Z :=
  let* st := get in
  if negb (enable_gvt_oos st) then ret 0
  else
    do* upd_spt gpt (fun s => set_write_cnt s (wrap_int (write_cnt s + 1))) in
    let* st := get in
    do* (match oos_page (spt_of st gpt) with
         | Some oos =>
             do* gtt_set_entry64__BKL (Some (PtOos oos)) we index false 0 in
             ret tt
         | None => ret tt
         end) in
    let* st := get in
    if can_do_out_of_sync st gpt then
      do* (match oos_page (spt_of st gpt) with
           | None => do* ppgtt_allocate_oos_page gpt in ret tt
           | Some _ => ret tt
           end) in
      let* r := ppgtt_set_guest_page_oos gpt in
      if r <? 0 then ret r else ret 0
    else ret 0.


Definition ppgtt_write_protection_handler (fuel : nat) (gp : nat)
    (pa p_data bytes : Z) : FT Z :=
  let gpt := gp in
  if negb (bytes =? 4) && negb (bytes =? 8) then fret (- EINVAL)
  else
    let? st := lift get in
    if negb (writeprotection (spt_of st gpt)) then fret (- EINVAL)
    else
      let? r := ppgtt_handle_guest_write_page_table_bytes fuel gp pa p_data bytes in
      if negb (r =? 0) then fret r else fret r.

(** ** GMA translation *)

Definition ppgtt_get_next_level_entry (mm : nat) (e : intel_gvt_gtt_entry)
    (index : Z) (guest : bool) : ST (Z * intel_gvt_gtt_entry) :=
  let* st := get in
  if negb (has_shadow_page_table (mm_of st mm)) then ret (- EINVAL, e)
  else
    match ppgtt_find_shadow_page st (gen8_gtt_get_pfn e) with
    | None => ret (- ENXIO, e)
    | Some s =>
        let* (_, e) := (if negb guest then ppgtt_get_shadow_entry s e index
                        else ppgtt_get_guest_entry s e index) in
        ret (0, e)
    end.

(** The walk below the root: [path] lists the index of every level
    together with the [guest] argument of its lookup. *)
Definition walk_levels (mm : nat) (e : intel_gvt_gtt_entry) (path : list (Z * bool))
    : ST (unit + intel_gvt_gtt_entry) :=
  for_each path e (fun '(index, guest) e =>
    let* (r, e) := ppgtt_get_next_level_entry mm e index guest in
    if negb (r =? 0) then ret (inl tt)
    else if negb (gen8_gtt_test_present e) then ret (inl tt)
    else ret (inr e)).

(** [gma_index[i]] with [i == index - 1] next to it. *)
Fixpoint gma_path (indices : list Z) : list (Z * bool) :=
  match indices with
  | [] => []
  | x :: rest => (x, match rest with [] => true | _ => false end) :: gma_path rest
  end.

(** The [switch] on [mm->page_table_level]: the root slot to read and
    [gma_index[]]. *)
Definition gma_levels (level gma : Z) : option (Z * list Z) :=
  if level =? 4 then
    Some (0, [gen8_gma_to_pml4_index gma; gen8_gma_to_l4_pdp_index gma;
              gen8_gma_to_pde_index gma; gen8_gma_to_pte_index gma])
  else if level =? 3 then
    Some (gen8_gma_to_l3_pdp_index gma,
          [gen8_gma_to_pde_index gma; gen8_gma_to_pte_index gma])
  else if level =? 2 then
    Some (gen8_gma_to_pde_index gma, [gen8_gma_to_pte_index gma])
  else None.

Definition gpa_of (e : intel_gvt_gtt_entry) (gma : Z) : Z :=
  u64 (Z.shiftl (gen8_gtt_get_pfn e) GTT_PAGE_SHIFT + Z.land gma GTT_PAGE_OFFSET_MASK).

Definition intel_vgpu_gma_to_gpa (mm : nat) (gma : Z) : ST Z :=
  let* st := get in
  let m := mm_of st mm in
  if negb (mm_type m =? INTEL_GVT_MM_GGTT) && negb (mm_type m =? INTEL_GVT_MM_PPGTT) then
    ret INTEL_GVT_INVALID_ADDR
  else if mm_type m =? INTEL_GVT_MM_GGTT then
    if negb (vgpu_gmadr_is_valid st gma) then ret INTEL_GVT_INVALID_ADDR
    else
      let* (r, e) := ggtt_get_guest_entry mm uninit_entry (gma_to_ggtt_pte_index gma) in
      if negb (r =? 0) then ret INTEL_GVT_INVALID_ADDR
      else ret (gpa_of e gma)
  else
    match gma_levels (page_table_level m) gma with
    | None => ret INTEL_GVT_INVALID_ADDR
    | Some (root_index, gma_index) =>
        let* (r, e) := ppgtt_get_shadow_root_entry mm uninit_entry root_index in
        if negb (r =? 0) then ret INTEL_GVT_INVALID_ADDR
        else
          let* w := walk_levels mm e (gma_path gma_index) in
          match w with
          | inl _ => ret INTEL_GVT_INVALID_ADDR
          | inr e => ret (gpa_of e gma)
          end
    end.

(** ** GTT MMIO emulation

    [p_data] is the content of the caller's buffer; a read hands the
    buffer back next to its result. *)

Definition emulate_gtt_mmio_read (off p_data bytes : Z) : ST (Z * Z) :=
  let* st := get in
  let info := device_info st in
  let index := Z.shiftr off (gtt_entry_size_shift info) in
  if negb (bytes =? 4) && negb (bytes =? 8) then ret (- EINVAL, p_data)
  else
    let* (_, e) := ggtt_get_guest_entry (ggtt_mm st) uninit_entry index in
    ret (0, extract_bytes (val64 e) (Z.land off (gtt_entry_size info - 1)) bytes).

Definition intel_vgpu_emulate_gtt_mmio_read (off p_data bytes : Z) : ST (Z * Z) :=
  let* st := get in
  if negb (bytes =? 4) && negb (bytes =? 8) then ret (- EINVAL, p_data)
  else
    let off := u32 (off - gtt_start_offset (device_info st)) in
    emulate_gtt_mmio_read off p_data bytes.

Definition emulate_gtt_mmio_write (off p_data bytes : Z) : ST Z :=
  let* st := get in
  let info := device_info st in
  let g_gtt_index := Z.shiftr off (gtt_entry_size_shift info) in
  if negb (bytes =? 4) && negb (bytes =? 8) then ret (- EINVAL)
  else
    let gma := u64 (Z.shiftl g_gtt_index GTT_PAGE_SHIFT) in
    if negb (vgpu_gmadr_is_valid st gma) then ret 0
    else
      let* (_, e) := ggtt_get_guest_entry (ggtt_mm st) uninit_entry g_gtt_index in
      let e := set_val64 e (merge_bytes (val64 e) (Z.land off (gtt_entry_size info - 1))
                              p_data bytes) in
      let* m :=
        (if gen8_gtt_test_present e then
           let* (r, m) := gtt_entry_p2m e in
           if negb (r =? 0) then
             let* st := get in
             ret (gen8_gtt_set_pfn m (scratch_ggtt_mfn st))
           else ret m
         else
           let* st := get in
           ret (gen8_gtt_set_pfn e (scratch_ggtt_mfn st))) in
      do* ggtt_set_shadow_entry (ggtt_mm st) m g_gtt_index in
      do* gtt_invalidate in
      do* ggtt_set_guest_entry (ggtt_mm st) e g_gtt_index in
      ret 0.

Definition intel_vgpu_emulate_gtt_mmio_write (off p_data bytes : Z) : ST Z :=
  let* st := get in
  if negb (bytes =? 4) && negb (bytes =? 8) then ret (- EINVAL)
  else
    let off := u32 (off - gtt_start_offset (device_info st)) in
    emulate_gtt_mmio_write off p_data bytes.

(** ** The statements of the design document

    Definitions that follow the words of the document rather than the
    code, to be compared with the code. *)

(** Section 4.1: a root pointer is present when its raw value is
    non-zero, every other entry when its present bit (bit 0) is set. *)
Definition present_as_documented (e : intel_gvt_gtt_entry) : Prop :=
  if bool_decide (type e = GTT_TYPE_PPGTT_ROOT_L3_ENTRY
                  \/ type e = GTT_TYPE_PPGTT_ROOT_L4_ENTRY)
  then val64 e <> 0
  else Z.testbit (val64 e) 0 = true.

(** Section 4.6, [gma_to_gpa]: "reading successive shadow entries (not
    guest entries)" at every level. *)
Definition gma_path_shadow_only (indices : list Z) : list (Z * bool) :=
  map (fun x => (x, false)) indices.

Definition gma_to_gpa_as_documented (mm : nat) (gma : Z) : ST Z :=
  let* st := get in
  match gma_levels (page_table_level (mm_of st mm)) gma with
  | None => ret INTEL_GVT_INVALID_ADDR
  | Some (root_index, gma_index) =>
      let* (r, e) := ppgtt_get_shadow_root_entry mm uninit_entry root_index in
      if negb (r =? 0) then ret INTEL_GVT_INVALID_ADDR
      else
        let* w := walk_levels mm e (gma_path_shadow_only gma_index) in
        match w with
        | inl _ => ret INTEL_GVT_INVALID_ADDR
        | inr e => ret (gpa_of e gma)
        end
  end.

(** Section 4.5: a page is hot when the feature is on and its "guest
    write-count >= 2 while still write-protected". *)
Definition hot_as_documented (st : vgpu_state) (gpt : nat) : bool :=
  enable_gvt_oos st && (2 <=? write_cnt (spt_of st gpt)).

(** A successful walk below the root, level by level: the shadow page
    named by the entry in hand is found, the next entry is fetched from
    it and is present.  The last level fetches the guest entry of that
    page, the levels above it the shadow entry. *)
Inductive shadow_walk (mm : nat) :
  vgpu_state -> intel_gvt_gtt_entry -> list Z -> vgpu_state -> intel_gvt_gtt_entry -> Prop :=
| shadow_walk_last st e index s r e' st' :
    has_shadow_page_table (mm_of st mm) = true ->
    ppgtt_find_shadow_page st (gen8_gtt_get_pfn e) = Some s ->
    ppgtt_get_guest_entry s e index st = ((r, e'), st') ->
    gen8_gtt_test_present e' = true ->
    shadow_walk mm st e [index] st' e'
| shadow_walk_next st e index s r e' st' index' rest st'' e'' :
    has_shadow_page_table (mm_of st mm) = true ->
    ppgtt_find_shadow_page st (gen8_gtt_get_pfn e) = Some s ->
    ppgtt_get_shadow_entry s e index st = ((r, e'), st') ->
    gen8_gtt_test_present e' = true ->
    shadow_walk mm st' e' (index' :: rest) st'' e'' ->
    shadow_walk mm st e (index :: index' :: rest) st'' e''.

(** ** Scenarios

    Concrete machines on which the theorems below are exercised. *)

(** A hypervisor that maps guest frame [g] to machine frame [g + 0x1000],
    except that it cannot translate frame 0x55; every other service
    succeeds. *)
Definition demo_host : host :=
  mk_host (fun g => if g =? 0x55 then INTEL_GVT_INVALID_ADDR else g + 0x1000)
          (fun _ => 0) (fun _ => 0) (fun _ => 0) (fun _ => 0)
          (fun _ => true)
          (fun p => Some (Z.shiftl (0x100 + Z.of_nat p) 12))
          false.

Definition gen8_device_info : intel_gvt_device_info := mk_device_info 0x800000 8 3.

Definition demo_ggtt_mm : intel_vgpu_mm :=
  mk_mm INTEL_GVT_MM_GGTT false false GTT_TYPE_GGTT_PTE 1 (2 ^ 19) (Some ∅) None 0.

(** A vGPU after [intel_vgpu_init_gtt]: aperture [0, 0x0fffffff], hidden
    range [0x40000000, 0x7fffffff], the GGTT mm as object 1, two pooled
    out-of-sync pages, scratch page of type [t] at frame [0x200 + t]. *)
Definition boot_state : vgpu_state :=
  mk_state demo_host gen8_device_info true false
    0 0x0fffffff 0x40000000 0x7fffffff
    ∅ ∅
    ∅ {[ 1%nat := zero_oos; 2%nat := zero_oos ]} {[ 1%nat := demo_ggtt_mm ]}
    1 0
    1 [] [] [] []
    (fun t => 0x200 + t) false (Some ∅)
    [1%nat; 2%nat] [] []
    0x2ff 0 0 [].

(** ** Footprints

    [respects R m]: a run of [m] takes a state to an [R]-related one. *)

Definition respects {A} (R : vgpu_state -> vgpu_state -> Prop) (m : ST A) : Prop :=
  forall st, R st (snd (m st)).

Definition frespects {A} (R : vgpu_state -> vgpu_state -> Prop) (m : FT A) : Prop :=
  forall st a st', m st = Some (a, st') -> R st st'.

(** The trace only grows, and only by events of class [c]. *)
Definition trace_grows (c : event -> bool) (st st' : vgpu_state) : Prop :=
  exists evs, trace st' = trace st ++ evs /\ Forall (fun ev => c ev = true) evs.

(** What no code of the file assigns. *)
Definition same_config (st st' : vgpu_state) : Prop :=
  hv st' = hv st
  /\ device_info st' = device_info st
  /\ enable_gvt_oos st' = enable_gvt_oos st
  /\ pvmmio_ppgtt_update st' = pvmmio_ppgtt_update st
  /\ scratch_pt_mfn st' = scratch_pt_mfn st
  /\ scratch_ggtt_mfn st' = scratch_ggtt_mfn st
  /\ ggtt_mm st' = ggtt_mm st.

(** Objects are never renumbered, and a page that is still there has the
    guest page type it had, unless that was the zero a fresh object
    starts with. *)
Definition keeps_types (st st' : vgpu_state) : Prop :=
  (next_spt st <= next_spt st')%nat
  /\ forall p s', (p < next_spt st)%nat -> spts st' !! p = Some s' ->
       exists s, spts st !! p = Some s
                 /\ (guest_page_type s' = guest_page_type s
                     \/ guest_page_type s = GTT_TYPE_GGTT_PTE).

Definition footprint (c : event -> bool) (st st' : vgpu_state) : Prop :=
  same_config st st' /\ trace_grows c st st' /\ keeps_types st st'.

(** What releasing shadow pages leaves alone. *)
Definition untouched_pool (st st' : vgpu_state) : Prop :=
  alloc_calls st' = alloc_calls st
  /\ next_spt st' = next_spt st
  /\ mm_lru_list_head st' = mm_lru_list_head st.

(** A step that changes neither the trace nor the shadow page arena. *)
Definition quiet (st st' : vgpu_state) : Prop :=
  same_config st st' /\ trace st' = trace st /\ spts st' = spts st
  /\ next_spt st' = next_spt st.

(** An out-of-sync page and the guest page it is the snapshot of point
    at each other. *)
Definition attached (st : vgpu_state) (oos : nat) : Prop :=
  oos_page (spt_of st (deref (oos_guest_page (oos_of st oos)))) = Some oos.

Definition keeps_attachment (st st' : vgpu_state) : Prop :=
  (forall p, oos_page (spt_of st' p) = oos_page (spt_of st p))
  /\ (forall o, oos_guest_page (oos_of st' o) = oos_guest_page (oos_of st o)).

(** What synchronizing one page leaves alone. *)
Definition sync_frame (st st' : vgpu_state) : Prop :=
  same_config st st'
  /\ oos_page_list_head st' = oos_page_list_head st
  /\ keeps_attachment st st'.

(** Write protection is added, never lifted. *)
Definition keeps_protection (st st' : vgpu_state) : Prop :=
  forall p, writeprotection (spt_of st p) = true -> writeprotection (spt_of st' p) = true.

(** What handling a written entry of a leaf-level table leaves alone in
    the page [gp]. *)
Definition keeps_page (gp : nat) (st st' : vgpu_state) : Prop :=
  same_config st st'
  /\ write_cnt (spt_of st' gp) = write_cnt (spt_of st gp)
  /\ guest_page_type (spt_of st' gp) = guest_page_type (spt_of st gp)
  /\ sp_type (spt_of st' gp) = sp_type (spt_of st gp)
  /\ writeprotection (spt_of st' gp) = writeprotection (spt_of st gp).

(** The decision of [can_do_out_of_sync] for the write being handled,
    seen from before the write is counted. *)
Definition goes_out_of_sync (st : vgpu_state) (gp : nat) : Prop :=
  enable_gvt_oos st = true
  /\ guest_page_type (spt_of st gp) = GTT_TYPE_PPGTT_PTE_PT
  /\ 2 <= wrap_int (write_cnt (spt_of st gp) + 1).

Definition subclass (c1 c2 : event -> bool) : Prop :=
  forall ev, c1 ev = true -> c2 ev = true.

(** The events of releasing shadow pages: reference drops, frees, and
    what [intel_vgpu_clean_guest_page] does for a page that goes away. *)
Definition is_teardown_event (ev : event) : bool :=
  match ev with
  | EvSptRefcountDec _ | EvSptFree _ | EvUnsetWp _ | EvOosChange OosDetach _ _ => true
  | _ => false
  end.

(** The events of invalidating an mm: teardown, and the reading and
    clearing of its root slots. *)
Definition is_invalidate_event (ev : event) : bool :=
  match ev with
  | EvSetEntry _ _ _ | EvReadPte64 _ | EvWritePte64 _ _ => true
  | _ => is_teardown_event ev
  end.

(** The events of building and reclaiming shadow pages: everything but
    the markers of the guest-write handlers, guest memory writes, GTT
    flushes and the out-of-sync transitions. *)
Definition is_shadowing_event (ev : event) : bool :=
  match ev with
  | EvReadGpa _ _ | EvGfnToMfn _ | EvSetWp _ | EvSptAlloc _ | EvReclaim _ => true
  | _ => is_invalidate_event ev
  end.

(** The events of adding a guest entry: its marker and shadowing. *)
Definition is_add_event (ev : event) : bool :=
  match ev with
  | EvGptChangeAdd _ _ _ => true
  | _ => is_shadowing_event ev
  end.

(** The events of removing what an old shadow entry maps: its marker
    and teardown. *)
Definition is_removal_event (ev : event) : bool :=
  match ev with
  | EvGptChangeRemove _ _ _ => true
  | _ => is_teardown_event ev
  end.

(** The events of handling one written entry. *)
Definition is_guest_write_event (ev : event) : bool :=
  match ev with
  | EvGptChangeAdd _ _ _ | EvGptChangeRemove _ _ _ => true
  | _ => is_shadowing_event ev
  end.

(** The events of the out-of-sync pool: reads of guest memory, frame
    translation, stores into snapshots and shadow pages, write
    protection, and every transition but the one to out-of-sync. *)
Definition is_oos_pool_event (ev : event) : bool :=
  match ev with
  | EvOosChange OosSetPageOutOfSync _ _ => false
  | EvOosChange _ _ _ => true
  | EvReadGpa _ _ | EvGfnToMfn _ | EvSetWp _ | EvSetEntry _ _ _ => true
  | _ => false
  end.

(** Everything but the transition of a page to out-of-sync. *)
Definition not_set_out_of_sync (ev : event) : bool :=
  match ev with
  | EvOosChange OosSetPageOutOfSync _ _ => false
  | _ => true
  end.

Definition is_set_entry_at (pt : pt_ref) (index : Z) (ev : event) : bool :=
  match ev with
  | EvSetEntry pt' index' _ => bool_decide (pt' = pt) && (index' =? index)
  | _ => false
  end.

(** The entry a GTT MMIO write assembles: the guest entry of the slot
    with the written bytes copied in. *)
Definition gtt_mmio_write_entry (st : vgpu_state) (off p_data bytes : Z)
    : intel_gvt_gtt_entry :=
  let info := device_info st in
  let e := snd (fst (ggtt_get_guest_entry (ggtt_mm st) uninit_entry
                       (Z.shiftr off (gtt_entry_size_shift info)) st)) in
  set_val64 e (merge_bytes (val64 e) (Z.land off (gtt_entry_size info - 1)) p_data bytes).

(** The graphics memory address a GTT MMIO write at [off] is about. *)
Definition gtt_mmio_write_gma (st : vgpu_state) (off : Z) : Z :=
  u64 (Z.shiftl (Z.shiftr off (gtt_entry_size_shift (device_info st))) GTT_PAGE_SHIFT).

(** Sections 4.4 and 7: "fail this operation with FrameTranslationError
    if translation fails", said of the GGTT MMIO write of the entry that
    [gtt_mmio_write_entry] assembles. *)
Definition translation_failure_is_surfaced (st : vgpu_state) (off p_data bytes : Z) : Prop :=
  let e := gtt_mmio_write_entry st off p_data bytes in
  gen8_gtt_test_present e = true ->
  gfn_to_mfn (hv st) (gen8_gtt_get_pfn e) = INTEL_GVT_INVALID_ADDR ->
  fst (emulate_gtt_mmio_write off p_data bytes st) <> 0.

(** A page-table page: type, machine frame of its shadow, shadow
    content, guest frame. *)
Definition demo_spt (ty : gtt_type) (mfn : Z) (content : page) (g : Z)
    : intel_vgpu_ppgtt_spt :=
  mk_spt ty mfn content g true 0 None ty 1 ∅.

Definition demo_ppgtt_mm (root : page) : intel_vgpu_mm :=
  mk_mm INTEL_GVT_MM_PPGTT true true GTT_TYPE_PPGTT_ROOT_L4_ENTRY 4 4 (Some root) (Some root) 0.

(** A shadowed 4-level PPGTT (mm 2) whose first slots lead through the
    shadow pages 1 (PML4), 2 (PDP), 3 (PD) to the page table 4, which
    shadows guest frame 0x50.  The shadow of its entry 0 is absent; the
    guest has meanwhile written a present entry for frame 0x77 there. *)
Definition walk_state : vgpu_state :=
  set_gmem
    (set_guest_page_hash_table
       (set_shadow_page_hash_table
          (set_mms
             (set_next_spt
                (set_spts boot_state
                   {[ 1%nat := demo_spt GTT_TYPE_PPGTT_PML4_PT 0x101 {[ 0 := 0x102001 ]} 0x10;
                      2%nat := demo_spt GTT_TYPE_PPGTT_PDP_PT 0x102 {[ 0 := 0x103001 ]} 0x20;
                      3%nat := demo_spt GTT_TYPE_PPGTT_PDE_PT 0x103 {[ 0 := 0x104001 ]} 0x30;
                      4%nat := demo_spt GTT_TYPE_PPGTT_PTE_PT 0x104 ∅ 0x50 ]})
                5)
             {[ 1%nat := demo_ggtt_mm; 2%nat := demo_ppgtt_mm {[ 0 := 0x101001 ]} ]})
          [4; 3; 2; 1]%nat)
       [4; 3; 2; 1]%nat)
    {[ Z.shiftr 0x50000 3 := 0x77001 ]}.

(** A page table (object 1, guest frame 0x50) that went out of sync with
    the pooled page 1 as its snapshot, taken when the page was empty.
    The guest has since written a present entry for frame 0x77 into its
    slot 3. *)
Definition oos_state : vgpu_state :=
  set_gmem
    (set_oos_page_use_list_head
       (set_oos_page_free_list_head
          (set_oos_page_list_head
             (set_guest_page_hash_table
                (set_shadow_page_hash_table
                   (set_ooss
                      (set_next_spt
                         (set_spts boot_state
                            {[ 1%nat := set_oos_page
                                          (set_writeprotection
                                             (demo_spt GTT_TYPE_PPGTT_PTE_PT 0x104 ∅ 0x50)
                                             false)
                                          (Some 1%nat) ]})
                         2)
                      {[ 1%nat := mk_oos ∅ (Some 1%nat); 2%nat := zero_oos ]})
                   [1%nat])
                [1%nat])
             [1%nat])
          [2%nat])
       [1%nat])
    {[ Z.shiftr (0x50000 + 8 * 3) 3 := 0x77001 ]}.

(** Section 4.5, of one trapped write that was handled with success: a
    "tracked, write-protected" page is un-trapped by it exactly when the
    page is hot, the write in hand counted. *)
Definition out_of_sync_as_documented (fuel : nat) (st : vgpu_state) (gp : nat)
    (pa p_data bytes : Z) : Prop :=
  forall st',
    writeprotection (spt_of st gp) = true ->
    ppgtt_write_protection_handler fuel gp pa p_data bytes st = Some (0, st') ->
    (writeprotection (spt_of st' gp) = false <-> hot_as_documented st' gp = true).

(** A write-protected page directory (object 1, guest frame 0x30) that
    the guest has written five times already; nothing is mapped by it. *)
Definition hot_pd_state : vgpu_state :=
  set_guest_page_hash_table
    (set_shadow_page_hash_table
       (set_next_spt
          (set_spts boot_state
             {[ 1%nat := set_write_cnt (demo_spt GTT_TYPE_PPGTT_PDE_PT 0x103 ∅ 0x30) 5 ]})
          2)
       [1%nat])
    [1%nat].

(** A write-protected page table (object 1, guest frame 0x50) that the
    guest has written once; nothing is mapped by it. *)
Definition warm_pt_state : vgpu_state :=
  set_guest_page_hash_table
    (set_shadow_page_hash_table
       (set_next_spt
          (set_spts boot_state
             {[ 1%nat := set_write_cnt (demo_spt GTT_TYPE_PPGTT_PTE_PT 0x104 ∅ 0x50) 1 ]})
          2)
       [1%nat])
    [1%nat].

(** The state a run leaves, and the events it added to the trace. *)
Definition state_after {A} (st : vgpu_state) (run : option (A * vgpu_state)) : vgpu_state :=
  match run with
  | Some (_, st') => st'
  | None => st
  end.
Definition new_events (st st' : vgpu_state) : list event :=
  drop (length (trace st)) (trace st').

(** The mms [reclaim_one_mm] took, in order, as the trace tells. *)
Definition reclaimed_mms (evs : list event) : list nat :=
  omap (fun ev => match ev with EvReclaim mm => Some mm | _ => None end) evs.

(** Everything but the taking of an mm by [reclaim_one_mm]. *)
Definition not_reclaim (ev : event) : bool :=
  match ev with
  | EvReclaim _ => false
  | _ => true
  end.

(** The next [n] calls of [alloc_spt] from [st] on all fail. *)
Definition failed_attempts (st : vgpu_state) (n : nat) : Prop :=
  forall i, (i < n)%nat -> alloc_spt_ok (hv st) (alloc_calls st + i) = false.

(** Section 4.3, "On allocation failure, triggers one round of LRU-based
    reclamation and retries once; propagates allocation failure
    otherwise", said of a run of [ppgtt_alloc_shadow_page]: at most two
    calls of the allocator, at most one mm reclaimed, and -ENOMEM when
    the allocator fails twice. *)
Definition retries_once_as_documented (fuel : nat) (st : vgpu_state) (ty : gtt_type)
    (g : Z) : Prop :=
  forall r st',
    ppgtt_alloc_shadow_page fuel ty g st = Some (r, st') ->
    (alloc_calls st' <= alloc_calls st + 2)%nat
    /\ (length (reclaimed_mms (new_events st st')) <= 1)%nat
    /\ (alloc_spt_ok (hv st) (alloc_calls st) = false ->
        alloc_spt_ok (hv st) (Datatypes.S (alloc_calls st)) = false ->
        r = inl (- ENOMEM)).

(** A hypervisor and kernel like [demo_host], whose allocator fails
    twice before it succeeds. *)
Definition scarce_host : host :=
  mk_host (gfn_to_mfn demo_host)
          (fun _ => 0) (fun _ => 0) (fun _ => 0) (fun _ => 0)
          (fun n => (2 <=? n)%nat)
          (dma_map_page demo_host)
          false.

(** [boot_state] on that host, with two shadowed, unpinned PPGTT mms
    (objects 2 and 3, nothing mapped) on the LRU list. *)
Definition exhausted_state : vgpu_state :=
  mk_state scarce_host gen8_device_info true false
    0 0x0fffffff 0x40000000 0x7fffffff
    ∅ ∅
    ∅ {[ 1%nat := zero_oos; 2%nat := zero_oos ]}
    {[ 1%nat := demo_ggtt_mm; 2%nat := demo_ppgtt_mm ∅; 3%nat := demo_ppgtt_mm ∅ ]}
    1 0
    1 [] [] [] []
    (fun t => 0x200 + t) false (Some ∅)
    [1%nat; 2%nat] [] [2%nat; 3%nat]
    0x2ff 0 0 [].

(** * Theorems *)

(** ** Running the code on a symbolic state *)

(** Reduction of field reads over field updates, and nothing else. *)
Ltac st_norm :=
  cbn [sp_type sp_mfn sp_vaddr gfn writeprotection write_cnt oos_page guest_page_type refcount
    post_shadow_bitmap oos_mem oos_guest_page mm_type has_shadow_page_table shadowed
    page_table_entry_type page_table_level page_table_entry_cnt virtual_page_table
    shadow_page_table pincount hv device_info enable_gvt_oos pvmmio_ppgtt_update
    aperture_gmadr_base aperture_gmadr_end hidden_gmadr_base hidden_gmadr_end gmem hw_ggtt
    spts ooss mms next_spt alloc_calls ggtt_mm shadow_page_hash_table guest_page_hash_table
    oos_page_list_head post_shadow_list_head scratch_pt_mfn ge_cache_enable
    cached_guest_entry oos_page_free_list_head oos_page_use_list_head mm_lru_list_head
    scratch_ggtt_mfn saved_gfn saved_mfn trace set_sp_type set_sp_mfn set_sp_vaddr set_gfn
    set_writeprotection set_write_cnt set_oos_page set_guest_page_type set_refcount
    set_post_shadow_bitmap set_oos_mem set_oos_guest_page set_shadowed
    set_virtual_page_table set_shadow_page_table set_pincount set_gmem set_hw_ggtt set_spts
    set_ooss set_mms set_next_spt set_alloc_calls set_shadow_page_hash_table
    set_guest_page_hash_table set_oos_page_list_head set_post_shadow_list_head
    set_ge_cache_enable set_cached_guest_entry set_oos_page_free_list_head
    set_oos_page_use_list_head set_mm_lru_list_head set_saved_gfn set_saved_mfn set_trace
    val64 type set_val64 set_type fst snd].
Tactic Notation "st_norm" "in" hyp(H) :=
  cbn [sp_type sp_mfn sp_vaddr gfn writeprotection write_cnt oos_page guest_page_type refcount
    post_shadow_bitmap oos_mem oos_guest_page mm_type has_shadow_page_table shadowed
    page_table_entry_type page_table_level page_table_entry_cnt virtual_page_table
    shadow_page_table pincount hv device_info enable_gvt_oos pvmmio_ppgtt_update
    aperture_gmadr_base aperture_gmadr_end hidden_gmadr_base hidden_gmadr_end gmem hw_ggtt
    spts ooss mms next_spt alloc_calls ggtt_mm shadow_page_hash_table guest_page_hash_table
    oos_page_list_head post_shadow_list_head scratch_pt_mfn ge_cache_enable
    cached_guest_entry oos_page_free_list_head oos_page_use_list_head mm_lru_list_head
    scratch_ggtt_mfn saved_gfn saved_mfn trace set_sp_type set_sp_mfn set_sp_vaddr set_gfn
    set_writeprotection set_write_cnt set_oos_page set_guest_page_type set_refcount
    set_post_shadow_bitmap set_oos_mem set_oos_guest_page set_shadowed
    set_virtual_page_table set_shadow_page_table set_pincount set_gmem set_hw_ggtt set_spts
    set_ooss set_mms set_next_spt set_alloc_calls set_shadow_page_hash_table
    set_guest_page_hash_table set_oos_page_list_head set_post_shadow_list_head
    set_ge_cache_enable set_cached_guest_entry set_oos_page_free_list_head
    set_oos_page_use_list_head set_mm_lru_list_head set_saved_gfn set_saved_mfn set_trace
    val64 type set_val64 set_type fst snd] in H.

Lemma bind_run {A B} (m : ST A) (k : A -> ST B) st :
  bind m k st = k (fst (m st)) (snd (m st)).
Proof. unfold bind. destruct (m st); reflexivity. Qed.

Lemma fbind_lift {A B} (m : ST A) (k : A -> FT B) st :
  fbind (lift m) k st = k (fst (m st)) (snd (m st)).
Proof. unfold fbind, lift. destruct (m st); reflexivity. Qed.

Lemma fbind_some {A B} (m : FT A) (k : A -> FT B) st a st' :
  m st = Some (a, st') -> fbind m k st = k a st'.
Proof. unfold fbind. intros ->. reflexivity. Qed.

Lemma fbind_inv {A B} (m : FT A) (k : A -> FT B) st b st'' :
  fbind m k st = Some (b, st'') ->
  exists a st', m st = Some (a, st') /\ k a st' = Some (b, st'').
Proof.
  unfold fbind. destruct (m st) as [[a st']|]; [|discriminate]. eauto.
Qed.

Lemma get_run st : get st = (st, st).
Proof. reflexivity. Qed.
Lemma gets_run {A} (f : vgpu_state -> A) st : gets f st = (f st, st).
Proof. reflexivity. Qed.
Lemma ret_run {A} (a : A) st : ret a st = (a, st).
Proof. reflexivity. Qed.
Lemma fret_run {A} (a : A) st : fret a st = Some (a, st).
Proof. reflexivity. Qed.
Lemma modify_run f st : modify f st = (tt, f st).
Proof. reflexivity. Qed.
Lemma emit_run ev st : emit ev st = (tt, set_trace st (trace st ++ [ev])).
Proof. reflexivity. Qed.
Lemma lift_run {A} (m : ST A) st : lift m st = Some (m st).
Proof. reflexivity. Qed.

(** The state-passing plumbing, up to the next decision. *)
Ltac run :=
  repeat first
    [ rewrite bind_run
    | rewrite fbind_lift
    | rewrite get_run
    | rewrite gets_run
    | rewrite ret_run
    | rewrite fret_run
    | rewrite modify_run
    | rewrite emit_run
    | rewrite lift_run
    | rewrite Z.eqb_refl
    | progress st_norm
    | progress cbn [negb orb andb non_null] ].

Lemma page_read_write_eq (pg : page) i v : page_read (page_write pg i v) i = v.
Proof.
  unfold page_read, page_write, page in *.
  rewrite (lookup_insert_eq (M := gmap Z)). reflexivity.
Qed.

Lemma page_read_write_ne (pg : page) i j v :
  i <> j -> page_read (page_write pg i v) j = page_read pg j.
Proof.
  intros H. unfold page_read, page_write, page in *.
  rewrite (lookup_insert_ne (M := gmap Z)) by exact H. reflexivity.
Qed.

(** Two hypotheses give one expression two values: the values are
    identified, and the goal is closed when they cannot be. *)
Ltac clash :=
  repeat match goal with
  | H1 : ?x = ?a, H2 : ?x = ?b |- _ =>
      first [ constr_eq a b; fail 1
            | rewrite H1 in H2;
              first [ discriminate H2 | injection H2 as H2; subst; cbn [fst snd] in * ] ]
  end.

(** ** Codec and index functions *)

Lemma shiftr_land_ones_bit_field x lo w :
  0 <= lo -> 0 <= w ->
  Z.land (Z.shiftr x lo) (Z.ones w) = bit_field x (lo + w - 1) lo.
Proof.
  intros Hlo Hw. unfold bit_field.
  rewrite Z.land_ones by lia. rewrite Z.shiftr_div_pow2 by lia.
  f_equal. f_equal. lia.
Qed.

Lemma bit_field_testbit x hi lo i :
  0 <= lo -> lo <= hi -> 0 <= i ->
  Z.testbit (bit_field x hi lo) i = (i <=? hi - lo) && Z.testbit x (lo + i).
Proof.
  intros Hlo Hhi Hi. unfold bit_field.
  rewrite <- Z.shiftr_div_pow2 by lia.
  rewrite <- Z.land_ones by lia.
  rewrite Z.land_spec, Z.shiftr_spec by lia.
  rewrite Z.testbit_ones_nonneg by lia.
  rewrite andb_comm. f_equal; [| f_equal; lia].
  destruct (Z.leb_spec i (hi - lo)), (Z.ltb_spec i (hi - lo + 1)); lia.
Qed.

(** C7 (as the code has it).  For every graphics memory address the index
    functions extract these bit fields: PML4 bits 47:39, the
    page-directory-pointer index of a 4-level table bits 38:30, the
    page-directory-pointer index of a 3-level table bits 31:30 only,
    page directory bits 29:21, page table bits 20:12; the flat GGTT index
    is the address shifted right by 12. *)
Theorem gma_index_bit_fields (gma : Z) :
  gen8_gma_to_pml4_index gma = bit_field gma 47 39
  /\ gen8_gma_to_l4_pdp_index gma = bit_field gma 38 30
  /\ gen8_gma_to_l3_pdp_index gma = bit_field gma 31 30
  /\ gen8_gma_to_pde_index gma = bit_field gma 29 21
  /\ gen8_gma_to_pte_index gma = bit_field gma 20 12
  /\ gma_to_ggtt_pte_index gma = Z.shiftr gma 12.
Proof.
  unfold gen8_gma_to_pml4_index, gen8_gma_to_l4_pdp_index, gen8_gma_to_l3_pdp_index,
    gen8_gma_to_pde_index, gen8_gma_to_pte_index, gma_to_ggtt_pte_index.
  change 0x1ff with (Z.ones 9). change 0x3 with (Z.ones 2).
  repeat split; try (apply shiftr_land_ones_bit_field; lia).
Qed.

(** C7 (as stated) fails for the 3-level page-directory-pointer index:
    at the address 2^32 bits 38:30 are 4, the index is 0. *)
Lemma l3_pdp_index_not_bits_38_30 :
  bit_field (2 ^ 32) 38 30 = 4
  /\ gen8_gma_to_l3_pdp_index (2 ^ 32) = 0
  /\ gen8_gma_to_l3_pdp_index (2 ^ 32) <> bit_field (2 ^ 32) 38 30.
Proof. repeat split. vm_compute. discriminate. Qed.

Lemma land_1_testbit v : nonzero (Z.land v (Z.shiftl 1 0)) = Z.testbit v 0.
Proof.
  change (Z.shiftl 1 0) with 1. unfold nonzero.
  destruct (Z.testbit v 0) eqn:Hb.
  - destruct (Z.eqb_spec (Z.land v 1) 0) as [H0|]; [|reflexivity].
    assert (Z.testbit (Z.land v 1) 0 = true) as Ht
      by (rewrite Z.land_spec, Hb; reflexivity).
    rewrite H0 in Ht. discriminate.
  - destruct (Z.eqb_spec (Z.land v 1) 0) as [|Hn]; [reflexivity|].
    exfalso. apply Hn. apply Z.bits_inj'. intros n Hn0.
    rewrite Z.land_spec, Z.bits_0.
    destruct (Z.eq_dec n 0) as [->|]; [rewrite Hb; reflexivity|].
    change 1 with (Z.ones 1). rewrite Z.testbit_ones_nonneg by lia.
    destruct (Z.ltb_spec n 1); [lia|]. apply andb_false_r.
Qed.

(** C8.  [gen8_gtt_test_present] answers true for an L3 or L4 root
    entry exactly when its raw value is non-zero, and for an entry of any
    other type exactly when bit 0 of its raw value is set. *)
Theorem gen8_gtt_test_present_spec (e : intel_gvt_gtt_entry) :
  gen8_gtt_test_present e = true <-> present_as_documented e.
Proof.
  unfold gen8_gtt_test_present, present_as_documented.
  rewrite land_1_testbit.
  destruct (decide (type e = GTT_TYPE_PPGTT_ROOT_L3_ENTRY)) as [H3|H3];
  destruct (decide (type e = GTT_TYPE_PPGTT_ROOT_L4_ENTRY)) as [H4|H4];
    rewrite ?(bool_decide_eq_true_2 _ H3), ?(bool_decide_eq_true_2 _ H4),
            ?(bool_decide_eq_false_2 _ H3), ?(bool_decide_eq_false_2 _ H4); cbn [orb];
    try (rewrite bool_decide_eq_true_2 by tauto; rewrite negb_true_iff, Z.eqb_neq; tauto).
  rewrite bool_decide_eq_false_2 by tauto. tauto.
Qed.


(** ** Footprints *)

Section Respects.
Context (R : vgpu_state -> vgpu_state -> Prop).
Context (R_refl : forall st, R st st).
Context (R_trans : forall st1 st2 st3, R st1 st2 -> R st2 st3 -> R st1 st3).

Lemma respects_ret {A} (a : A) : respects R (ret a).
Proof. intros st. apply R_refl. Qed.

Lemma respects_get : respects R get.
Proof. intros st. apply R_refl. Qed.

Lemma respects_gets {A} (f : vgpu_state -> A) : respects R (gets f).
Proof. intros st. apply R_refl. Qed.

Lemma respects_bind {A B} (m : ST A) (k : A -> ST B) :
  respects R m -> (forall a, respects R (k a)) -> respects R (bind m k).
Proof.
  intros Hm Hk st. rewrite bind_run. eapply R_trans; [apply Hm | apply Hk].
Qed.

Lemma respects_for_each {I A B} (l : list I) (body : I -> A -> ST (B + A)) :
  (forall i a, respects R (body i a)) -> forall a, respects R (for_each l a body).
Proof.
  intros Hb. induction l as [|i l IH]; intros a; cbn [for_each].
  - apply respects_ret.
  - apply respects_bind; [apply Hb|]. intros [r|a']; [apply respects_ret | apply IH].
Qed.

Lemma frespects_fret {A} (a : A) : frespects R (fret a).
Proof. intros st a' st' [= <- <-]. apply R_refl. Qed.

Lemma frespects_out_of_fuel {A} : frespects R (@out_of_fuel A).
Proof. intros st a st' [=]. Qed.

Lemma frespects_lift {A} (m : ST A) : respects R m -> frespects R (lift m).
Proof. intros Hm st a st' [= H]. specialize (Hm st). rewrite H in Hm. exact Hm. Qed.

Lemma frespects_fbind {A B} (m : FT A) (k : A -> FT B) :
  frespects R m -> (forall a, frespects R (k a)) -> frespects R (fbind m k).
Proof.
  intros Hm Hk st b st' H. apply fbind_inv in H as (a & st1 & H1 & H2).
  eapply R_trans; [eapply Hm | eapply Hk]; eassumption.
Qed.

Lemma frespects_ffor_each {I A B} (l : list I) (body : I -> A -> FT (B + A)) :
  (forall i a, frespects R (body i a)) -> forall a, frespects R (ffor_each l a body).
Proof.
  intros Hb. induction l as [|i l IH]; intros a; cbn [ffor_each].
  - apply frespects_fret.
  - apply frespects_fbind; [apply Hb|]. intros [r|a']; [apply frespects_fret | apply IH].
Qed.
End Respects.

Lemma respects_weaken {A} (R1 R2 : vgpu_state -> vgpu_state -> Prop) (m : ST A) :
  (forall st st', R1 st st' -> R2 st st') -> respects R1 m -> respects R2 m.
Proof. intros H Hm st. apply H, Hm. Qed.

Lemma frespects_weaken {A} (R1 R2 : vgpu_state -> vgpu_state -> Prop) (m : FT A) :
  (forall st st', R1 st st' -> R2 st st') -> frespects R1 m -> frespects R2 m.
Proof. intros H Hm st a st' E. eapply H, Hm, E. Qed.

(** *** The relations are preorders *)

Lemma trace_grows_refl c st : trace_grows c st st.
Proof. exists []. rewrite app_nil_r. auto. Qed.

Lemma trace_grows_trans c st1 st2 st3 :
  trace_grows c st1 st2 -> trace_grows c st2 st3 -> trace_grows c st1 st3.
Proof.
  intros (e1 & E1 & F1) (e2 & E2 & F2). exists (e1 ++ e2).
  rewrite E2, E1, app_assoc. split; [reflexivity | apply Forall_app; auto].
Qed.

Lemma trace_grows_weaken (c1 c2 : event -> bool) st st' :
  (forall ev, c1 ev = true -> c2 ev = true) -> trace_grows c1 st st' -> trace_grows c2 st st'.
Proof.
  intros H (evs & E & Fa). exists evs. split; [exact E|].
  eapply Forall_impl; [exact Fa | auto].
Qed.

Lemma same_config_refl st : same_config st st.
Proof. unfold same_config. auto 10. Qed.

Lemma same_config_trans st1 st2 st3 :
  same_config st1 st2 -> same_config st2 st3 -> same_config st1 st3.
Proof. unfold same_config. intuition congruence. Qed.

Lemma keeps_types_refl st : keeps_types st st.
Proof. split; [lia|]. intros p s' _ H. exists s'. auto. Qed.

Lemma keeps_types_trans st1 st2 st3 :
  keeps_types st1 st2 -> keeps_types st2 st3 -> keeps_types st1 st3.
Proof.
  intros [N1 T1] [N2 T2]. split; [lia|]. intros p s3 Hp H3.
  destruct (T2 p s3 ltac:(lia) H3) as (s2 & H2 & Ht2).
  destruct (T1 p s2 Hp H2) as (s1 & H1 & Ht1).
  exists s1. split; [exact H1|].
  destruct Ht1 as [Ht1|Ht1]; [|auto].
  destruct Ht2 as [Ht2|Ht2]; [left; congruence | right; congruence].
Qed.

Lemma footprint_refl c st : footprint c st st.
Proof. repeat split; auto using same_config_refl, trace_grows_refl, keeps_types_refl;
  apply same_config_refl || apply keeps_types_refl. Qed.

Lemma footprint_trans c st1 st2 st3 :
  footprint c st1 st2 -> footprint c st2 st3 -> footprint c st1 st3.
Proof.
  intros (C1 & G1 & K1) (C2 & G2 & K2).
  split; [|split]; eauto using same_config_trans, trace_grows_trans, keeps_types_trans.
Qed.

Lemma footprint_weaken (c1 c2 : event -> bool) st st' :
  (forall ev, c1 ev = true -> c2 ev = true) -> footprint c1 st st' -> footprint c2 st st'.
Proof. intros H (C & G & K). split; [|split]; eauto using trace_grows_weaken. Qed.

Lemma untouched_pool_refl st : untouched_pool st st.
Proof. unfold untouched_pool. auto. Qed.

Lemma untouched_pool_trans st1 st2 st3 :
  untouched_pool st1 st2 -> untouched_pool st2 st3 -> untouched_pool st1 st3.
Proof. unfold untouched_pool. intuition congruence. Qed.

(** *** Primitive steps *)

Lemma subclass_refl c : subclass c c.
Proof. intros ev H. exact H. Qed.

Lemma subclass_trans c1 c2 c3 : subclass c1 c2 -> subclass c2 c3 -> subclass c1 c3.
Proof. intros H1 H2 ev H. auto. Qed.

(** Inclusion of two given classes, by cases on the event. *)
Ltac concrete_subclass :=
  let ev := fresh "ev" in
  let H := fresh "H" in
  intros ev H;
  destruct ev as [| | | | | | | |[]| | | | | | |[]];
  cbn in H |- *; first [ reflexivity | discriminate H | exact H ].

Ltac solve_subclass :=
  first [ assumption
        | apply subclass_refl
        | match goal with
          | H : subclass ?c2 _ |- _ =>
              apply (subclass_trans _ c2); [concrete_subclass | exact H]
          end
        | concrete_subclass ].

Create HintDb fp discriminated.

Lemma quiet_footprint c st st' : quiet st st' -> footprint c st st'.
Proof.
  intros (C & T & P & N). split; [exact C|]. split.
  - exists []. rewrite app_nil_r. auto.
  - split; [lia|]. intros p s' _ H. rewrite P in H. exists s'. auto.
Qed.

Ltac solve_config := unfold same_config; st_norm; repeat split; reflexivity.
Ltac solve_same_trace := exists []; st_norm; rewrite app_nil_r; split; [reflexivity | constructor].

Ltac solve_quiet :=
  intros; unfold quiet, same_config; st_norm; repeat split; reflexivity.

Lemma fp_modify_quiet c f : (forall st, quiet st (f st)) -> respects (footprint c) (modify f).
Proof. intros H st. apply quiet_footprint, H. Qed.

Lemma fp_emit (c : event -> bool) ev : c ev = true -> respects (footprint c) (emit ev).
Proof.
  intros H st. rewrite emit_run. st_norm. split; [solve_config|]. split.
  - exists [ev]. st_norm. auto.
  - split; [st_norm; lia|]. st_norm. intros p s' _ Hp. exists s'. auto.
Qed.

Lemma fp_upd_spt c p f :
  (forall s, guest_page_type (f s) = guest_page_type s) ->
  respects (footprint c) (upd_spt p f).
Proof.
  intros Hf st. unfold upd_spt. rewrite modify_run. st_norm.
  split; [solve_config|]. split; [solve_same_trace|].
  split; [st_norm; lia|]. st_norm. intros q s' _ H.
  destruct (decide (q = p)) as [->|Hne].
  - rewrite lookup_alter_eq in H. destruct (spts st !! p) as [s|]; [|discriminate].
    injection H as <-. exists s. rewrite Hf. auto.
  - rewrite lookup_alter_ne in H by congruence. exists s'. auto.
Qed.

Lemma fp_upd_oos c p f : respects (footprint c) (upd_oos p f).
Proof. apply fp_modify_quiet. solve_quiet. Qed.

Lemma fp_upd_mm c p f : respects (footprint c) (upd_mm p f).
Proof. apply fp_modify_quiet. solve_quiet. Qed.

Lemma fp_free_spt c p : respects (footprint c) (free_spt p).
Proof.
  intros st. unfold free_spt. rewrite modify_run. st_norm.
  split; [solve_config|]. split; [solve_same_trace|].
  split; [st_norm; lia|]. st_norm. intros q s' _ H.
  destruct (decide (q = p)) as [->|Hne].
  - rewrite lookup_delete_eq in H. discriminate.
  - rewrite lookup_delete_ne in H by congruence. exists s'. auto.
Qed.

Lemma fp_alloc_spt c : respects (footprint c) alloc_spt.
Proof.
  intros st. unfold alloc_spt. run.
  destruct (alloc_spt_ok (hv st) (alloc_calls st)); run.
  - split; [solve_config|]. split; [solve_same_trace|].
    split; [st_norm; lia|]. st_norm. intros q s' Hq H.
    rewrite lookup_insert_ne in H by lia. exists s'. auto.
  - apply quiet_footprint. solve_quiet.
Qed.


Ltac solve_event :=
  intros;
  first [ reflexivity
        | match goal with H : subclass _ ?c |- ?c _ = true => apply H; reflexivity end
        | match goal with H : forall _, _ |- _ => apply H end ].

#[global] Hint Extern 1 (subclass _ _) => solve_subclass : fp.
#[global] Hint Extern 1 (_ = true) => solve_event : fp.
#[global] Hint Extern 1 (quiet _ _) => solve_quiet : fp.
#[global] Hint Extern 1 (guest_page_type _ = guest_page_type _) => reflexivity : fp.
#[global] Hint Resolve footprint_refl footprint_trans : fp.
#[global] Hint Resolve fp_emit fp_modify_quiet fp_upd_spt fp_upd_oos fp_upd_mm
  fp_free_spt fp_alloc_spt : fp.

(** The footprint of a composite, from the footprints of its parts.  The
    relation at hand, its being a preorder and the footprints of the
    parts are found in the hint database [fp]. *)
Ltac fp_known := solve [ eauto 4 with fp ].

Ltac fp_step :=
  lazymatch goal with
  | |- respects _ (bind _ _) => apply respects_bind; [fp_known | | intros ?]
  | |- respects _ (ret _) => apply respects_ret; fp_known
  | |- respects _ get => apply respects_get; fp_known
  | |- respects _ (gets _) => apply respects_gets; fp_known
  | |- respects _ (for_each _ _ _) =>
      apply respects_for_each; [fp_known | fp_known | intros ? ?]
  | |- respects _ (if ?b then _ else _) => destruct b
  | |- respects _ (match ?x with _ => _ end) => destruct x
  | |- frespects _ (fbind _ _) => apply frespects_fbind; [fp_known | | intros ?]
  | |- frespects _ (fret _) => apply frespects_fret; fp_known
  | |- frespects _ out_of_fuel => apply frespects_out_of_fuel
  | |- frespects _ (lift _) => apply frespects_lift
  | |- frespects _ (ffor_each _ _ _) =>
      apply frespects_ffor_each; [fp_known | fp_known | intros ? ?]
  | |- frespects _ (if ?b then _ else _) => destruct b
  | |- frespects _ (match ?x with _ => _ end) => destruct x
  end.

Ltac fp_auto := repeat first [ fp_known | fp_step ].

(** *** Footprints of the functions *)

Lemma read_gpa_fp c gpa len :
  (forall gpa len, c (EvReadGpa gpa len) = true) ->
  respects (footprint c) (intel_gvt_hypervisor_read_gpa gpa len).
Proof. intros. unfold intel_gvt_hypervisor_read_gpa. fp_auto. Qed.
#[global] Hint Resolve read_gpa_fp : fp.

Lemma write_gpa_fp c gpa data len :
  (forall gpa data len, c (EvWriteGpa gpa data len) = true) ->
  respects (footprint c) (intel_gvt_hypervisor_write_gpa gpa data len).
Proof. intros. unfold intel_gvt_hypervisor_write_gpa. fp_auto. Qed.
#[global] Hint Resolve write_gpa_fp : fp.

Lemma gfn_to_mfn_fp c g :
  (forall g, c (EvGfnToMfn g) = true) ->
  respects (footprint c) (intel_gvt_hypervisor_gfn_to_mfn g).
Proof. intros. unfold intel_gvt_hypervisor_gfn_to_mfn. fp_auto. Qed.
#[global] Hint Resolve gfn_to_mfn_fp : fp.

Lemma set_wp_page_fp c p :
  (forall g, c (EvSetWp g) = true) ->
  respects (footprint c) (intel_gvt_hypervisor_set_wp_page p).
Proof. intros. unfold intel_gvt_hypervisor_set_wp_page. fp_auto. Qed.
#[global] Hint Resolve set_wp_page_fp : fp.

Lemma unset_wp_page_fp c p :
  (forall g, c (EvUnsetWp g) = true) ->
  respects (footprint c) (intel_gvt_hypervisor_unset_wp_page p).
Proof. intros. unfold intel_gvt_hypervisor_unset_wp_page. fp_auto. Qed.
#[global] Hint Resolve unset_wp_page_fp : fp.

Lemma gtt_entry_p2m_fp c p :
  (forall g, c (EvGfnToMfn g) = true) ->
  respects (footprint c) (gtt_entry_p2m p).
Proof. intros. unfold gtt_entry_p2m. fp_auto. Qed.
#[global] Hint Resolve gtt_entry_p2m_fp : fp.

Lemma pt_store_fp c pt index v :
  (forall pt index v, c (EvSetEntry pt index v) = true) ->
  respects (footprint c) (pt_store pt index v).
Proof. intros. unfold pt_store. fp_auto. Qed.
#[global] Hint Resolve pt_store_fp : fp.

(** A table in memory is read without a trace. *)
Lemma gtt_get_entry64__BKL_pt_fp c pt e index gpa :
  respects (footprint c) (gtt_get_entry64__BKL (Some pt) e index false gpa).
Proof. unfold gtt_get_entry64__BKL, gtt_get_entry64. fp_auto. Qed.
#[global] Hint Resolve gtt_get_entry64__BKL_pt_fp : fp.

Lemma gtt_get_entry64__BKL_guest_fp c e index gpa :
  (forall gpa len, c (EvReadGpa gpa len) = true) ->
  respects (footprint c) (gtt_get_entry64__BKL None e index true gpa).
Proof. intros. unfold gtt_get_entry64__BKL, gtt_get_entry64. fp_auto. Qed.
#[global] Hint Resolve gtt_get_entry64__BKL_guest_fp : fp.

Lemma gtt_set_entry64__BKL_pt_fp c pt e index gpa :
  (forall pt index v, c (EvSetEntry pt index v) = true) ->
  respects (footprint c) (gtt_set_entry64__BKL (Some pt) e index false gpa).
Proof. intros. unfold gtt_set_entry64__BKL, gtt_set_entry64. fp_auto. Qed.
#[global] Hint Resolve gtt_set_entry64__BKL_pt_fp : fp.

Lemma ppgtt_get_shadow_entry_fp c spt e index :
  respects (footprint c) (ppgtt_get_shadow_entry spt e index).
Proof. unfold ppgtt_get_shadow_entry, ppgtt_spt_get_entry. fp_auto. Qed.
#[global] Hint Resolve ppgtt_get_shadow_entry_fp : fp.

Lemma ppgtt_set_shadow_entry_fp c spt e index :
  (forall pt index v, c (EvSetEntry pt index v) = true) ->
  respects (footprint c) (ppgtt_set_shadow_entry spt e index).
Proof. intros. unfold ppgtt_set_shadow_entry, ppgtt_spt_set_entry. fp_auto. Qed.
#[global] Hint Resolve ppgtt_set_shadow_entry_fp : fp.

Lemma ppgtt_get_guest_entry_fp c spt e index :
  (forall gpa len, c (EvReadGpa gpa len) = true) ->
  respects (footprint c) (ppgtt_get_guest_entry spt e index).
Proof. intros. unfold ppgtt_get_guest_entry, ppgtt_spt_get_entry. fp_auto. Qed.
#[global] Hint Resolve ppgtt_get_guest_entry_fp : fp.

Lemma detach_oos_page_fp c oos :
  (forall oos spt, c (EvOosChange OosDetach oos spt) = true) ->
  respects (footprint c) (detach_oos_page oos).
Proof. intros. unfold detach_oos_page. fp_auto. Qed.
#[global] Hint Resolve detach_oos_page_fp : fp.

Lemma intel_vgpu_clean_guest_page_fp c p :
  subclass is_teardown_event c ->
  respects (footprint c) (intel_vgpu_clean_guest_page p).
Proof. intros. unfold intel_vgpu_clean_guest_page. fp_auto. Qed.
#[global] Hint Resolve intel_vgpu_clean_guest_page_fp : fp.

Lemma ppgtt_free_shadow_page_fp c spt :
  subclass is_teardown_event c ->
  respects (footprint c) (ppgtt_free_shadow_page spt).
Proof. intros. unfold ppgtt_free_shadow_page, clean_shadow_page. fp_auto. Qed.
#[global] Hint Resolve ppgtt_free_shadow_page_fp : fp.

Lemma ppgtt_get_shadow_page_fp c spt : respects (footprint c) (ppgtt_get_shadow_page spt).
Proof. unfold ppgtt_get_shadow_page. fp_auto. Qed.
#[global] Hint Resolve ppgtt_get_shadow_page_fp : fp.

Lemma ppgtt_invalidate_shadow_page_by_shadow_entry_fp c inv e :
  (forall s, frespects (footprint c) (inv s)) ->
  frespects (footprint c) (ppgtt_invalidate_shadow_page_by_shadow_entry inv e).
Proof. intros. unfold ppgtt_invalidate_shadow_page_by_shadow_entry. fp_auto. Qed.

Lemma ppgtt_invalidate_shadow_page_fp c fuel :
  subclass is_teardown_event c ->
  forall spt, frespects (footprint c) (ppgtt_invalidate_shadow_page fuel spt).
Proof.
  intros Hc. induction fuel as [|fuel IH]; intros spt; cbn [ppgtt_invalidate_shadow_page].
  - apply frespects_out_of_fuel.
  - pose proof (fun e => ppgtt_invalidate_shadow_page_by_shadow_entry_fp c
                            (ppgtt_invalidate_shadow_page fuel) e IH) as Hby.
    fp_auto.
Qed.
#[global] Hint Resolve ppgtt_invalidate_shadow_page_fp : fp.

Lemma intel_vgpu_mm_get_entry_fp c mm pt e index :
  subclass is_invalidate_event c ->
  respects (footprint c) (intel_vgpu_mm_get_entry mm pt e index).
Proof.
  intros. unfold intel_vgpu_mm_get_entry, gtt_get_entry64__BKL, gtt_get_entry64, read_pte64.
  fp_auto.
Qed.
#[global] Hint Resolve intel_vgpu_mm_get_entry_fp : fp.

Lemma intel_vgpu_mm_set_entry_fp c mm pt e index :
  subclass is_invalidate_event c ->
  respects (footprint c) (intel_vgpu_mm_set_entry mm pt e index).
Proof.
  intros. unfold intel_vgpu_mm_set_entry, gtt_set_entry64__BKL, gtt_set_entry64, write_pte64.
  fp_auto.
Qed.
#[global] Hint Resolve intel_vgpu_mm_set_entry_fp : fp.

Lemma ppgtt_get_shadow_root_entry_fp c mm e index :
  subclass is_invalidate_event c ->
  respects (footprint c) (ppgtt_get_shadow_root_entry mm e index).
Proof. intros. unfold ppgtt_get_shadow_root_entry. fp_auto. Qed.
#[global] Hint Resolve ppgtt_get_shadow_root_entry_fp : fp.

Lemma ppgtt_set_shadow_root_entry_fp c mm e index :
  subclass is_invalidate_event c ->
  respects (footprint c) (ppgtt_set_shadow_root_entry mm e index).
Proof. intros. unfold ppgtt_set_shadow_root_entry. fp_auto. Qed.
#[global] Hint Resolve ppgtt_set_shadow_root_entry_fp : fp.

Lemma invalidate_mm_pv_fp c mm :
  subclass is_invalidate_event c ->
  respects (footprint c) (invalidate_mm_pv mm).
Proof. intros. unfold invalidate_mm_pv. fp_auto. Qed.
#[global] Hint Resolve invalidate_mm_pv_fp : fp.

Lemma invalidate_mm_fp c fuel mm :
  subclass is_invalidate_event c ->
  frespects (footprint c) (invalidate_mm fuel mm).
Proof.
  intros Hc. unfold invalidate_mm.
  assert (subclass is_teardown_event c) as Ht by solve_subclass.
  pose proof (fun e => ppgtt_invalidate_shadow_page_by_shadow_entry_fp c
                          (ppgtt_invalidate_shadow_page fuel) e
                          (ppgtt_invalidate_shadow_page_fp c fuel Ht)) as Hby.
  fp_auto.
Qed.
#[global] Hint Resolve invalidate_mm_fp : fp.

Lemma reclaim_one_mm_fp c fuel :
  subclass is_shadowing_event c ->
  frespects (footprint c) (reclaim_one_mm fuel).
Proof.
  intros Hc. unfold reclaim_one_mm.
  assert (subclass is_invalidate_event c) as Ht by solve_subclass.
  fp_auto.
Qed.
#[global] Hint Resolve reclaim_one_mm_fp : fp.

Lemma init_shadow_page_fp c p ty : respects (footprint c) (init_shadow_page p ty).
Proof. unfold init_shadow_page. fp_auto. Qed.
#[global] Hint Resolve init_shadow_page_fp : fp.

Lemma intel_vgpu_init_guest_page_fp c p g : respects (footprint c) (intel_vgpu_init_guest_page p g).
Proof. unfold intel_vgpu_init_guest_page. fp_auto. Qed.
#[global] Hint Resolve intel_vgpu_init_guest_page_fp : fp.

(** A fresh object may be given its type: seen from before the
    allocation, no existing page changed. *)
Lemma alloc_then_init_fp c st spt st1 f :
  alloc_spt st = (Some spt, st1) -> footprint c st (snd (upd_spt spt f st1)).
Proof.
  unfold alloc_spt. run. destruct (alloc_spt_ok (hv st) (alloc_calls st)); run; [|discriminate].
  intros [= <- <-]. unfold upd_spt. rewrite modify_run. st_norm.
  split; [solve_config|]. split; [solve_same_trace|].
  split; [st_norm; lia|]. st_norm. intros q s' Hq H.
  rewrite lookup_alter_ne, lookup_insert_ne in H by lia. exists s'. auto.
Qed.

Lemma alloc_tail_fp c spt ty g :
  subclass is_shadowing_event c ->
  frespects (footprint c)
    (let? r := lift (init_shadow_page spt ty) in
     if negb (r =? 0) then
       do? lift (ppgtt_free_shadow_page spt) in fret (inl r : ptr_or_err)
     else
       let? r := lift (intel_vgpu_init_guest_page spt g) in
       if negb (r =? 0) then
         do? lift (ppgtt_free_shadow_page spt) in fret (inl r)
       else
         do? lift (emit (EvSptAlloc spt)) in
         fret (inr spt)).
Proof.
  intros Hc. assert (subclass is_teardown_event c) by solve_subclass. fp_auto.
Qed.

Lemma ppgtt_alloc_shadow_page_fp c fuel ty g :
  subclass is_shadowing_event c ->
  frespects (footprint c) (ppgtt_alloc_shadow_page fuel ty g).
Proof.
  intros Hc. induction fuel as [|fuel IH]; cbn [ppgtt_alloc_shadow_page].
  - apply frespects_out_of_fuel.
  - intros st r st' H. rewrite fbind_lift in H.
    destruct (alloc_spt st) as [[spt|] st1] eqn:Ea; cbn [fst snd] in H.
    + rewrite fbind_lift in H.
      eapply footprint_trans; [eapply alloc_then_init_fp; exact Ea|].
      eapply (alloc_tail_fp c spt ty g Hc). exact H.
    + pose proof (fp_alloc_spt c st) as H1. rewrite Ea in H1. cbn [snd] in H1.
      eapply footprint_trans; [exact H1|].
      apply fbind_inv in H as (r1 & st2 & Hr & H).
      eapply footprint_trans; [eapply reclaim_one_mm_fp; eassumption|].
      destruct (negb (r1 =? 0)).
      * eapply IH; exact H.
      * injection H as <- <-. apply footprint_refl.
Qed.
#[global] Hint Resolve ppgtt_alloc_shadow_page_fp : fp.

Lemma ppgtt_populate_shadow_page_by_guest_entry_fp c pop fuel we :
  subclass is_shadowing_event c ->
  (forall s, frespects (footprint c) (pop s)) ->
  frespects (footprint c) (ppgtt_populate_shadow_page_by_guest_entry pop fuel we).
Proof. intros. unfold ppgtt_populate_shadow_page_by_guest_entry. fp_auto. Qed.

Lemma ppgtt_populate_shadow_page_fp c fuel :
  subclass is_shadowing_event c ->
  forall spt, frespects (footprint c) (ppgtt_populate_shadow_page fuel spt).
Proof.
  intros Hc. induction fuel as [|fuel IH]; intros spt; cbn [ppgtt_populate_shadow_page].
  - apply frespects_out_of_fuel.
  - pose proof (fun we => ppgtt_populate_shadow_page_by_guest_entry_fp c
                             (ppgtt_populate_shadow_page fuel) fuel we Hc IH) as Hby.
    fp_auto.
Qed.
#[global] Hint Resolve ppgtt_populate_shadow_page_fp : fp.

Lemma ppgtt_handle_guest_entry_removal_fp c fuel gpt se index :
  subclass is_removal_event c ->
  frespects (footprint c) (ppgtt_handle_guest_entry_removal fuel gpt se index).
Proof.
  intros Hc. assert (subclass is_teardown_event c) by solve_subclass.
  unfold ppgtt_handle_guest_entry_removal. fp_auto.
Qed.
#[global] Hint Resolve ppgtt_handle_guest_entry_removal_fp : fp.

Lemma ppgtt_handle_guest_entry_add_fp c fuel gpt we index :
  subclass is_add_event c ->
  frespects (footprint c) (ppgtt_handle_guest_entry_add fuel gpt we index).
Proof.
  intros Hc. assert (subclass is_shadowing_event c) as Hs by solve_subclass.
  pose proof (ppgtt_populate_shadow_page_by_guest_entry_fp c
                (ppgtt_populate_shadow_page fuel) fuel we Hs
                (ppgtt_populate_shadow_page_fp c fuel Hs)) as Hby.
  unfold ppgtt_handle_guest_entry_add. fp_auto.
Qed.
#[global] Hint Resolve ppgtt_handle_guest_entry_add_fp : fp.

Lemma ppgtt_handle_guest_write_page_table_fp c fuel gpt we index :
  subclass is_guest_write_event c ->
  frespects (footprint c) (ppgtt_handle_guest_write_page_table fuel gpt we index).
Proof.
  intros Hc. assert (subclass is_add_event c) by solve_subclass.
  assert (subclass is_removal_event c) by solve_subclass.
  unfold ppgtt_handle_guest_write_page_table. fp_auto.
Qed.
#[global] Hint Resolve ppgtt_handle_guest_write_page_table_fp : fp.

(** ** Frame translation *)

Lemma gtt_entry_p2m_absent st p :
  gen8_gtt_test_present p = false -> gtt_entry_p2m p st = ((0, p), st).
Proof. intros H. unfold gtt_entry_p2m. rewrite H. reflexivity. Qed.

Lemma gtt_entry_p2m_fails st p :
  gen8_gtt_test_present p = true ->
  gen8_gtt_get_pfn p <> saved_gfn st ->
  gfn_to_mfn (hv st) (gen8_gtt_get_pfn p) = INTEL_GVT_INVALID_ADDR ->
  gtt_entry_p2m p st
  = ((- ENXIO, p), set_trace st (trace st ++ [EvGfnToMfn (gen8_gtt_get_pfn p)])).
Proof.
  intros Hp Hs Hf. unfold gtt_entry_p2m. rewrite Hp. cbn [negb].
  unfold bind, gets, ret. cbn.
  apply Z.eqb_neq in Hs. rewrite Hs. cbn.
  rewrite Hf. reflexivity.
Qed.

Lemma gtt_get_entry64__BKL_pt st p e index gpa :
  gtt_entry_size (device_info st) = 8 ->
  gtt_get_entry64__BKL (Some p) e index false gpa st
  = ((0, set_val64 e (pt_load st p index)), st).
Proof.
  intros H8. unfold gtt_get_entry64__BKL, gtt_get_entry64. run.
  rewrite orb_true_r. run. rewrite H8, Z.eqb_refl. run. reflexivity.
Qed.

Lemma gtt_set_entry64__BKL_hw st e index gpa :
  gtt_entry_size (device_info st) = 8 ->
  gtt_set_entry64__BKL None e index false gpa st
  = (0, set_hw_ggtt (set_trace st (trace st ++ [EvWritePte64 index (val64 e)]))
          (page_write (hw_ggtt st) index (val64 e))).
Proof.
  intros H8. unfold gtt_set_entry64__BKL, gtt_set_entry64, write_pte64. run.
  destruct (stop_machine_ggtt (hv st)); run; rewrite H8, Z.eqb_refl; run; reflexivity.
Qed.

Lemma gtt_set_entry64__BKL_pt st p e index gpa :
  gtt_entry_size (device_info st) = 8 ->
  gtt_set_entry64__BKL (Some p) e index false gpa st
  = (0, snd (pt_store p index (val64 e) st)).
Proof.
  intros H8. unfold gtt_set_entry64__BKL, gtt_set_entry64. run.
  rewrite orb_true_r. run. rewrite H8, Z.eqb_refl. run. reflexivity.
Qed.

Lemma pt_store_hw_ggtt st p index v : hw_ggtt (snd (pt_store p index v st)) = hw_ggtt st.
Proof. unfold pt_store. destruct p; unfold upd_spt, upd_oos, upd_mm; run; reflexivity. Qed.

Lemma ggtt_get_guest_entry_state st mm e index :
  virtual_page_table (mm_of st mm) <> None ->
  snd (ggtt_get_guest_entry mm e index st) = st.
Proof.
  intros Hv. unfold ggtt_get_guest_entry, intel_vgpu_mm_get_entry, gtt_get_entry64__BKL,
    gtt_get_entry64, mm_virtual_pt. run.
  destruct (virtual_page_table (mm_of st mm)); [|congruence].
  rewrite orb_true_r. run.
  destruct (gtt_entry_size (device_info st) =? 8); reflexivity.
Qed.




(** ** GTT MMIO accesses *)

(** C9.  A GTT MMIO write of a valid size whose target address lies
    outside the aperture and hidden ranges of the vGPU returns 0 and
    leaves the whole state, trace included, as it was. *)
Theorem emulate_gtt_mmio_write_out_of_range (st : vgpu_state) (off p_data bytes : Z) :
  bytes = 4 \/ bytes = 8 ->
  vgpu_gmadr_is_valid st (gtt_mmio_write_gma st off) = false ->
  emulate_gtt_mmio_write off p_data bytes st = (0, st).
Proof.
  intros Hb Hv. unfold emulate_gtt_mmio_write. run.
  assert (negb (bytes =? 4) && negb (bytes =? 8) = false) as ->
    by (destruct Hb; subst; reflexivity).
  unfold gtt_mmio_write_gma in Hv. rewrite Hv. reflexivity.
Qed.

Lemma emulate_gtt_mmio_write_out_of_range_witness :
  emulate_gtt_mmio_write 0x100000 0x55001 8 boot_state = (0, boot_state).
Proof.
  apply emulate_gtt_mmio_write_out_of_range.
  - right. reflexivity.
  - vm_compute. reflexivity.
Defined.

(** C10.  A GTT MMIO read, a GTT MMIO write and a trapped write to a
    tracked page whose size is neither 4 nor 8 return -EINVAL at once:
    the state, trace included, is unchanged, and a read leaves the
    caller's buffer alone. *)
Theorem bad_access_size_rejected (st : vgpu_state) (fuel gp : nat) (off pa p_data bytes : Z) :
  bytes <> 4 -> bytes <> 8 ->
  intel_vgpu_emulate_gtt_mmio_read off p_data bytes st = ((- EINVAL, p_data), st)
  /\ intel_vgpu_emulate_gtt_mmio_write off p_data bytes st = (- EINVAL, st)
  /\ ppgtt_write_protection_handler fuel gp pa p_data bytes st = Some (- EINVAL, st).
Proof.
  intros H4 H8.
  unfold intel_vgpu_emulate_gtt_mmio_read, intel_vgpu_emulate_gtt_mmio_write,
    ppgtt_write_protection_handler. run.
  apply Z.eqb_neq in H4, H8. rewrite H4, H8. run. auto.
Qed.

Lemma bad_access_size_rejected_witness :
  intel_vgpu_emulate_gtt_mmio_read 0x800000 0 2 boot_state = ((- EINVAL, 0), boot_state)
  /\ intel_vgpu_emulate_gtt_mmio_write 0x800000 0 2 boot_state = (- EINVAL, boot_state)
  /\ ppgtt_write_protection_handler 0 1 0x50000 0 2 boot_state = Some (- EINVAL, boot_state).
Proof. apply bad_access_size_rejected; discriminate. Defined.

(** ** GMA translation *)

(** C1 (as stated) fails: in [walk_state] the shadow entry of the last
    level is absent, so a walk over shadow entries alone is invalid, yet
    the code answers with the frame of the guest entry. *)
Lemma gma_to_gpa_reads_guest_entry_last :
  fst (gma_to_gpa_as_documented 2 0x123 walk_state) = INTEL_GVT_INVALID_ADDR
  /\ fst (intel_vgpu_gma_to_gpa 2 0x123 walk_state) = 0x77123
  /\ ~ (forall st mm gma,
          fst (intel_vgpu_gma_to_gpa mm gma st) = fst (gma_to_gpa_as_documented mm gma st)).
Proof.
  assert (fst (gma_to_gpa_as_documented 2 0x123 walk_state) = INTEL_GVT_INVALID_ADDR) as Hd
    by (vm_compute; reflexivity).
  assert (fst (intel_vgpu_gma_to_gpa 2 0x123 walk_state) = 0x77123) as Hc
    by (vm_compute; reflexivity).
  repeat split; try assumption.
  intros H. specialize (H walk_state 2%nat 0x123). rewrite Hd, Hc in H.
  vm_compute in H. discriminate.
Qed.

Lemma ppgtt_get_next_level_entry_cases mm e index guest st :
  (exists r, r <> 0
     /\ ppgtt_get_next_level_entry mm e index guest st = ((r, e), st)
     /\ (has_shadow_page_table (mm_of st mm) = false
         \/ ppgtt_find_shadow_page st (gen8_gtt_get_pfn e) = None))
  \/ (exists s r e' st',
        has_shadow_page_table (mm_of st mm) = true
        /\ ppgtt_find_shadow_page st (gen8_gtt_get_pfn e) = Some s
        /\ (if guest then ppgtt_get_guest_entry s e index
            else ppgtt_get_shadow_entry s e index) st = ((r, e'), st')
        /\ ppgtt_get_next_level_entry mm e index guest st = ((0, e'), st')).
Proof.
  unfold ppgtt_get_next_level_entry. run.
  destruct (has_shadow_page_table (mm_of st mm)) eqn:Hs; run.
  2: { left. exists (- EINVAL). repeat split; auto; discriminate. }
  destruct (ppgtt_find_shadow_page st (gen8_gtt_get_pfn e)) as [s|] eqn:Hf; run.
  2: { left. exists (- ENXIO). repeat split; auto; discriminate. }
  right.
  destruct guest; run.
  - destruct (ppgtt_get_guest_entry s e index st) as [[r e'] st'] eqn:Hg.
    exists s, r, e', st'. auto.
  - destruct (ppgtt_get_shadow_entry s e index st) as [[r e'] st'] eqn:Hg.
    exists s, r, e', st'. auto.
Qed.

Lemma for_each_cons {I A R} (i : I) l (a : A) (body : I -> A -> ST (R + A)) st :
  for_each (i :: l) a body st
  = match fst (body i a st) with
    | inl x => (inl x, snd (body i a st))
    | inr a' => for_each l a' body (snd (body i a st))
    end.
Proof. cbn [for_each]. run. destruct (body i a st) as [[x|a'] st']; reflexivity. Qed.

Lemma walk_levels_shadow_walk mm indices :
  indices <> [] ->
  forall e st e',
    fst (walk_levels mm e (gma_path indices) st) = inr e'
    <-> exists st', shadow_walk mm st e indices st' e'.
Proof.
  induction indices as [|index rest IH]; [congruence|]. intros _ e st e'.
  unfold walk_levels in *. cbn [gma_path]. rewrite for_each_cons. run.
  destruct (ppgtt_get_next_level_entry_cases mm e index
              match rest with [] => true | _ :: _ => false end st)
    as [(r & Hr & Hn & Hwhy) | (s & r & e1 & st1 & Hs & Hf & Hg & Hn)]; rewrite Hn; run.
  - apply Z.eqb_neq in Hr. rewrite Hr. run. split; [discriminate|].
    intros [st' Hw]. inversion Hw; subst; destruct Hwhy; clash.
  - destruct (gen8_gtt_test_present e1) eqn:Hp; run.
    + destruct rest as [|index' rest'].
      * cbn [gma_path for_each]. run. split.
        -- intros [= <-]. exists st1. eapply shadow_walk_last; eauto.
        -- intros [st' Hw]. inversion Hw; subst. clash. reflexivity.
      * specialize (IH ltac:(discriminate) e1 st1 e'). rewrite IH. split.
        -- intros [st' Hw]. exists st'. eapply shadow_walk_next; eauto.
        -- intros [st' Hw]. inversion Hw; subst.
           clash. eauto.
    + split; [discriminate|]. intros [st' Hw].
      inversion Hw; subst;
        clash.
Qed.

Lemma gma_levels_nonempty level gma root_index indices :
  gma_levels level gma = Some (root_index, indices) -> indices <> [].
Proof.
  unfold gma_levels.
  destruct (level =? 4); [intros [= <- <-]; discriminate|].
  destruct (level =? 3); [intros [= <- <-]; discriminate|].
  destruct (level =? 2); [intros [= <- <-]; discriminate|discriminate].
Qed.

Lemma testbit_above m k n : 0 <= m < 2 ^ k -> k <= n -> Z.testbit m n = false.
Proof.
  intros Hm Hn. destruct (Z.eq_dec m 0) as [->|Hz]; [apply Z.bits_0|].
  apply Z.bits_above_log2; [lia|].
  assert (0 <= k) by (destruct (Z.leb_spec 0 k); [lia | rewrite Z.pow_neg_r in Hm; lia]).
  assert (Z.log2 m < k) by (apply Z.log2_lt_pow2; lia). lia.
Qed.

Lemma shiftr_land_mask_range v m :
  0 <= m < 2 ^ 46 -> 0 <= Z.shiftr (Z.land v m) 12 < 2 ^ 34.
Proof.
  intros Hm. set (x := Z.shiftr (Z.land v m) 12).
  assert (x = x mod 2 ^ 34) as ->.
  { rewrite <- Z.land_ones by lia. apply Z.bits_inj'. intros n Hn. unfold x.
    rewrite !Z.land_spec, !Z.shiftr_spec, Z.land_spec, Z.testbit_ones_nonneg by lia.
    destruct (Z.ltb_spec n 34); [rewrite andb_true_r; reflexivity|].
    rewrite (testbit_above m 46 (n + 12)) by lia. rewrite !andb_false_r. reflexivity. }
  apply Z.mod_pos_bound. lia.
Qed.

Lemma gen8_gtt_get_pfn_range e : 0 <= gen8_gtt_get_pfn e < 2 ^ 34.
Proof.
  unfold gen8_gtt_get_pfn.
  repeat case_bool_decide; apply shiftr_land_mask_range; vm_compute; split; congruence.
Qed.

Lemma gpa_of_not_invalid e gma : gpa_of e gma <> INTEL_GVT_INVALID_ADDR.
Proof.
  unfold gpa_of, u64, GTT_PAGE_SHIFT, GTT_PAGE_OFFSET_MASK.
  pose proof (gen8_gtt_get_pfn_range e) as Hp.
  assert (0 <= Z.land gma (GTT_PAGE_SIZE - 1) < 2 ^ 12) as Ho.
  { change (GTT_PAGE_SIZE - 1) with (Z.ones 12). rewrite Z.land_ones by lia.
    apply Z.mod_pos_bound. lia. }
  rewrite Z.shiftl_mul_pow2 by lia.
  rewrite Z.mod_small by lia.
  change INTEL_GVT_INVALID_ADDR with (2 ^ 64 - 1). lia.
Qed.

(** C1 (as the code has it).  For a PPGTT mm, [intel_vgpu_gma_to_gpa]
    answers other than the invalid-address sentinel exactly when the
    root slot is read and every level below it succeeds: the shadow page
    named by the entry in hand is found and the entry fetched from it is
    present.  The levels above the last fetch the shadow entry, the last
    level fetches the guest entry of the page ([shadow_walk]); the answer
    is the frame of that last entry plus the page offset of [gma]. *)
Theorem intel_vgpu_gma_to_gpa_ppgtt (st : vgpu_state) (mm : nat) (gma gpa : Z) :
  mm_type (mm_of st mm) = INTEL_GVT_MM_PPGTT ->
  gpa <> INTEL_GVT_INVALID_ADDR ->
  fst (intel_vgpu_gma_to_gpa mm gma st) = gpa
  <-> exists root_index indices e0 st0 st1 e,
        gma_levels (page_table_level (mm_of st mm)) gma = Some (root_index, indices)
        /\ ppgtt_get_shadow_root_entry mm uninit_entry root_index st = ((0, e0), st0)
        /\ shadow_walk mm st0 e0 indices st1 e
        /\ gpa = gpa_of e gma.
Proof.
  intros Hty Hgpa. unfold intel_vgpu_gma_to_gpa. run. rewrite Hty.
  change (INTEL_GVT_MM_PPGTT =? INTEL_GVT_MM_GGTT) with false. run.
  destruct (gma_levels (page_table_level (mm_of st mm)) gma) as [[root_index indices]|] eqn:Hl.
  2: { run. split; [congruence|]. intros (? & ? & ? & ? & ? & ? & [=] & _). }
  pose proof (gma_levels_nonempty _ _ _ _ Hl) as Hne. run.
  destruct (ppgtt_get_shadow_root_entry mm uninit_entry root_index st) as [[r e0] st0] eqn:Hr.
  run. destruct (Z.eqb_spec r 0) as [->|Hr0]; run.
  2: { split; [congruence|].
       intros (? & ? & ? & ? & ? & ? & [= <- <-] & Hr' & _). rewrite Hr in Hr'. congruence. }
  pose proof (walk_levels_shadow_walk mm indices Hne e0 st0) as Hw.
  destruct (walk_levels mm e0 (gma_path indices) st0) as [[[]|e] st1] eqn:Hwl; run.
  - split; [congruence|].
    intros (? & ? & ? & ? & st1' & e & [= <- <-] & Hr' & Hsw & _).
    rewrite Hr in Hr'. injection Hr' as <- <-.
    assert (inl () = inr e) as Habs by (apply (proj2 (Hw e)); eauto). discriminate.
  - split.
    + intros <-. destruct (proj1 (Hw e) eq_refl) as [st1' Hsw].
      exists root_index, indices, e0, st0, st1', e. auto.
    + intros (? & ? & ? & ? & st1' & e' & [= <- <-] & Hr' & Hsw & ->).
      rewrite Hr in Hr'. injection Hr' as <- <-.
      assert (inr e = inr e') as [= ->] by (apply (proj2 (Hw e')); eauto). reflexivity.
Qed.

Lemma intel_vgpu_gma_to_gpa_ppgtt_witness :
  fst (intel_vgpu_gma_to_gpa 2 0x123 walk_state) = 0x77123
  <-> exists root_index indices e0 st0 st1 e,
        gma_levels (page_table_level (mm_of walk_state 2%nat)) 0x123
        = Some (root_index, indices)
        /\ ppgtt_get_shadow_root_entry 2 uninit_entry root_index walk_state = ((0, e0), st0)
        /\ shadow_walk 2 st0 e0 indices st1 e
        /\ 0x77123 = gpa_of e 0x123.
Proof.
  apply intel_vgpu_gma_to_gpa_ppgtt.
  - reflexivity.
  - vm_compute. discriminate.
Defined.

(** ** Out-of-sync pages *)

Lemma keeps_attachment_refl st : keeps_attachment st st.
Proof. split; reflexivity. Qed.

Lemma keeps_attachment_trans st1 st2 st3 :
  keeps_attachment st1 st2 -> keeps_attachment st2 st3 -> keeps_attachment st1 st3.
Proof. intros [A1 B1] [A2 B2]. split; intros; [rewrite A2, A1 | rewrite B2, B1]; reflexivity. Qed.

Lemma sync_frame_refl st : sync_frame st st.
Proof. split; [apply same_config_refl|]. split; [reflexivity | apply keeps_attachment_refl]. Qed.

Lemma sync_frame_trans st1 st2 st3 :
  sync_frame st1 st2 -> sync_frame st2 st3 -> sync_frame st1 st3.
Proof.
  intros (C1 & L1 & A1) (C2 & L2 & A2). split; [eapply same_config_trans; eauto|].
  split; [congruence | eapply keeps_attachment_trans; eauto].
Qed.

Ltac solve_sync_frame :=
  intros; unfold sync_frame, keeps_attachment, same_config; st_norm;
  repeat split; reflexivity.

Lemma sf_modify f : (forall st, sync_frame st (f st)) -> respects sync_frame (modify f).
Proof. intros H st. apply H. Qed.

Lemma sf_emit ev : respects sync_frame (emit ev).
Proof. intros st. rewrite emit_run. solve_sync_frame. Qed.

Lemma sf_upd_spt p f :
  (forall s, oos_page (f s) = oos_page s) -> respects sync_frame (upd_spt p f).
Proof.
  intros Hf st. unfold upd_spt. rewrite modify_run. st_norm.
  split; [solve_config|]. split; [reflexivity|]. split; st_norm; [|reflexivity].
  intros q. destruct (decide (q = p)) as [->|Hne].
  - rewrite lookup_alter_eq. destruct (spts st !! p); cbn; [apply Hf | reflexivity].
  - rewrite lookup_alter_ne by congruence. reflexivity.
Qed.

Lemma sf_upd_oos p f :
  (forall o, oos_guest_page (f o) = oos_guest_page o) -> respects sync_frame (upd_oos p f).
Proof.
  intros Hf st. unfold upd_oos. rewrite modify_run. st_norm.
  split; [solve_config|]. split; [reflexivity|]. split; st_norm; [reflexivity|].
  intros q. destruct (decide (q = p)) as [->|Hne].
  - rewrite lookup_alter_eq. destruct (ooss st !! p); cbn; [apply Hf | reflexivity].
  - rewrite lookup_alter_ne by congruence. reflexivity.
Qed.

Lemma sf_upd_mm p f : respects sync_frame (upd_mm p f).
Proof. intros st. unfold upd_mm. rewrite modify_run. solve_sync_frame. Qed.

#[global] Hint Extern 1 (sync_frame _ _) => solve_sync_frame : fp.
#[global] Hint Extern 1 (oos_page _ = oos_page _) => reflexivity : fp.
#[global] Hint Extern 1 (oos_guest_page _ = oos_guest_page _) => reflexivity : fp.
#[global] Hint Resolve sync_frame_refl sync_frame_trans : fp.
#[global] Hint Resolve sf_modify sf_emit sf_upd_spt sf_upd_oos sf_upd_mm : fp.

Lemma read_gpa_sf gpa len : respects sync_frame (intel_gvt_hypervisor_read_gpa gpa len).
Proof. unfold intel_gvt_hypervisor_read_gpa. fp_auto. Qed.
#[global] Hint Resolve read_gpa_sf : fp.

Lemma set_wp_page_sf p : respects sync_frame (intel_gvt_hypervisor_set_wp_page p).
Proof. unfold intel_gvt_hypervisor_set_wp_page. fp_auto. Qed.
#[global] Hint Resolve set_wp_page_sf : fp.

Lemma gtt_entry_p2m_sf p : respects sync_frame (gtt_entry_p2m p).
Proof. unfold gtt_entry_p2m, intel_gvt_hypervisor_gfn_to_mfn. fp_auto. Qed.
#[global] Hint Resolve gtt_entry_p2m_sf : fp.

Lemma gtt_get_entry64__BKL_sf pt e index guest gpa :
  respects sync_frame (gtt_get_entry64__BKL pt e index guest gpa).
Proof. unfold gtt_get_entry64__BKL, gtt_get_entry64, read_pte64. fp_auto. Qed.
#[global] Hint Resolve gtt_get_entry64__BKL_sf : fp.

Lemma gtt_set_entry64__BKL_pt_sf pt e index gpa :
  respects sync_frame (gtt_set_entry64__BKL (Some pt) e index false gpa).
Proof. unfold gtt_set_entry64__BKL, gtt_set_entry64, pt_store. fp_auto. Qed.
#[global] Hint Resolve gtt_set_entry64__BKL_pt_sf : fp.

Lemma ppgtt_set_shadow_entry_sf spt e index :
  respects sync_frame (ppgtt_set_shadow_entry spt e index).
Proof. unfold ppgtt_set_shadow_entry, ppgtt_spt_set_entry. fp_auto. Qed.
#[global] Hint Resolve ppgtt_set_shadow_entry_sf : fp.

Lemma sync_oos_page_sf oos : respects sync_frame (sync_oos_page oos).
Proof. unfold sync_oos_page. fp_auto. Qed.
#[global] Hint Resolve sync_oos_page_sf : fp.

Lemma ppgtt_set_guest_page_sync_list st gpt st' :
  ppgtt_set_guest_page_sync gpt st = (0, st') ->
  oos_page_list_head st'
  = list_del (deref (oos_page (spt_of st gpt))) (oos_page_list_head st)
  /\ same_config st st' /\ keeps_attachment st st'.
Proof.
  unfold ppgtt_set_guest_page_sync. run.
  pose proof (set_wp_page_sf gpt st) as (C1 & L1 & A1).
  destruct (intel_gvt_hypervisor_set_wp_page gpt st) as [r st1]. cbn [fst snd] in *.
  destruct (Z.eqb_spec r 0) as [->|Hr]; run.
  2: { intros [= -> _]. congruence. }
  pose proof (sync_oos_page_sf (deref (oos_page (spt_of st1 gpt)))
                (set_oos_page_list_head
                   (set_trace st1
                      (trace st1
                       ++ [EvOosChange OosSetPageSync (deref (oos_page (spt_of st1 gpt))) gpt]))
                   (list_del (deref (oos_page (spt_of st1 gpt))) (oos_page_list_head st1))))
    as (C2 & L2 & A2).
  intros H. rewrite H in C2, L2, A2. cbn [snd] in C2, L2, A2. st_norm in L2.
  destruct A1 as [A1 B1]. rewrite A1 in L2. rewrite L1 in L2.
  split; [exact L2|]. split.
  - eapply same_config_trans; [exact C1|]. revert C2. unfold same_config. st_norm. auto.
  - eapply keeps_attachment_trans; [split; [exact A1 | exact B1]|].
    revert A2. unfold keeps_attachment. st_norm. auto.
Qed.

Lemma sync_loop l :
  forall st st',
    (forall oos, oos ∈ l -> attached st oos) ->
    for_each l tt (fun oos _ =>
      let* st := get in
      let* r := ppgtt_set_guest_page_sync (deref (oos_guest_page (oos_of st oos))) in
      if negb (r =? 0) then ret (inl r) else ret (inr tt)) st = (inr tt, st') ->
    oos_page_list_head st' = foldl (fun acc oos => list_del oos acc) (oos_page_list_head st) l
    /\ same_config st st'.
Proof.
  induction l as [|oos l IH]; intros st st' Hatt.
  - cbn [for_each]. run. intros [= <-]. split; [reflexivity | apply same_config_refl].
  - rewrite for_each_cons. run.
    destruct (ppgtt_set_guest_page_sync (deref (oos_guest_page (oos_of st oos))) st)
      as [r st1] eqn:Hs. cbn [fst snd].
    destruct (Z.eqb_spec r 0) as [->|Hr]; run; [|discriminate].
    apply ppgtt_set_guest_page_sync_list in Hs as (L & C & [A B]).
    intros Hl. apply IH in Hl as [L' C'].
    + cbn [foldl]. rewrite L', L.
      rewrite (Hatt oos) by (left). cbn [deref default].
      split; [reflexivity | eapply same_config_trans; eauto].
    + intros o Ho. unfold attached. rewrite B, A. apply Hatt. right. exact Ho.
Qed.

Lemma foldl_list_del_subset l acc x :
  x ∈ foldl (fun acc oos => list_del oos acc) acc l -> x ∈ acc /\ x ∉ l.
Proof.
  revert acc. induction l as [|o l IH]; intros acc; cbn [foldl].
  - intros H. split; [exact H | apply not_elem_of_nil].
  - intros H. apply IH in H as [H1 H2]. unfold list_del in H1.
    apply list_elem_of_filter in H1 as [Hne Hin].
    split; [exact Hin|]. rewrite not_elem_of_cons. auto.
Qed.

Lemma foldl_list_del_self l : foldl (fun acc oos => list_del oos acc) l l = [].
Proof.
  destruct (foldl (fun acc oos => list_del oos acc) l l) as [|x r] eqn:E; [reflexivity|].
  assert (x ∈ foldl (fun acc oos => list_del oos acc) l l) as H by (rewrite E; left).
  apply foldl_list_del_subset in H as [H1 H2]. contradiction.
Qed.

(** *** Synchronizing protects *)

Lemma keeps_protection_refl st : keeps_protection st st.
Proof. intros p H. exact H. Qed.

Lemma keeps_protection_trans st1 st2 st3 :
  keeps_protection st1 st2 -> keeps_protection st2 st3 -> keeps_protection st1 st3.
Proof. intros H1 H2 p H. auto. Qed.

Lemma kpr_modify f : (forall st, spts (f st) = spts st) -> respects keeps_protection (modify f).
Proof. intros Hs st p. rewrite modify_run. cbn [snd]. rewrite Hs. auto. Qed.

Lemma kpr_emit ev : respects keeps_protection (emit ev).
Proof. intros st p. rewrite emit_run. st_norm. auto. Qed.

Lemma kpr_upd_spt q f :
  (forall s, writeprotection s = true -> writeprotection (f s) = true) ->
  respects keeps_protection (upd_spt q f).
Proof.
  intros Hf st p. unfold upd_spt. rewrite modify_run. st_norm.
  destruct (decide (p = q)) as [->|Hne].
  - rewrite lookup_alter_eq. destruct (spts st !! q); cbn; auto.
  - rewrite lookup_alter_ne by congruence. auto.
Qed.

#[global] Hint Resolve keeps_protection_refl keeps_protection_trans kpr_emit : fp.
#[global] Hint Extern 1 (respects keeps_protection (modify _)) =>
  apply kpr_modify; intros; reflexivity : fp.
#[global] Hint Extern 1 (respects keeps_protection (upd_spt _ _)) =>
  apply kpr_upd_spt; intros; st_norm; solve [assumption | reflexivity] : fp.
#[global] Hint Extern 1 (respects keeps_protection (upd_oos _ _)) =>
  unfold upd_oos; apply kpr_modify; intros; reflexivity : fp.
#[global] Hint Extern 1 (respects keeps_protection (upd_mm _ _)) =>
  unfold upd_mm; apply kpr_modify; intros; reflexivity : fp.

Lemma set_wp_page_kpr p : respects keeps_protection (intel_gvt_hypervisor_set_wp_page p).
Proof. unfold intel_gvt_hypervisor_set_wp_page. fp_auto. Qed.
#[global] Hint Resolve set_wp_page_kpr : fp.

Lemma sync_oos_page_kpr oos : respects keeps_protection (sync_oos_page oos).
Proof.
  unfold sync_oos_page, gtt_entry_p2m, intel_gvt_hypervisor_gfn_to_mfn,
    ppgtt_set_shadow_entry, ppgtt_spt_set_entry, gtt_set_entry64__BKL, gtt_set_entry64,
    gtt_get_entry64__BKL, gtt_get_entry64, intel_gvt_hypervisor_read_gpa,
    intel_gvt_hypervisor_write_gpa, read_pte64, write_pte64, pt_store.
  fp_auto.
Qed.
#[global] Hint Resolve sync_oos_page_kpr : fp.

Lemma ppgtt_set_guest_page_sync_kpr gpt : respects keeps_protection (ppgtt_set_guest_page_sync gpt).
Proof. unfold ppgtt_set_guest_page_sync. fp_auto. Qed.
#[global] Hint Resolve ppgtt_set_guest_page_sync_kpr : fp.

Lemma set_wp_page_protects p st st' :
  intel_gvt_hypervisor_set_wp_page p st = (0, st') ->
  is_Some (spts st !! p) ->
  writeprotection (spt_of st' p) = true.
Proof.
  unfold intel_gvt_hypervisor_set_wp_page. run.
  destruct (writeprotection (spt_of st p)) eqn:Hw; run.
  { intros [= <-] _. exact Hw. }
  destruct (Z.eqb_spec (set_wp_ret (hv st) (gfn (spt_of st p))) 0) as [E|E]; run.
  - unfold upd_spt. run. intros [= <-] [s Hs]. st_norm.
    rewrite lookup_alter_eq, Hs. reflexivity.
  - intros [= E' _]. congruence.
Qed.

Lemma ppgtt_set_guest_page_sync_protects gpt st st' :
  ppgtt_set_guest_page_sync gpt st = (0, st') ->
  is_Some (spts st !! gpt) ->
  writeprotection (spt_of st' gpt) = true.
Proof.
  unfold ppgtt_set_guest_page_sync. rewrite bind_run.
  destruct (intel_gvt_hypervisor_set_wp_page gpt st) as [r st1] eqn:Ew. cbn [fst snd].
  destruct (Z.eqb_spec r 0) as [->|Hr]; cbn [negb].
  2: { rewrite ret_run. intros [= -> _]. congruence. }
  intros H Hs. pose proof (set_wp_page_protects _ _ _ Ew Hs) as Hw.
  match type of H with ?m st1 = _ =>
    assert (respects keeps_protection m) as Hf by fp_auto;
    specialize (Hf st1); rewrite H in Hf
  end.
  apply Hf, Hw.
Qed.

Lemma attached_is_Some st oos :
  attached st oos -> is_Some (spts st !! deref (oos_guest_page (oos_of st oos))).
Proof.
  unfold attached. destruct (spts st !! deref (oos_guest_page (oos_of st oos))); [eauto|].
  discriminate.
Qed.

Lemma sync_loop_protects l :
  forall st st',
    (forall oos, oos ∈ l -> attached st oos) ->
    for_each l tt (fun oos _ =>
      let* st := get in
      let* r := ppgtt_set_guest_page_sync (deref (oos_guest_page (oos_of st oos))) in
      if negb (r =? 0) then ret (inl r) else ret (inr tt)) st = (inr tt, st') ->
    forall oos, oos ∈ l ->
      writeprotection (spt_of st' (deref (oos_guest_page (oos_of st oos)))) = true.
Proof.
  induction l as [|o l IH]; intros st st' Hatt Hl oos Hin.
  - apply elem_of_nil in Hin. destruct Hin.
  - rewrite for_each_cons in Hl. revert Hl. run.
    destruct (ppgtt_set_guest_page_sync (deref (oos_guest_page (oos_of st o))) st)
      as [r st1] eqn:Hs. cbn [fst snd].
    destruct (Z.eqb_spec r 0) as [->|Hr]; run; [|discriminate].
    intros Hl.
    pose proof (ppgtt_set_guest_page_sync_list _ _ _ Hs) as (_ & _ & [A B]).
    assert (forall o', o' ∈ l -> attached st1 o') as Hatt1.
    { intros o' Ho'. unfold attached. rewrite B, A. apply Hatt. right. exact Ho'. }
    apply elem_of_cons in Hin as [->|Hin].
    + apply ppgtt_set_guest_page_sync_protects in Hs;
        [|apply attached_is_Some, Hatt; left].
      match type of Hl with for_each ?l ?a ?body st1 = _ =>
        assert (respects keeps_protection (for_each l a body)) as Hf by fp_auto;
        specialize (Hf st1); rewrite Hl in Hf
      end.
      apply Hf, Hs.
    + rewrite <- B. eapply IH; eauto.
Qed.



(** In [oos_state] the first invocation brings the shadow up to date
    with the entry the guest wrote into slot 3 and protects the page
    again. *)
Example first_sync_updates_shadow :
  let st1 := snd (intel_vgpu_sync_oos_pages oos_state) in
  fst (intel_vgpu_sync_oos_pages oos_state) = 0
  /\ page_read (sp_vaddr (spt_of oos_state 1%nat)) 3 = 0
  /\ page_read (sp_vaddr (spt_of st1 1%nat)) 3 = 0x1077001
  /\ writeprotection (spt_of oos_state 1%nat) = false
  /\ writeprotection (spt_of st1 1%nat) = true
  /\ oos_page_list_head oos_state = [1%nat]
  /\ oos_page_list_head st1 = [].
Proof. vm_compute. auto 10. Qed.

(** ** Going out of sync *)

Lemma sync_oos_page_fp c oos :
  subclass is_oos_pool_event c -> respects (footprint c) (sync_oos_page oos).
Proof. intros. unfold sync_oos_page. fp_auto. Qed.
#[global] Hint Resolve sync_oos_page_fp : fp.

Lemma attach_oos_page_fp c oos gpt :
  subclass is_oos_pool_event c -> respects (footprint c) (attach_oos_page oos gpt).
Proof. intros. unfold attach_oos_page. fp_auto. Qed.
#[global] Hint Resolve attach_oos_page_fp : fp.

Lemma ppgtt_set_guest_page_sync_fp c gpt :
  subclass is_oos_pool_event c -> respects (footprint c) (ppgtt_set_guest_page_sync gpt).
Proof. intros. unfold ppgtt_set_guest_page_sync. fp_auto. Qed.
#[global] Hint Resolve ppgtt_set_guest_page_sync_fp : fp.

Lemma ppgtt_allocate_oos_page_fp c gpt :
  subclass is_oos_pool_event c -> respects (footprint c) (ppgtt_allocate_oos_page gpt).
Proof. intros. unfold ppgtt_allocate_oos_page. fp_auto. Qed.
#[global] Hint Resolve ppgtt_allocate_oos_page_fp : fp.

Lemma ppgtt_set_post_shadow_fp c spt index : respects (footprint c) (ppgtt_set_post_shadow spt index).
Proof. unfold ppgtt_set_post_shadow. fp_auto. Qed.
#[global] Hint Resolve ppgtt_set_post_shadow_fp : fp.

(** An event outside the class of a footprint is not among the new
    events. *)
Lemma trace_grows_not_in (c : event -> bool) st st' evs ev :
  trace_grows c st st' -> trace st' = trace st ++ evs -> c ev = false -> ~ In ev evs.
Proof.
  intros (evs' & E & Fa) E' Hc Hin. rewrite E in E'. apply app_inv_head in E'. subst evs'.
  rewrite Forall_forall in Fa. apply list_elem_of_In in Hin.
  specialize (Fa ev Hin). congruence.
Qed.

Lemma trace_grows_events (c : event -> bool) st st' :
  trace_grows c st st' -> exists evs, trace st' = trace st ++ evs.
Proof. intros (evs & E & _). eauto. Qed.

Lemma set_oos_entry_spts st oos e index gpa :
  spts (snd (gtt_set_entry64__BKL (Some (PtOos oos)) e index false gpa st)) = spts st.
Proof.
  unfold gtt_set_entry64__BKL, gtt_set_entry64, pt_store, upd_oos. run.
  rewrite orb_true_r. run.
  destruct (gtt_entry_size (device_info st) =? 8); run; reflexivity.
Qed.

Lemma unset_wp_page_lifts st p r st' :
  intel_gvt_hypervisor_unset_wp_page p st = (r, st') ->
  (forall g, unset_wp_ret (hv st) g <= 0) ->
  0 <= r ->
  writeprotection (spt_of st' p) = false.
Proof.
  unfold intel_gvt_hypervisor_unset_wp_page. run.
  destruct (writeprotection (spt_of st p)) eqn:Hw; run.
  2: { intros [= <- <-] _ _. exact Hw. }
  destruct (Z.eqb_spec (unset_wp_ret (hv st) (gfn (spt_of st p))) 0) as [E|E]; run.
  - unfold upd_spt. run. intros [= <- <-] _ _. st_norm.
    rewrite lookup_alter_eq. destruct (spts st !! p); reflexivity.
  - intros [= <- <-] Hle Hr. specialize (Hle (gfn (spt_of st p))). lia.
Qed.

Lemma footprint_config c st st' : footprint c st st' -> same_config st st'.
Proof. intros (C & _). exact C. Qed.

Lemma footprint_trace c st st' : footprint c st st' -> trace_grows c st st'.
Proof. intros (_ & G & _). exact G. Qed.

Lemma can_do_out_of_sync_counted st gp st1 :
  spts st1 = alter (fun s => set_write_cnt s (wrap_int (write_cnt s + 1))) gp (spts st) ->
  enable_gvt_oos st1 = enable_gvt_oos st ->
  can_do_out_of_sync st1 gp = true <-> goes_out_of_sync st gp.
Proof.
  intros Hs He. unfold can_do_out_of_sync, goes_out_of_sync, gtt_type_is_pte_pt.
  rewrite Hs, He, lookup_alter_eq. rewrite !andb_true_iff, bool_decide_eq_true, Z.leb_le.
  destruct (spts st !! gp) as [s|]; cbn; [tauto|]. intuition discriminate.
Qed.

Lemma ppgtt_set_guest_page_oos_cases st gp r st' :
  ppgtt_set_guest_page_oos gp st = (r, st') ->
  (oos_page (spt_of st gp) = None /\ r = - EINVAL /\ st' = st)
  \/ (exists oos,
        oos_page (spt_of st gp) = Some oos
        /\ intel_gvt_hypervisor_unset_wp_page gp
             (set_oos_page_list_head
                (set_trace st (trace st ++ [EvOosChange OosSetPageOutOfSync oos gp]))
                (list_add_tail oos (oos_page_list_head st)))
           = (r, st')).
Proof.
  unfold ppgtt_set_guest_page_oos. run.
  destruct (oos_page (spt_of st gp)) as [oos|]; run.
  - intros H. right. exists oos. split; [reflexivity|].
    destruct (intel_gvt_hypervisor_unset_wp_page gp _) as [r' st'']. exact H.
  - intros [= <- <-]. left. auto.
Qed.

Lemma guest_write_out_of_sync_spec st gp we index r st' evs :
  guest_write_out_of_sync gp we index st = (r, st') ->
  trace st' = trace st ++ evs ->
  ((exists oos, In (EvOosChange OosSetPageOutOfSync oos gp) evs) -> goes_out_of_sync st gp)
  /\ (goes_out_of_sync st gp -> 0 <= r ->
      (exists oos, In (EvOosChange OosSetPageOutOfSync oos gp) evs)
      /\ ((forall g, unset_wp_ret (hv st) g <= 0) -> writeprotection (spt_of st' gp) = false)).
Proof.
  unfold guest_write_out_of_sync. rewrite bind_run, get_run. cbn [fst snd].
  destruct (enable_gvt_oos st) eqn:En; cbn [negb].
  2: { rewrite ret_run. intros [= <- <-] E.
       assert (evs = []) as ->
         by (apply (app_inv_head (trace st)); rewrite <- E, app_nil_r; reflexivity).
       unfold goes_out_of_sync. rewrite En.
       split; [intros [? []] | intros [? _]; discriminate]. }
  (* the write is counted *)
  rewrite bind_run. unfold upd_spt at 1. rewrite modify_run. cbn [fst snd].
  set (st1 := set_spts st _).
  rewrite bind_run, get_run. cbn [fst snd].
  (* the snapshot, if there is one, gets the entry *)
  rewrite bind_run.
  set (copy := match oos_page (spt_of st1 gp) with Some _ => _ | None => _ end).
  assert (spts (snd (copy st1)) = spts st1
          /\ footprint is_oos_pool_event st1 (snd (copy st1))) as [Hs2 F2].
  { subst copy. destruct (oos_page (spt_of st1 gp)) as [oos|].
    - rewrite bind_run, ret_run. cbn [snd]. split; [apply set_oos_entry_spts|].
      apply gtt_set_entry64__BKL_pt_fp. reflexivity.
    - rewrite ret_run. cbn [snd]. split; [reflexivity | apply footprint_refl]. }
  destruct (copy st1) as [[] st2]. cbn [fst snd] in *. clear copy.
  rewrite bind_run, get_run. cbn [fst snd].
  assert (can_do_out_of_sync st2 gp = true <-> goes_out_of_sync st gp) as Hcan.
  { apply can_do_out_of_sync_counted; [rewrite Hs2; reflexivity|].
    destruct (footprint_config _ _ _ F2) as (_ & _ & -> & _). reflexivity. }
  assert (footprint is_oos_pool_event st st2) as F02.
  { eapply footprint_trans; [|exact F2]. subst st1.
    apply (fp_upd_spt is_oos_pool_event gp
             (fun s => set_write_cnt s (wrap_int (write_cnt s + 1)))
             ltac:(reflexivity) st). }
  destruct (can_do_out_of_sync st2 gp) eqn:Hc.
  2: { rewrite ret_run. intros [= <- <-] E. split.
       - intros [oos Hin]. exfalso.
         eapply (trace_grows_not_in _ _ _ _ _ (footprint_trace _ _ _ F02) E); [|exact Hin].
         reflexivity.
       - intros Hg. apply Hcan in Hg. discriminate. }
  (* a snapshot is attached if there is none *)
  rewrite bind_run.
  set (alloc := match oos_page (spt_of st2 gp) with Some _ => _ | None => _ end).
  assert (footprint is_oos_pool_event st2 (snd (alloc st2))) as F3.
  { subst alloc. destruct (oos_page (spt_of st2 gp)).
    - rewrite ret_run. apply footprint_refl.
    - rewrite bind_run, ret_run. cbn [snd]. apply ppgtt_allocate_oos_page_fp. apply subclass_refl. }
  destruct (alloc st2) as [[] st3]. cbn [fst snd] in *. clear alloc.
  assert (footprint is_oos_pool_event st st3) as F03 by (eapply footprint_trans; eauto).
  rewrite bind_run.
  destruct (ppgtt_set_guest_page_oos gp st3) as [r4 st4] eqn:Eo. cbn [fst snd].
  intros Hres E.
  assert (st' = st4 /\ (0 <= r -> 0 <= r4)) as [-> Hr4].
  { destruct (r4 <? 0) eqn:Hneg; rewrite ret_run in Hres; injection Hres as <- <-;
      split; try reflexivity; [apply Z.ltb_lt in Hneg | apply Z.ltb_ge in Hneg]; lia. }
  clear Hres.
  apply ppgtt_set_guest_page_oos_cases in Eo as [(Ho & -> & ->) | (oos & Ho & Eu)].
  { split.
    - intros [oos Hin]. exfalso.
      eapply (trace_grows_not_in _ _ _ _ _ (footprint_trace _ _ _ F03) E); [|exact Hin].
      reflexivity.
    - intros _ Hr. exfalso. apply Hr4 in Hr. revert Hr. vm_compute. intros H. apply H.
      reflexivity. }
  (* the page goes out of sync *)
  match type of Eu with intel_gvt_hypervisor_unset_wp_page _ ?s = _ =>
    pose proof (unset_wp_page_fp (fun _ => true) gp ltac:(reflexivity) s) as F5
  end.
  rewrite Eu in F5. cbn [snd] in F5.
  assert (exists o, In (EvOosChange OosSetPageOutOfSync o gp) evs) as Hin.
  { exists oos. destruct (footprint_trace _ _ _ F03) as (e3 & E3 & _).
    destruct (footprint_trace _ _ _ F5) as (e5 & E5 & _).
    st_norm in E5. rewrite E5, E3, <- !app_assoc in E.
    apply app_inv_head in E. subst evs. apply in_or_app. right. left. reflexivity. }
  split; [intros _; apply Hcan; reflexivity|].
  intros _ Hr. split; [exact Hin|]. intros Hle.
  apply (unset_wp_page_lifts _ _ _ _ Eu); [|auto].
  intros g. st_norm.
  destruct (footprint_config _ _ _ F03) as (-> & _). apply Hle.
Qed.
(** *** A written entry of a leaf-level table is handled in place *)

Lemma keeps_page_refl gp st : keeps_page gp st st.
Proof. unfold keeps_page. auto using same_config_refl. Qed.

Lemma keeps_page_trans gp st1 st2 st3 :
  keeps_page gp st1 st2 -> keeps_page gp st2 st3 -> keeps_page gp st1 st3.
Proof.
  intros (C1 & ? & ? & ? & ?) (C2 & ? & ? & ? & ?).
  split; [eapply same_config_trans; eauto|]. repeat split; congruence.
Qed.

Lemma kp_modify gp f :
  (forall st, same_config st (f st)) -> (forall st, spts (f st) = spts st) ->
  respects (keeps_page gp) (modify f).
Proof.
  intros Hc Hs st. rewrite modify_run. cbn [snd]. split; [apply Hc|]. rewrite Hs. auto.
Qed.

Lemma kp_emit gp ev : respects (keeps_page gp) (emit ev).
Proof. intros st. rewrite emit_run. cbn [snd]. split; [solve_config|]. st_norm. auto. Qed.

Lemma kp_upd_spt gp p f :
  (forall s, write_cnt (f s) = write_cnt s) ->
  (forall s, guest_page_type (f s) = guest_page_type s) ->
  (forall s, sp_type (f s) = sp_type s) ->
  (forall s, writeprotection (f s) = writeprotection s) ->
  respects (keeps_page gp) (upd_spt p f).
Proof.
  intros H1 H2 H3 H4 st. unfold upd_spt. rewrite modify_run. cbn [snd].
  split; [solve_config|]. st_norm.
  destruct (decide (gp = p)) as [->|Hne].
  - rewrite lookup_alter_eq. destruct (spts st !! p); cbn; auto.
  - rewrite lookup_alter_ne by congruence. auto.
Qed.

#[global] Hint Resolve keeps_page_refl keeps_page_trans kp_emit : fp.
#[global] Hint Extern 1 (respects (keeps_page _) (modify _)) =>
  apply kp_modify; intros; [solve_config | reflexivity] : fp.
#[global] Hint Extern 1 (respects (keeps_page _) (upd_spt _ _)) =>
  apply kp_upd_spt; intros; reflexivity : fp.
#[global] Hint Extern 1 (respects (keeps_page _) (upd_oos _ _)) =>
  unfold upd_oos; apply kp_modify; intros; [solve_config | reflexivity] : fp.
#[global] Hint Extern 1 (respects (keeps_page _) (upd_mm _ _)) =>
  unfold upd_mm; apply kp_modify; intros; [solve_config | reflexivity] : fp.

Lemma write_gpa_kp gp gpa data len :
  respects (keeps_page gp) (intel_gvt_hypervisor_write_gpa gpa data len).
Proof. unfold intel_gvt_hypervisor_write_gpa. fp_auto. Qed.
#[global] Hint Resolve write_gpa_kp : fp.

Lemma read_gpa_kp gp gpa len :
  respects (keeps_page gp) (intel_gvt_hypervisor_read_gpa gpa len).
Proof. unfold intel_gvt_hypervisor_read_gpa. fp_auto. Qed.
#[global] Hint Resolve read_gpa_kp : fp.

Lemma gtt_entry_p2m_kp gp p : respects (keeps_page gp) (gtt_entry_p2m p).
Proof. unfold gtt_entry_p2m, intel_gvt_hypervisor_gfn_to_mfn. fp_auto. Qed.
#[global] Hint Resolve gtt_entry_p2m_kp : fp.

Lemma pt_store_kp gp pt index v : respects (keeps_page gp) (pt_store pt index v).
Proof. unfold pt_store. fp_auto. Qed.
#[global] Hint Resolve pt_store_kp : fp.

Lemma ppgtt_get_guest_entry_kp gp spt e index :
  respects (keeps_page gp) (ppgtt_get_guest_entry spt e index).
Proof.
  unfold ppgtt_get_guest_entry, ppgtt_spt_get_entry, gtt_get_entry64__BKL, gtt_get_entry64,
    read_pte64.
  fp_auto.
Qed.
#[global] Hint Resolve ppgtt_get_guest_entry_kp : fp.

Lemma ppgtt_get_shadow_entry_kp gp spt e index :
  respects (keeps_page gp) (ppgtt_get_shadow_entry spt e index).
Proof.
  unfold ppgtt_get_shadow_entry, ppgtt_spt_get_entry, gtt_get_entry64__BKL, gtt_get_entry64,
    read_pte64.
  fp_auto.
Qed.
#[global] Hint Resolve ppgtt_get_shadow_entry_kp : fp.

Lemma ppgtt_set_shadow_entry_kp gp spt e index :
  respects (keeps_page gp) (ppgtt_set_shadow_entry spt e index).
Proof.
  unfold ppgtt_set_shadow_entry, ppgtt_spt_set_entry, gtt_set_entry64__BKL, gtt_set_entry64,
    write_pte64.
  fp_auto.
Qed.
#[global] Hint Resolve ppgtt_set_shadow_entry_kp : fp.

Lemma ppgtt_set_post_shadow_kp gp spt index :
  respects (keeps_page gp) (ppgtt_set_post_shadow spt index).
Proof. unfold ppgtt_set_post_shadow. fp_auto. Qed.
#[global] Hint Resolve ppgtt_set_post_shadow_kp : fp.

Lemma ppgtt_handle_guest_entry_add_leaf gp fuel gpt we index :
  type we = GTT_TYPE_PPGTT_PTE_4K_ENTRY ->
  frespects (keeps_page gp) (ppgtt_handle_guest_entry_add fuel gpt we index).
Proof.
  intros Ht. unfold ppgtt_handle_guest_entry_add. rewrite Ht.
  change (gtt_type_is_pt (get_next_pt_type GTT_TYPE_PPGTT_PTE_4K_ENTRY)) with false.
  cbv iota. fp_auto.
Qed.
#[global] Hint Resolve ppgtt_handle_guest_entry_add_leaf : fp.

Lemma ppgtt_handle_guest_entry_removal_leaf gp fuel gpt se index :
  type se = GTT_TYPE_PPGTT_PTE_4K_ENTRY ->
  frespects (keeps_page gp) (ppgtt_handle_guest_entry_removal fuel gpt se index).
Proof.
  intros Ht. unfold ppgtt_handle_guest_entry_removal. rewrite Ht.
  change (gtt_type_is_pt (get_next_pt_type GTT_TYPE_PPGTT_PTE_4K_ENTRY)) with false.
  cbv iota. fp_auto.
Qed.
#[global] Hint Resolve ppgtt_handle_guest_entry_removal_leaf : fp.

Lemma gtt_get_entry64_type pt e index guest gpa st :
  type (snd (fst (gtt_get_entry64 pt e index guest gpa st))) = type e.
Proof.
  unfold gtt_get_entry64, intel_gvt_hypervisor_read_gpa, read_pte64. run.
  repeat (match goal with
          | |- context [if ?b then _ else _] => destruct b
          | |- context [match ?x with _ => _ end] => destruct x
          end; run); reflexivity.
Qed.

Lemma gtt_get_entry64__BKL_type pt e index guest gpa st :
  type (snd (fst (gtt_get_entry64__BKL pt e index guest gpa st))) = type e.
Proof.
  unfold gtt_get_entry64__BKL. run.
  destruct (_ || _ || _); [apply gtt_get_entry64_type|].
  run. pose proof (gtt_get_entry64_type pt e index guest gpa st) as H.
  destruct (gtt_get_entry64 pt e index guest gpa st) as [[r e'] st']. exact H.
Qed.

(** The entries of a leaf-level table are 4K entries. *)
Lemma ppgtt_spt_get_entry_leaf spt pt e index guest st :
  type (snd (fst (ppgtt_spt_get_entry spt pt GTT_TYPE_PPGTT_PTE_PT e index guest st)))
  = GTT_TYPE_PPGTT_PTE_4K_ENTRY.
Proof.
  unfold ppgtt_spt_get_entry.
  change (get_entry_type GTT_TYPE_PPGTT_PTE_PT) with GTT_TYPE_PPGTT_PTE_4K_ENTRY.
  run. change (gtt_type_is_entry GTT_TYPE_PPGTT_PTE_4K_ENTRY) with true. run.
  match goal with |- context [gtt_get_entry64__BKL ?a ?b ?c ?d ?f ?s] =>
    pose proof (gtt_get_entry64__BKL_type a b c d f s) as H;
    destruct (gtt_get_entry64__BKL a b c d f s) as [[r e'] st']
  end.
  cbn [fst snd type set_type] in *.
  destruct (negb (r =? 0)); run; [exact H|].
  unfold gen8_gtt_test_pse. rewrite H.
  change (bool_decide (get_pse_type GTT_TYPE_PPGTT_PTE_4K_ENTRY = GTT_TYPE_INVALID)) with true.
  exact H.
Qed.

Lemma ppgtt_get_shadow_entry_leaf spt e index st :
  sp_type (spt_of st spt) = GTT_TYPE_PPGTT_PTE_PT ->
  type (snd (fst (ppgtt_get_shadow_entry spt e index st))) = GTT_TYPE_PPGTT_PTE_4K_ENTRY.
Proof.
  intros H. unfold ppgtt_get_shadow_entry. run. rewrite H. apply ppgtt_spt_get_entry_leaf.
Qed.

Lemma ppgtt_get_guest_entry_leaf spt e index st :
  guest_page_type (spt_of st spt) = GTT_TYPE_PPGTT_PTE_PT ->
  type (snd (fst (ppgtt_get_guest_entry spt e index st))) = GTT_TYPE_PPGTT_PTE_4K_ENTRY.
Proof.
  intros H. unfold ppgtt_get_guest_entry. run. rewrite H. apply ppgtt_spt_get_entry_leaf.
Qed.

Lemma gen8_gtt_test_pse_leaf e :
  type e = GTT_TYPE_PPGTT_PTE_4K_ENTRY ->
  type (snd (gen8_gtt_test_pse e)) = GTT_TYPE_PPGTT_PTE_4K_ENTRY.
Proof.
  intros H. unfold gen8_gtt_test_pse. rewrite H.
  change (bool_decide (get_pse_type GTT_TYPE_PPGTT_PTE_4K_ENTRY = GTT_TYPE_INVALID)) with true.
  exact H.
Qed.

Lemma ppgtt_handle_guest_write_page_table_leaf gp fuel we index st r st' :
  sp_type (spt_of st gp) = GTT_TYPE_PPGTT_PTE_PT ->
  type we = GTT_TYPE_PPGTT_PTE_4K_ENTRY ->
  ppgtt_handle_guest_write_page_table fuel gp we index st = Some (r, st') ->
  keeps_page gp st st'.
Proof.
  intros Hs Hw. unfold ppgtt_handle_guest_write_page_table.
  rewrite fbind_lift, get_run. cbn [fst snd]. rewrite fbind_lift.
  pose proof (ppgtt_get_shadow_entry_leaf gp uninit_entry index st Hs) as Hse.
  pose proof (ppgtt_get_shadow_entry_kp gp gp uninit_entry index st) as K0.
  destruct (ppgtt_get_shadow_entry gp uninit_entry index st) as [[r0 se] st0].
  cbn [fst snd] in *. intros H.
  eapply keeps_page_trans; [exact K0|].
  match type of H with ?m st0 = _ =>
    assert (frespects (keeps_page gp) m) as Hf by fp_auto
  end.
  exact (Hf _ _ _ H).
Qed.

(** The first half of [ppgtt_handle_guest_write_page_table_bytes]: the
    write is let through to guest memory and the shadow is brought up to
    date, with result [r1]; the second half runs when [r1] is 0. *)
Lemma ppgtt_handle_guest_write_page_table_bytes_halves fuel gp pa p_data bytes st r st' :
  ppgtt_handle_guest_write_page_table_bytes fuel gp pa p_data bytes st = Some (r, st') ->
  exists we index r1 st1,
    footprint not_set_out_of_sync st st1
    /\ (sp_type (spt_of st gp) = GTT_TYPE_PPGTT_PTE_PT ->
        guest_page_type (spt_of st gp) = GTT_TYPE_PPGTT_PTE_PT ->
        keeps_page gp st st1)
    /\ (if negb (r1 =? 0) then r = r1 /\ st' = st1
        else guest_write_out_of_sync gp we index st1 = (r, st')).
Proof.
  unfold ppgtt_handle_guest_write_page_table_bytes. cbv zeta.
  rewrite fbind_lift, get_run. cbn [fst snd]. rewrite fbind_lift.
  set (index := Z.shiftr (Z.land pa (PAGE_SIZE - 1)) (gtt_entry_size_shift (device_info st))).
  pose proof (write_gpa_fp not_set_out_of_sync pa p_data bytes ltac:(reflexivity) st) as F1.
  pose proof (write_gpa_kp gp pa p_data bytes st) as K1.
  destruct (intel_gvt_hypervisor_write_gpa pa p_data bytes st) as [rw st1].
  cbn [fst snd] in *. rewrite fbind_lift.
  pose proof (ppgtt_get_guest_entry_fp not_set_out_of_sync gp uninit_entry index
                ltac:(reflexivity) st1) as F2.
  pose proof (ppgtt_get_guest_entry_kp gp gp uninit_entry index st1) as K2.
  pose proof (ppgtt_get_guest_entry_leaf gp uninit_entry index st1) as T2.
  destruct (ppgtt_get_guest_entry gp uninit_entry index st1) as [[rg we0] st2].
  cbn [fst snd] in *.
  intros H. apply fbind_inv in H as (r1 & st3 & Hb & Ht).
  exists (snd (gen8_gtt_test_pse we0)), index, r1, st3.
  assert (footprint not_set_out_of_sync st st2) as F02 by (eapply footprint_trans; eauto).
  assert (keeps_page gp st st2) as K02 by (eapply keeps_page_trans; eauto).
  split; [|split].
  - eapply footprint_trans; [exact F02|].
    match type of Hb with ?m st2 = _ =>
      assert (frespects (footprint not_set_out_of_sync) m) as Hf
    end.
    { assert (subclass is_guest_write_event not_set_out_of_sync) by solve_subclass.
      assert (subclass is_removal_event not_set_out_of_sync) by solve_subclass.
      fp_auto. }
    exact (Hf _ _ _ Hb).
  - intros Hsp Hgp. eapply keeps_page_trans; [exact K02|].
    assert (sp_type (spt_of st2 gp) = GTT_TYPE_PPGTT_PTE_PT) as Hsp2
      by (destruct K02 as (_ & _ & _ & -> & _); exact Hsp).
    assert (type (snd (gen8_gtt_test_pse we0)) = GTT_TYPE_PPGTT_PTE_4K_ENTRY) as Hwe.
    { apply gen8_gtt_test_pse_leaf, T2. destruct K1 as (_ & _ & -> & _). exact Hgp. }
    destruct (bytes =? gtt_entry_size (device_info st)).
    { eapply ppgtt_handle_guest_write_page_table_leaf; eassumption. }
    rewrite fbind_lift, get_run in Hb. cbn [fst snd] in Hb.
    apply fbind_inv in Hb as (ra & sta & Ha & Hb).
    assert (keeps_page gp st2 sta) as Ka.
    { destruct (negb (test_bit index (post_shadow_bitmap (spt_of st2 gp)))).
      2: { injection Ha as <- <-. apply keeps_page_refl. }
      rewrite fbind_lift in Ha.
      pose proof (ppgtt_get_shadow_entry_leaf gp uninit_entry index st2 Hsp2) as Hse.
      pose proof (ppgtt_get_shadow_entry_kp gp gp uninit_entry index st2) as K0.
      destruct (ppgtt_get_shadow_entry gp uninit_entry index st2) as [[r0 se] st0].
      cbn [fst snd] in *.
      eapply keeps_page_trans; [exact K0|].
      match type of Ha with ?m st0 = _ =>
        assert (frespects (keeps_page gp) m) as Hf by fp_auto
      end.
      exact (Hf _ _ _ Ha). }
    eapply keeps_page_trans; [exact Ka|].
    match type of Hb with ?m sta = _ =>
      assert (frespects (keeps_page gp) m) as Hf by fp_auto
    end.
    exact (Hf _ _ _ Hb).
  - destruct (negb (r1 =? 0)).
    + injection Ht as <- <-. auto.
    + injection Ht as Ht. exact Ht.
Qed.

(** C4 (as the code has it).  A trapped write to the allocated
    page-table page [gp], handled by [ppgtt_write_protection_handler].
    The page goes out of sync only if it is write-protected, the OOS
    feature is enabled and it is a leaf-level page table ([PTE_PT]):
    a page of any other level never does, however often it is written.
    For a leaf-level page the write in hand is counted first, and on
    success the page goes out of sync exactly when the feature is
    enabled and the count, this write included, is at least 2; write
    protection is then lifted when the hypervisor does not report a
    failure. *)
Theorem out_of_sync_transition (fuel : nat) (st st' : vgpu_state) (gp : nat)
    (pa p_data bytes r : Z) (evs : list event) :
  ppgtt_write_protection_handler fuel gp pa p_data bytes st = Some (r, st') ->
  trace st' = trace st ++ evs ->
  (gp < next_spt st)%nat ->
  gtt_type_is_pt (guest_page_type (spt_of st gp)) = true ->
  let went := exists oos, In (EvOosChange OosSetPageOutOfSync oos gp) evs in
  (went ->
   writeprotection (spt_of st gp) = true
   /\ enable_gvt_oos st = true
   /\ guest_page_type (spt_of st gp) = GTT_TYPE_PPGTT_PTE_PT)
  /\ (sp_type (spt_of st gp) = GTT_TYPE_PPGTT_PTE_PT ->
      guest_page_type (spt_of st gp) = GTT_TYPE_PPGTT_PTE_PT ->
      (went -> 2 <= wrap_int (write_cnt (spt_of st gp) + 1))
      /\ (r = 0 -> enable_gvt_oos st = true ->
          2 <= wrap_int (write_cnt (spt_of st gp) + 1) ->
          went
          /\ ((forall g, unset_wp_ret (hv st) g <= 0) ->
              writeprotection (spt_of st' gp) = false))).
Proof.
  intros H E Hgp Hpt went. unfold ppgtt_write_protection_handler in H.
  assert (fret (- EINVAL) st = Some (r, st') -> r <> 0 /\ ~ went) as Hrej.
  { intros [= Hr Hs]. split; [rewrite <- Hr; discriminate|]. intros [oos Hin].
    rewrite <- Hs in E.
    assert (evs = []) as ->
      by (apply (app_inv_head (trace st)); rewrite <- E, app_nil_r; reflexivity).
    destruct Hin. }
  destruct (negb (bytes =? 4) && negb (bytes =? 8)).
  { apply Hrej in H as [Hr Hw]. split; [tauto|]. intros _ _. split; [tauto|]. intros; lia. }
  rewrite fbind_lift, get_run in H. cbn [fst snd] in H.
  destruct (writeprotection (spt_of st gp)) eqn:Hwp; cbn [negb] in H.
  2: { apply Hrej in H as [Hr Hw]. split; [tauto|]. intros _ _. split; [tauto|]. intros; lia. }
  clear Hrej.
  apply fbind_inv in H as (r' & st2 & Hh & Hr).
  assert (r' = r /\ st2 = st') as [-> ->]
    by (destruct (negb (r' =? 0)); injection Hr as <- <-; auto).
  clear Hr.
  apply ppgtt_handle_guest_write_page_table_bytes_halves in Hh
    as (we & index & r1 & st1 & F1 & K1 & Ht).
  destruct (footprint_trace _ _ _ F1) as (evs1 & E1 & Fa1).
  destruct (negb (r1 =? 0)) eqn:Hr1.
  { (* the shadow could not be brought up to date *)
    destruct Ht as [-> ->].
    assert (~ went) as Hw.
    { intros [oos Hin].
      eapply (trace_grows_not_in _ _ _ _ _ (footprint_trace _ _ _ F1) E); [|exact Hin].
      reflexivity. }
    split; [tauto|]. intros _ _. split; [tauto|].
    intros ->. discriminate. }
  (* the write is counted *)
  assert (exists evs2, trace st' = trace st1 ++ evs2 /\ evs = evs1 ++ evs2) as (evs2 & E2 & ->).
  { assert (respects (footprint (fun _ => true)) (guest_write_out_of_sync gp we index)) as HR.
    { assert (subclass is_oos_pool_event (fun _ => true)) by (intros ? _; reflexivity).
      unfold guest_write_out_of_sync, ppgtt_set_guest_page_oos. fp_auto. }
    specialize (HR st1). rewrite Ht in HR. cbn [snd] in HR.
    destruct (footprint_trace _ _ _ HR) as (evs2 & E2 & _). exists evs2. split; [exact E2|].
    rewrite E2, E1, <- app_assoc in E. apply app_inv_head in E. auto. }
  destruct (guest_write_out_of_sync_spec _ _ _ _ _ _ _ Ht E2) as [Hdown Hup].
  assert (went -> exists oos, In (EvOosChange OosSetPageOutOfSync oos gp) evs2) as Hw2.
  { intros [oos Hin]. exists oos. apply in_app_or in Hin as [Hin|Hin]; [|exact Hin].
    exfalso. rewrite Forall_forall in Fa1. apply list_elem_of_In in Hin.
    specialize (Fa1 _ Hin). discriminate. }
  split.
  - intros Hw. apply Hw2, Hdown in Hw as (En & Ty & _).
    split; [reflexivity|]. split.
    + destruct (footprint_config _ _ _ F1) as (_ & _ & <- & _). exact En.
    + destruct F1 as (_ & _ & _ & Kt).
      destruct (spts st1 !! gp) as [s'|] eqn:Es'; [|discriminate Ty].
      destruct (Kt gp s' Hgp Es') as (s & Es & Hs). rewrite Es in Hpt |- *. cbn in *.
      destruct Hs as [Hs|Hs]; [congruence|]. rewrite Hs in Hpt. discriminate.
  - intros Hsp Hty. destruct (K1 Hsp Hty) as (Cf & Kc & Kt & _ & _).
    destruct Cf as (Hhv & _ & Hen & _).
    unfold goes_out_of_sync in Hdown, Hup. rewrite Kc, Kt, Hen in Hdown, Hup.
    split.
    + intros Hw. apply Hw2, Hdown in Hw. tauto.
    + intros -> En Hc. destruct (Hup ltac:(auto) ltac:(lia)) as [(oos & Hin) Hlift].
      split; [exists oos; apply in_or_app; auto|].
      intros Hle. apply Hlift. rewrite Hhv. exact Hle.
Qed.

(** C4 (as stated) fails: the guest clears entry 0 of a write-protected
    page directory that it has written five times already, with the
    feature on.  The write is handled with success and counted, the page
    is hot as documented, and it stays write-protected: only leaf-level
    page tables go out of sync. *)
Lemma hot_page_directory_stays_protected :
  ~ out_of_sync_as_documented 1 hot_pd_state 1 0x30000 0 8
  /\ (let st' := state_after hot_pd_state
                   (ppgtt_write_protection_handler 1 1 0x30000 0 8 hot_pd_state) in
      write_cnt (spt_of st' 1%nat) = 6
      /\ writeprotection (spt_of st' 1%nat) = true
      /\ oos_page_list_head st' = []).
Proof.
  split; [|vm_compute; auto].
  intros H.
  specialize (H (state_after hot_pd_state
                   (ppgtt_write_protection_handler 1 1 0x30000 0 8 hot_pd_state))
                ltac:(reflexivity) ltac:(vm_compute; reflexivity)).
  destruct H as [_ H]. specialize (H ltac:(vm_compute; reflexivity)).
  vm_compute in H. discriminate H.
Qed.

Lemma out_of_sync_transition_witness :
  let st := warm_pt_state in
  let st' := state_after st (ppgtt_write_protection_handler 1 1 0x50018 0x77001 8 st) in
  let went := exists oos, In (EvOosChange OosSetPageOutOfSync oos 1%nat) (new_events st st') in
  (went ->
   writeprotection (spt_of st 1%nat) = true
   /\ enable_gvt_oos st = true
   /\ guest_page_type (spt_of st 1%nat) = GTT_TYPE_PPGTT_PTE_PT)
  /\ (sp_type (spt_of st 1%nat) = GTT_TYPE_PPGTT_PTE_PT ->
      guest_page_type (spt_of st 1%nat) = GTT_TYPE_PPGTT_PTE_PT ->
      (went -> 2 <= wrap_int (write_cnt (spt_of st 1%nat) + 1))
      /\ (0 = 0 -> enable_gvt_oos st = true ->
          2 <= wrap_int (write_cnt (spt_of st 1%nat) + 1) ->
          went
          /\ ((forall g, unset_wp_ret (hv st) g <= 0) ->
              writeprotection (spt_of st' 1%nat) = false))).
Proof.
  apply (out_of_sync_transition 1 warm_pt_state _ 1 0x50018 0x77001 8 0).
  - vm_compute. reflexivity.
  - vm_compute. reflexivity.
  - vm_compute. lia.
  - reflexivity.
Defined.

(** In that run the page table does go out of sync. *)
Example warm_page_table_goes_out_of_sync :
  let st' := state_after warm_pt_state
               (ppgtt_write_protection_handler 1 1 0x50018 0x77001 8 warm_pt_state) in
  writeprotection (spt_of st' 1%nat) = false
  /\ oos_page (spt_of st' 1%nat) = Some 1%nat
  /\ oos_page_list_head st' = [1%nat]
  /\ page_read (sp_vaddr (spt_of st' 1%nat)) 3 = 0x1077001.
Proof. vm_compute. auto. Qed.

(** ** Allocation under memory pressure *)

(** *** What releasing shadow pages leaves alone *)

Lemma up_step (f : vgpu_state -> vgpu_state) :
  (forall st, untouched_pool st (f st)) -> respects untouched_pool (modify f).
Proof. intros H st. rewrite modify_run. apply H. Qed.

Lemma up_emit ev : respects untouched_pool (emit ev).
Proof. intros st. rewrite emit_run. unfold untouched_pool. st_norm. auto. Qed.

Ltac solve_untouched :=
  unfold upd_spt, upd_oos, upd_mm, free_spt, clean_shadow_page;
  apply up_step; intros; unfold untouched_pool; st_norm; auto.

#[global] Hint Resolve untouched_pool_refl untouched_pool_trans up_emit : fp.
#[global] Hint Extern 1 (respects untouched_pool (modify _)) => solve_untouched : fp.
#[global] Hint Extern 1 (respects untouched_pool (upd_spt _ _)) => solve_untouched : fp.
#[global] Hint Extern 1 (respects untouched_pool (upd_oos _ _)) => solve_untouched : fp.
#[global] Hint Extern 1 (respects untouched_pool (upd_mm _ _)) => solve_untouched : fp.
#[global] Hint Extern 1 (respects untouched_pool (free_spt _)) => solve_untouched : fp.
#[global] Hint Extern 1 (respects untouched_pool (clean_shadow_page _)) => solve_untouched : fp.

Lemma pt_store_up pt index v : respects untouched_pool (pt_store pt index v).
Proof. unfold pt_store. fp_auto. Qed.
#[global] Hint Resolve pt_store_up : fp.

Lemma gtt_get_entry64__BKL_up pt e index guest gpa :
  respects untouched_pool (gtt_get_entry64__BKL pt e index guest gpa).
Proof.
  unfold gtt_get_entry64__BKL, gtt_get_entry64, intel_gvt_hypervisor_read_gpa, read_pte64.
  fp_auto.
Qed.
#[global] Hint Resolve gtt_get_entry64__BKL_up : fp.

Lemma gtt_set_entry64__BKL_up pt e index guest gpa :
  respects untouched_pool (gtt_set_entry64__BKL pt e index guest gpa).
Proof.
  unfold gtt_set_entry64__BKL, gtt_set_entry64, intel_gvt_hypervisor_write_gpa, write_pte64.
  fp_auto.
Qed.
#[global] Hint Resolve gtt_set_entry64__BKL_up : fp.

Lemma ppgtt_get_shadow_entry_up spt e index :
  respects untouched_pool (ppgtt_get_shadow_entry spt e index).
Proof. unfold ppgtt_get_shadow_entry, ppgtt_spt_get_entry. fp_auto. Qed.
#[global] Hint Resolve ppgtt_get_shadow_entry_up : fp.

Lemma ppgtt_free_shadow_page_up spt : respects untouched_pool (ppgtt_free_shadow_page spt).
Proof.
  unfold ppgtt_free_shadow_page, intel_vgpu_clean_guest_page, detach_oos_page,
    intel_gvt_hypervisor_unset_wp_page.
  fp_auto.
Qed.
#[global] Hint Resolve ppgtt_free_shadow_page_up : fp.

Lemma ppgtt_invalidate_shadow_page_up fuel :
  forall spt, frespects untouched_pool (ppgtt_invalidate_shadow_page fuel spt).
Proof.
  induction fuel as [|fuel IH]; intros spt; cbn [ppgtt_invalidate_shadow_page].
  - apply frespects_out_of_fuel.
  - assert (forall e, frespects untouched_pool
              (ppgtt_invalidate_shadow_page_by_shadow_entry
                 (ppgtt_invalidate_shadow_page fuel) e)) as Hby
      by (intros; unfold ppgtt_invalidate_shadow_page_by_shadow_entry; fp_auto).
    fp_auto.
Qed.
#[global] Hint Resolve ppgtt_invalidate_shadow_page_up : fp.

Lemma invalidate_mm_up fuel mm : frespects untouched_pool (invalidate_mm fuel mm).
Proof.
  assert (forall e, frespects untouched_pool
            (ppgtt_invalidate_shadow_page_by_shadow_entry
               (ppgtt_invalidate_shadow_page fuel) e)) as Hby
    by (intros; unfold ppgtt_invalidate_shadow_page_by_shadow_entry; fp_auto).
  unfold invalidate_mm, invalidate_mm_pv, ppgtt_get_shadow_root_entry,
    ppgtt_set_shadow_root_entry, intel_vgpu_mm_get_entry, intel_vgpu_mm_set_entry.
  fp_auto.
Qed.
#[global] Hint Resolve invalidate_mm_up : fp.

(** *** One round of the retry loop *)

Lemma alloc_spt_fails st :
  alloc_spt_ok (hv st) (alloc_calls st) = false ->
  alloc_spt st = (None, set_alloc_calls st (Datatypes.S (alloc_calls st))).
Proof. intros H. unfold alloc_spt. run. rewrite H. run. reflexivity. Qed.

Lemma alloc_spt_succeeds st :
  alloc_spt_ok (hv st) (alloc_calls st) = true ->
  exists st1, alloc_spt st = (Some (next_spt st), st1)
              /\ alloc_calls st1 = Datatypes.S (alloc_calls st).
Proof. intros H. unfold alloc_spt. run. rewrite H. run. eexists. split; reflexivity. Qed.

Lemma reclaim_one_mm_cases fuel st r st' :
  reclaim_one_mm fuel st = Some (r, st') ->
  (List.find (reclaimable st) (mm_lru_list_head st) = None /\ r = 0 /\ st' = st)
  \/ (exists mm,
        List.find (reclaimable st) (mm_lru_list_head st) = Some mm
        /\ r = 1
        /\ invalidate_mm fuel mm
             (set_mm_lru_list_head (set_trace st (trace st ++ [EvReclaim mm]))
                (list_del mm (mm_lru_list_head st)))
           = Some (tt, st')).
Proof.
  unfold reclaim_one_mm. rewrite fbind_lift, get_run. cbn [fst snd].
  destruct (List.find (reclaimable st) (mm_lru_list_head st)) as [mm|].
  - rewrite !fbind_lift, emit_run, modify_run. cbn [fst snd]. st_norm.
    intros H. apply fbind_inv in H as ([] & st2 & Hi & [= <- <-]).
    right. exists mm. auto.
  - intros [= <- <-]. left. auto.
Qed.

Lemma reclaim_one_mm_returns fuel st :
  List.find (reclaimable st) (mm_lru_list_head st) = None ->
  reclaim_one_mm fuel st = Some (0, st).
Proof.
  intros H. unfold reclaim_one_mm. rewrite fbind_lift, get_run. cbn [fst snd].
  rewrite H. reflexivity.
Qed.

Lemma new_events_app st st' evs : trace st' = trace st ++ evs -> new_events st st' = evs.
Proof. intros E. unfold new_events. rewrite E. apply drop_app_length. Qed.

Lemma reclaimed_mms_app evs1 evs2 :
  reclaimed_mms (evs1 ++ evs2) = reclaimed_mms evs1 ++ reclaimed_mms evs2.
Proof. apply omap_app. Qed.

Lemma reclaimed_mms_none evs :
  Forall (fun ev => not_reclaim ev = true) evs -> reclaimed_mms evs = [].
Proof.
  induction 1 as [|ev evs Hev _ IH]; [reflexivity|].
  unfold reclaimed_mms in *. cbn [omap list_omap]. destruct ev; try discriminate; exact IH.
Qed.

(** What follows a successful [alloc_spt] neither allocates nor
    reclaims. *)
Lemma ppgtt_alloc_shadow_page_tail st st1 spt ty g r st' :
  alloc_spt st = (Some spt, st1) ->
  (do? lift (upd_spt spt (fun s => set_refcount (set_guest_page_type s ty) 1)) in
   let? r := lift (init_shadow_page spt ty) in
   if negb (r =? 0) then
     do? lift (ppgtt_free_shadow_page spt) in fret (inl r : ptr_or_err)
   else
     let? r := lift (intel_vgpu_init_guest_page spt g) in
     if negb (r =? 0) then
       do? lift (ppgtt_free_shadow_page spt) in fret (inl r)
     else
       do? lift (emit (EvSptAlloc spt)) in
       fret (inr spt)) st1 = Some (r, st') ->
  footprint not_reclaim st st' /\ alloc_calls st' = alloc_calls st1.
Proof.
  intros Ea H. split.
  - rewrite fbind_lift in H.
    eapply footprint_trans; [eapply alloc_then_init_fp; exact Ea|].
    match type of H with ?m _ = _ =>
      assert (frespects (footprint not_reclaim) m) as Hf
    end.
    { assert (subclass is_teardown_event not_reclaim) by solve_subclass. fp_auto. }
    exact (Hf _ _ _ H).
  - match type of H with ?m _ = _ =>
      assert (frespects untouched_pool m) as Hf
    end.
    { unfold init_shadow_page, intel_vgpu_init_guest_page. fp_auto. }
    destruct (Hf _ _ _ H) as (Hc & _). exact Hc.
Qed.

Lemma ppgtt_alloc_shadow_page_loop ty g fuel :
  forall st r st',
    ppgtt_alloc_shadow_page fuel ty g st = Some (r, st') ->
    exists evs,
      trace st' = trace st ++ evs
      /\ hv st' = hv st
      /\ alloc_calls st' = (alloc_calls st + length (reclaimed_mms evs) + 1)%nat
      /\ failed_attempts st (length (reclaimed_mms evs))
      /\ (alloc_spt_ok (hv st) (alloc_calls st + length (reclaimed_mms evs)) = false ->
          r = inl (- ENOMEM)
          /\ List.find (reclaimable st') (mm_lru_list_head st') = None).
Proof.
  induction fuel as [|fuel IH]; intros st r st'; cbn [ppgtt_alloc_shadow_page];
    [discriminate|].
  rewrite fbind_lift.
  destruct (alloc_spt_ok (hv st) (alloc_calls st)) eqn:Hok.
  - (* the allocator delivers *)
    destruct (alloc_spt_succeeds st Hok) as (st1 & Ea & Hc1). rewrite Ea. cbn [fst snd].
    intros H. destruct (ppgtt_alloc_shadow_page_tail _ _ _ _ _ _ _ Ea H) as [F Hc].
    destruct F as (Cf & (evs & E & Fa) & _). exists evs.
    rewrite (reclaimed_mms_none _ Fa). cbn [length]. rewrite Nat.add_0_r.
    split; [exact E|]. split; [apply Cf|]. split; [lia|].
    split; [intros i Hi; lia|]. rewrite Hok. discriminate.
  - (* it does not: reclaim, and go round again if an mm was taken *)
    rewrite (alloc_spt_fails st Hok). cbn [fst snd].
    set (st1 := set_alloc_calls st (Datatypes.S (alloc_calls st))).
    intros H. apply fbind_inv in H as (r1 & st2 & Hr & H).
    apply reclaim_one_mm_cases in Hr as [(Hn & -> & ->) | (mm & Hf & -> & Hi)].
    + injection H as <- <-. exists []. cbn [length reclaimed_mms omap list_omap].
      rewrite app_nil_r, Nat.add_0_r. subst st1. st_norm.
      split; [reflexivity|]. split; [reflexivity|]. split; [lia|].
      split; [intros i Hi; lia|]. intros _. split; [reflexivity | exact Hn].
    + change (negb (1 =? 0)) with true in H. cbv iota in H.
      pose proof (invalidate_mm_fp not_reclaim fuel mm ltac:(solve_subclass) _ _ _ Hi)
        as (Cf & (evs2 & E2 & Fa2) & _).
      pose proof (invalidate_mm_up fuel mm _ _ _ Hi) as (Hc2 & _).
      destruct Cf as (Hhv & _). subst st1. st_norm in E2. st_norm in Hc2. st_norm in Hhv.
      destruct (IH _ _ _ H) as (evs3 & E3 & Hhv3 & Hc3 & Hfail3 & Hlast).
      exists (EvReclaim mm :: evs2 ++ evs3).
      assert (reclaimed_mms (EvReclaim mm :: evs2 ++ evs3) = mm :: reclaimed_mms evs3) as ->.
      { change (EvReclaim mm :: evs2 ++ evs3) with ([EvReclaim mm] ++ evs2 ++ evs3).
        rewrite !reclaimed_mms_app, (reclaimed_mms_none _ Fa2). reflexivity. }
      cbn [length].
      split; [rewrite E3, E2, <- !app_assoc; reflexivity|].
      split; [congruence|]. split; [lia|]. split.
      * intros i Hi'. destruct i as [|i]; [rewrite Nat.add_0_r; exact Hok|].
        specialize (Hfail3 i ltac:(lia)). rewrite Hhv, Hc2 in Hfail3.
        replace (alloc_calls st + Datatypes.S i)%nat
          with (Datatypes.S (alloc_calls st) + i)%nat by lia.
        exact Hfail3.
      * rewrite Hhv, Hc2 in Hlast.
        replace (alloc_calls st + Datatypes.S (length (reclaimed_mms evs3)))%nat
          with (Datatypes.S (alloc_calls st) + length (reclaimed_mms evs3))%nat by lia.
        exact Hlast.
Qed.

(** C5 (as the code has it).  [ppgtt_alloc_shadow_page] goes round a
    loop.  Every failed call of the allocator is followed by one call of
    [reclaim_one_mm]; when that took an mm off the LRU list the
    allocation is tried again, as often as it takes, and when it found
    none the function returns -ENOMEM, without another try.  So of a run
    that returns after [n] mms were reclaimed: the allocator was called
    [n + 1] times, the first [n] calls failed, and if the last call
    failed too the result is -ENOMEM and nothing on the LRU list can be
    reclaimed.  The function returns when the allocator delivers at
    once (nothing is reclaimed then) and when it does not and nothing
    can be reclaimed; when an mm can be reclaimed, it is taken off the
    list and invalidated and the function starts over. *)
Theorem ppgtt_alloc_shadow_page_retries (fuel : nat) (ty : gtt_type) (g : Z)
    (st : vgpu_state) :
  (forall r st',
     ppgtt_alloc_shadow_page fuel ty g st = Some (r, st') ->
     let n := length (reclaimed_mms (new_events st st')) in
     alloc_calls st' = (alloc_calls st + n + 1)%nat
     /\ failed_attempts st n
     /\ (alloc_spt_ok (hv st) (alloc_calls st + n) = false ->
         r = inl (- ENOMEM)
         /\ List.find (reclaimable st') (mm_lru_list_head st') = None))
  /\ (alloc_spt_ok (hv st) (alloc_calls st) = true ->
      exists r st',
        ppgtt_alloc_shadow_page (Datatypes.S fuel) ty g st = Some (r, st')
        /\ reclaimed_mms (new_events st st') = [])
  /\ (alloc_spt_ok (hv st) (alloc_calls st) = false ->
      let st1 := set_alloc_calls st (Datatypes.S (alloc_calls st)) in
      match List.find (reclaimable st) (mm_lru_list_head st) with
      | None =>
          ppgtt_alloc_shadow_page (Datatypes.S fuel) ty g st = Some (inl (- ENOMEM), st1)
      | Some mm =>
          ppgtt_alloc_shadow_page (Datatypes.S fuel) ty g st
          = (do? invalidate_mm fuel mm in ppgtt_alloc_shadow_page fuel ty g)
              (set_mm_lru_list_head (set_trace st1 (trace st ++ [EvReclaim mm]))
                 (list_del mm (mm_lru_list_head st)))
      end).
Proof.
  split; [|split].
  - intros r st' H. destruct (ppgtt_alloc_shadow_page_loop _ _ _ _ _ _ H)
      as (evs & E & _ & Hc & Hf & Hl).
    rewrite (new_events_app _ _ _ E). cbv zeta. auto.
  - intros Hok. destruct (alloc_spt_succeeds st Hok) as (st1 & Ea & Hc1).
    assert (exists r st', ppgtt_alloc_shadow_page (Datatypes.S fuel) ty g st = Some (r, st'))
      as (r & st' & H).
    { cbn [ppgtt_alloc_shadow_page]. rewrite fbind_lift, Ea. cbn [fst snd].
      rewrite !fbind_lift.
      destruct (negb (_ =? 0)); [rewrite fbind_lift, fret_run; eauto|].
      rewrite fbind_lift.
      destruct (negb (_ =? 0)); rewrite fbind_lift, fret_run; eauto. }
    exists r, st'. split; [exact H|].
    cbn [ppgtt_alloc_shadow_page] in H. rewrite fbind_lift, Ea in H. cbn [fst snd] in H.
    destruct (ppgtt_alloc_shadow_page_tail _ _ _ _ _ _ _ Ea H) as [(_ & (evs & E & Fa) & _) _].
    rewrite (new_events_app _ _ _ E). apply reclaimed_mms_none, Fa.
  - intros Hok st1. cbn [ppgtt_alloc_shadow_page].
    rewrite fbind_lift, (alloc_spt_fails st Hok). cbn [fst snd]. fold st1.
    destruct (List.find (reclaimable st) (mm_lru_list_head st)) as [mm|] eqn:Hf.
    + unfold reclaim_one_mm, fbind at 1 2. rewrite lift_run, get_run.
      change (List.find (reclaimable st1) (mm_lru_list_head st1))
        with (List.find (reclaimable st) (mm_lru_list_head st)).
      rewrite Hf. rewrite !fbind_lift, emit_run, modify_run. cbn [fst snd]. st_norm.
      unfold fbind. destruct (invalidate_mm fuel mm _) as [[[] s]|]; reflexivity.
    + rewrite (fbind_some _ _ _ _ _ (reclaim_one_mm_returns fuel st1 Hf)). reflexivity.
Qed.

(** C5 (as stated) fails: the allocator fails twice and two unpinned
    PPGTT mms are on the LRU list.  The allocation does not give up
    after one retry: it calls the allocator three times, reclaims both
    mms and returns the new shadow page. *)
Lemma alloc_retries_until_nothing_reclaimable :
  ~ retries_once_as_documented 3 exhausted_state GTT_TYPE_PPGTT_PTE_PT 0x50
  /\ (let run := ppgtt_alloc_shadow_page 3 GTT_TYPE_PPGTT_PTE_PT 0x50 exhausted_state in
      let st' := state_after exhausted_state run in
      fst <$> run = Some (inr 1%nat)
      /\ alloc_calls st' = 3%nat
      /\ reclaimed_mms (new_events exhausted_state st') = [2%nat; 3%nat]
      /\ mm_lru_list_head st' = []).
Proof.
  split; [|vm_compute; auto].
  intros H.
  destruct (H (inr 1%nat)
              (state_after exhausted_state
                 (ppgtt_alloc_shadow_page 3 GTT_TYPE_PPGTT_PTE_PT 0x50 exhausted_state))
              ltac:(vm_compute; reflexivity)) as (Hc & _).
  vm_compute in Hc. lia.
Qed.

Lemma ppgtt_alloc_shadow_page_retries_witness :
  let st := exhausted_state in
  let st' := state_after st (ppgtt_alloc_shadow_page 3 GTT_TYPE_PPGTT_PTE_PT 0x50 st) in
  let n := length (reclaimed_mms (new_events st st')) in
  alloc_calls st' = (alloc_calls st + n + 1)%nat
  /\ failed_attempts st n
  /\ (alloc_spt_ok (hv st) (alloc_calls st + n) = false ->
      inr 1%nat = inl (- ENOMEM)
      /\ List.find (reclaimable st') (mm_lru_list_head st') = None).
Proof.
  apply (proj1 (ppgtt_alloc_shadow_page_retries 3 GTT_TYPE_PPGTT_PTE_PT 0x50 exhausted_state)
           (inr 1%nat)).
  vm_compute. reflexivity.
Defined.

(** With an empty LRU list the failure is handed to the caller after
    the first call of the allocator. *)
Example alloc_fails_without_retry :
  let st := set_mm_lru_list_head exhausted_state [] in
  ppgtt_alloc_shadow_page 1 GTT_TYPE_PPGTT_PTE_PT 0x50 st
  = Some (inl (- ENOMEM), set_alloc_calls st 1).
Proof. reflexivity. Qed.

(** ** A trapped write of one full entry *)

Lemma pt_store_trace pt index v st :
  trace (snd (pt_store pt index v st)) = trace st ++ [EvSetEntry pt index v].
Proof. unfold pt_store. destruct pt; unfold upd_spt, upd_oos, upd_mm; run; reflexivity. Qed.

Lemma pt_store_shadow_read id index v st :
  is_Some (spts (snd (pt_store (PtShadow id) index v st)) !! id) ->
  page_read (sp_vaddr (spt_of (snd (pt_store (PtShadow id) index v st)) id)) index = v.
Proof.
  unfold pt_store, upd_spt. run. rewrite lookup_alter_eq.
  destruct (spts st !! id) as [s|]; cbn; [|intros [? [=]]].
  intros _. apply page_read_write_eq.
Qed.

Lemma ppgtt_set_shadow_entry_run spt e index st :
  gtt_entry_size (device_info st) = 8 ->
  gtt_type_is_entry (type e) = true ->
  ppgtt_set_shadow_entry spt e index st
  = (0, snd (pt_store (PtShadow spt) index (val64 e) st)).
Proof.
  intros H8 He. unfold ppgtt_set_shadow_entry, ppgtt_spt_set_entry. run. rewrite He. run.
  apply gtt_set_entry64__BKL_pt, H8.
Qed.

(** Reading a shadow entry changes nothing. *)
Lemma ppgtt_get_shadow_entry_pure spt e index st :
  snd (ppgtt_get_shadow_entry spt e index st) = st.
Proof.
  unfold ppgtt_get_shadow_entry, ppgtt_spt_get_entry, gtt_get_entry64__BKL, gtt_get_entry64.
  run. destruct (negb (gtt_type_is_entry _)); run; [reflexivity|].
  rewrite orb_true_r. run.
  destruct (gtt_entry_size (device_info st) =? 8); run; [|reflexivity].
  destruct (negb (0 =? 0)); reflexivity.
Qed.

Lemma gen8_gtt_set_pfn_type e m : type (gen8_gtt_set_pfn e m) = type e.
Proof. unfold gen8_gtt_set_pfn. repeat case_bool_decide; reflexivity. Qed.

Lemma gtt_entry_p2m_type p st : type (snd (fst (gtt_entry_p2m p st))) = type p.
Proof.
  unfold gtt_entry_p2m. destruct (negb (gen8_gtt_test_present p)); [reflexivity|].
  run. destruct (negb (_ =? saved_gfn st)); run.
  - unfold intel_gvt_hypervisor_gfn_to_mfn. run.
    destruct (_ =? INTEL_GVT_INVALID_ADDR); run; [reflexivity | apply gen8_gtt_set_pfn_type].
  - destruct (_ =? INTEL_GVT_INVALID_ADDR); run; [reflexivity | apply gen8_gtt_set_pfn_type].
Qed.

(** An error pointer holds an error. *)
Lemma ppgtt_alloc_shadow_page_err ty g fuel :
  forall st err st', ppgtt_alloc_shadow_page fuel ty g st = Some (inl err, st') -> err <> 0.
Proof.
  induction fuel as [|fuel IH]; intros st err st'; cbn [ppgtt_alloc_shadow_page];
    [discriminate|].
  rewrite fbind_lift. destruct (alloc_spt st) as [[spt|] st1]; cbn [fst snd].
  - rewrite !fbind_lift.
    destruct (Z.eqb_spec (fst (init_shadow_page spt ty
                (snd (upd_spt spt (fun s => set_refcount (set_guest_page_type s ty) 1) st1)))) 0)
      as [E|E]; cbn [negb].
    + rewrite fbind_lift.
      match goal with |- context [negb (?x =? 0)] => destruct (Z.eqb_spec x 0) as [E'|E'] end;
        cbn [negb]; rewrite fbind_lift, fret_run; intros H; inversion H; subst; exact E'.
    + rewrite fbind_lift, fret_run. intros [= <- _]. exact E.
  - intros H. apply fbind_inv in H as (r & st2 & _ & H).
    destruct (negb (r =? 0)); [eapply IH; exact H|].
    injection H as <- _. discriminate.
Qed.

Lemma ppgtt_populate_shadow_page_by_guest_entry_err pop fuel we st err st' :
  ppgtt_populate_shadow_page_by_guest_entry pop fuel we st = Some (inl err, st') -> err <> 0.
Proof.
  unfold ppgtt_populate_shadow_page_by_guest_entry.
  destruct (negb (gtt_type_is_pt _)); [intros [= <- _]; discriminate|].
  rewrite fbind_lift, get_run. cbn [fst snd].
  destruct (intel_vgpu_find_guest_page st _) as [s|].
  - rewrite fbind_lift, fret_run. discriminate.
  - intros H. apply fbind_inv in H as ([e|s] & st1 & Ha & H).
    + injection H as <- _. eapply ppgtt_alloc_shadow_page_err, Ha.
    + rewrite fbind_lift in H.
      match type of H with context [negb (?x =? 0)] =>
        destruct (Z.eqb_spec x 0) as [E|E] end; cbn [negb] in H.
      2: { injection H as <- _. exact E. }
      apply fbind_inv in H as (r & st2 & _ & H).
      destruct (Z.eqb_spec r 0) as [E'|E']; cbn [negb] in H; [discriminate H|].
      injection H as <- _. exact E'.
Qed.

Lemma footprint_events c st st' :
  footprint c st st' ->
  exists evs, trace st' = trace st ++ evs
              /\ Forall (fun ev => c ev = true) evs
              /\ device_info st' = device_info st.
Proof. intros ((_ & Hd & _) & (evs & E & Fa) & _). eauto. Qed.

(** A guest entry that was added with success has its shadow entry
    written, last of all. *)
Lemma ppgtt_handle_guest_entry_add_writes fuel gpt we index st st1 :
  ppgtt_handle_guest_entry_add fuel gpt we index st = Some (0, st1) ->
  gtt_entry_size (device_info st) = 8 ->
  gtt_type_is_entry (type we) = true ->
  exists adds v,
    trace st1 = trace st ++ adds ++ [EvSetEntry (PtShadow gpt) index v]
    /\ Forall (fun ev => is_add_event ev = true) adds.
Proof.
  intros H H8 He. unfold ppgtt_handle_guest_entry_add in H.
  rewrite fbind_lift, emit_run in H. cbn [fst snd] in H.
  set (st0 := set_trace st _) in H.
  assert (subclass is_shadowing_event is_add_event) as Hs by solve_subclass.
  destruct (gtt_type_is_pt (get_next_pt_type (type we))).
  - apply fbind_inv in H as ([err|s] & st2 & Hp & H).
    { injection H as -> _. apply ppgtt_populate_shadow_page_by_guest_entry_err in Hp.
      congruence. }
    pose proof (ppgtt_populate_shadow_page_by_guest_entry_fp is_add_event
                  (ppgtt_populate_shadow_page fuel) fuel we Hs
                  (ppgtt_populate_shadow_page_fp is_add_event fuel Hs) _ _ _ Hp) as F.
    apply footprint_events in F as (evs & E & Fa & Hd).
    rewrite fbind_lift in H.
    pose proof (ppgtt_get_shadow_entry_pure gpt uninit_entry index st2) as Hpure.
    destruct (ppgtt_get_shadow_entry gpt uninit_entry index st2) as [[r0 m] st3].
    cbn [fst snd] in *. subst st3.
    rewrite fbind_lift, get_run in H. cbn [fst snd] in H.
    rewrite fbind_lift, ppgtt_set_shadow_entry_run in H.
    + cbn [fst snd] in H. injection H as <-.
      exists (EvGptChangeAdd gpt (val64 we) index :: evs). eexists.
      rewrite ?pt_store_trace. st_norm. rewrite E. subst st0. st_norm.
      rewrite <- !app_assoc.
      split; [reflexivity|]. constructor; [reflexivity | exact Fa].
    + rewrite Hd. exact H8.
    + unfold ppgtt_generate_shadow_entry. rewrite gen8_gtt_set_pfn_type. exact He.
  - rewrite fbind_lift in H.
    pose proof (gtt_entry_p2m_fp is_add_event we ltac:(reflexivity) st0) as F.
    pose proof (gtt_entry_p2m_type we st0) as Ht.
    destruct (gtt_entry_p2m we st0) as [[r m] st2]. cbn [fst snd] in *.
    apply footprint_events in F as (evs & E & Fa & Hd).
    destruct (Z.eqb_spec r 0) as [->|Hr]; cbn [negb] in H.
    2: { injection H as -> _. congruence. }
    rewrite fbind_lift, ppgtt_set_shadow_entry_run in H.
    + cbn [fst snd] in H. injection H as <-.
      exists (EvGptChangeAdd gpt (val64 we) index :: evs). eexists.
      rewrite ?pt_store_trace. st_norm. rewrite E. subst st0. st_norm.
      rewrite <- !app_assoc.
      split; [reflexivity|]. constructor; [reflexivity | exact Fa].
    + rewrite Hd. exact H8.
    + rewrite Ht. exact He.
Qed.

(** The removal of what an old shadow entry maps begins with its
    marker; what follows is teardown. *)
Lemma ppgtt_handle_guest_entry_removal_trace fuel gpt se index st r st' :
  ppgtt_handle_guest_entry_removal fuel gpt se index st = Some (r, st') ->
  exists rems,
    trace st' = trace st ++ EvGptChangeRemove gpt (val64 se) index :: rems
    /\ Forall (fun ev => is_teardown_event ev = true) rems
    /\ device_info st' = device_info st
    /\ scratch_pt_mfn st' = scratch_pt_mfn st.
Proof.
  unfold ppgtt_handle_guest_entry_removal. rewrite fbind_lift, emit_run. cbn [fst snd].
  intros H.
  match type of H with ?m _ = _ =>
    assert (frespects (footprint is_teardown_event) m) as Hf
  end.
  { assert (subclass is_teardown_event is_teardown_event) by apply subclass_refl. fp_auto. }
  destruct (Hf _ _ _ H) as ((_ & Hd & _ & _ & Hsc & _) & (evs & E & Fa) & _).
  st_norm in E. st_norm in Hd. st_norm in Hsc.
  exists evs. rewrite E, <- app_assoc. auto.
Qed.

Lemma pfn_field_roundtrip v m M :
  Z.land (u64_not M) M = 0 ->
  Z.shiftl (Z.shiftr M 12) 12 = M ->
  Z.shiftr (Z.land (Z.lor (Z.land v (u64_not M)) (Z.shiftl (Z.land m (Z.shiftr M 12)) 12)) M) 12
  = Z.land m (Z.shiftr M 12).
Proof.
  intros H0 HM. rewrite Z.land_lor_distr_l, <- Z.land_assoc, H0, Z.land_0_r, Z.lor_0_l.
  set (K := Z.shiftr M 12) in *. rewrite <- HM, <- Z.shiftl_land, <- Z.land_assoc, Z.land_diag.
  rewrite Z.shiftr_shiftl_l by lia. apply Z.shiftl_0_r.
Qed.

(** The frame [gen8_gtt_set_pfn] stores is read back by
    [gen8_gtt_get_pfn], cut to the frame field of the entry type. *)
Lemma gen8_gtt_get_pfn_set_pfn e m :
  gen8_gtt_get_pfn (gen8_gtt_set_pfn e m) = Z.land m (Z.shiftr (addr_mask (type e)) 12).
Proof.
  unfold gen8_gtt_get_pfn, gen8_gtt_set_pfn, addr_mask.
  destruct (bool_decide (type e = GTT_TYPE_PPGTT_PTE_1G_ENTRY)) eqn:E1;
    [|destruct (bool_decide (type e = GTT_TYPE_PPGTT_PTE_2M_ENTRY)) eqn:E2];
    cbn [type val64 set_val64]; rewrite ?E1, ?E2;
    apply pfn_field_roundtrip; vm_compute; reflexivity.
Qed.

Lemma gen8_gtt_test_pse_is_entry e :
  gtt_type_is_entry (type e) = true ->
  gtt_type_is_entry (type (snd (gen8_gtt_test_pse e))) = true.
Proof.
  unfold gen8_gtt_test_pse. destruct e as [v t]. cbn [type val64 set_type].
  destruct t; intros Ht; try discriminate Ht; cbn;
    try reflexivity; destruct (negb (nonzero _)); reflexivity.
Qed.

Lemma ppgtt_get_shadow_entry_is_entry spt e index st :
  gtt_type_is_pt (sp_type (spt_of st spt)) = true ->
  gtt_type_is_entry (type (snd (fst (ppgtt_get_shadow_entry spt e index st)))) = true.
Proof.
  unfold ppgtt_get_shadow_entry. run. generalize (sp_type (spt_of st spt)). intros ty Hty.
  unfold ppgtt_spt_get_entry.
  assert (gtt_type_is_entry (get_entry_type ty) = true) as He
    by (destruct ty; try discriminate Hty; reflexivity).
  cbn [type set_type]. rewrite He. run.
  match goal with |- context [gtt_get_entry64__BKL ?a ?b ?c ?d ?f ?s] =>
    pose proof (gtt_get_entry64__BKL_type a b c d f s) as H;
    destruct (gtt_get_entry64__BKL a b c d f s) as [[r e'] st']
  end.
  cbn [fst snd type set_type] in *. rewrite <- H in He.
  destruct (negb (r =? 0)); run; [exact He | apply gen8_gtt_test_pse_is_entry, He].
Qed.



(** In that run a shadow page (object 5) is made for the new page
    table and the slot is pointed at it before the shadow of the old
    page table (object 4) is released. *)
Example page_directory_entry_is_replaced :
  let st' := state_after walk_state
               (ppgtt_handle_guest_write_page_table 2 3
                  (mk_entry 0x60001 GTT_TYPE_PPGTT_PDE_ENTRY) 0 walk_state) in
  filter (fun ev => is_set_entry_at (PtShadow 3) 0 ev = true
                    \/ is_removal_event ev = true)
         (new_events walk_state st')
  = [EvSetEntry (PtShadow 3) 0 0x105001; EvGptChangeRemove 3 0x104001 0;
     EvSptRefcountDec 4; EvSptFree 4; EvUnsetWp 0x50]
  /\ page_read (sp_vaddr (spt_of st' 3%nat)) 0 = 0x105001
  /\ spts st' !! 4%nat = None.
Proof. vm_compute. auto. Qed.

(** The guest clears that entry instead: the shadow of the page table
    is released and the slot is pointed at the scratch page of the level
    of the page directory, frame 0x20d, the flags of the old shadow
    entry kept. *)
Example page_directory_entry_is_cleared :
  let st' := state_after walk_state
               (ppgtt_handle_guest_write_page_table 2 3
                  (mk_entry 0 GTT_TYPE_PPGTT_PDE_ENTRY) 0 walk_state) in
  new_events walk_state st'
  = [EvGptChangeRemove 3 0x104001 0; EvSptRefcountDec 4; EvSptFree 4; EvUnsetWp 0x50;
     EvSetEntry (PtShadow 3) 0 0x20d001]
  /\ page_read (sp_vaddr (spt_of st' 3%nat)) 0 = 0x20d001.
Proof. vm_compute. auto. Qed.
